(** * Real-time update delivery: the connection manager, its rate limiter,
      the reconnect route, the receive loop and the fallback poller.

    Shallow embedding of
      - backend/app/websocket_manager.py   (class WebSocketManager)
      - backend/app/routes/websocket.py    (websocket_endpoint, reconnect_session)
      - backend/app/services/fallback_polling.py (class FallbackPollingService)

    Conventions of the embedding.
      - A Python dict whose iteration order the code observes is an
        insertion-ordered association list (module [PyDict]); the other
        dicts are [gmap]s and a [Set[str]] is a [gset string].
      - Clock readings ([datetime.now()], [loop.time()]) are integers counting
        microseconds, the resolution of [datetime]; the code's float seconds
        are these integers divided by 10^6.
      - Every coroutine runs to completion before the next one starts: the
        interleavings that [await] permits are not modelled.
      - The sources of fresh values (clocks, uuid4, secrets.token_urlsafe)
        are streams in an environment [Env]; the world counts how many
        values were drawn from each. *)

From stdpp Require Import gmap strings list fin_maps sorting pretty.
From Stdlib Require Import ZArith Lia.

Local Open Scope Z_scope.

Set Warnings "-register-all,-clear-no-such-hyp".

(** ** Insertion-ordered dictionaries *)

Module PyDict.
Section Dict.
Context {V : Type}.

Definition t := list (string * V).

Fixpoint get (k : string) (d : list (string * V)) : option V :=
  match d with
  | [] => None
  | (k', v) :: d' => if String.eqb k k' then Some v else get k d'
  end.

Definition mem (k : string) (d : list (string * V)) : bool :=
  match get k d with Some _ => true | None => false end.

(** [d[k] = v]: an existing key keeps its position, a new key goes last. *)
Fixpoint set (k : string) (v : V) (d : list (string * V)) : list (string * V) :=
  match d with
  | [] => [(k, v)]
  | (k', v') :: d' =>
      if String.eqb k k' then (k, v) :: d' else (k', v') :: set k v d'
  end.

(** [del d[k]] (the callers test membership first). *)
Fixpoint del (k : string) (d : list (string * V)) : list (string * V) :=
  match d with
  | [] => []
  | (k', v') :: d' =>
      if String.eqb k k' then d' else (k', v') :: del k d'
  end.

Definition keys (d : list (string * V)) : list string := d.*1.
Definition values (d : list (string * V)) : list V := d.*2.
End Dict.
End PyDict.

(** ** Wire values *)

(** A decoded JSON text, as [json.loads] returns it. *)
Inductive json :=
| JNull
| JBool (b : bool)
| JNum (z : Z)
| JStr (s : string)
| JArr (l : list json)
| JObj (l : list (string * json)).

(** A message timestamp is either a reading of the loop clock (a float) or
    the ISO-8601 text of a wall-clock reading. *)
Inductive stamp :=
| LoopTime (t : Z)
| IsoTime (t : Z).

(** An outbound message: the keys the manager itself reads or writes are
    fields, every other key of the dict is kept in [m_fields]. *)
Record message := {
  m_type : string;
  m_message_id : option string;
  m_timestamp : option stamp;
  m_fields : list (string * json)
}.

(** What [websocket.send_text] does on a socket. *)
Inductive write_outcome :=
| WriteOk
| WriteDisconnect   (* raises WebSocketDisconnect *)
| WriteError.       (* raises another exception *)

Record WebSocket := {
  ws_sock : nat;              (* the identity of the transport *)
  ws_accepts : bool;          (* [accept()] returns normally *)
  ws_on_send : write_outcome
}.

Record health := {
  connected_at : Z;
  last_ping : option Z;
  ping_count : Z;
  latency_ms : list Z
}.

Record session := {
  ss_last_message : message;
  ss_disconnected_at : Z;
  ss_user_id : string;
  ss_role : option string
}.

Record rate_data := {
  tokens : Z;
  last_update : Z;
  warnings : Z
}.

(** ** The manager's state ([WebSocketManager.__init__]) *)

Record Manager := {
  active_connections : list (string * WebSocket);
  user_connections : list (string * gset string);
  connection_roles : list (string * string);
  connection_health : gmap string health;
  message_queue : list (string * list message);
  message_history : gmap string (list message);
  reconnect_tokens : gmap string string;
  session_state : list (string * session);
  rate_limits : gmap string rate_data
}.

Definition history_limit : nat := 100.
Definition max_messages_per_minute : Z := 120.
Definition microseconds : Z := 1000000.

Definition init_manager : Manager :=
  {| active_connections := []; user_connections := []; connection_roles := [];
     connection_health := ∅; message_queue := []; message_history := ∅;
     reconnect_tokens := ∅; session_state := []; rate_limits := ∅ |}.

Definition with_active (f : list (string * WebSocket) → list (string * WebSocket))
    (m : Manager) : Manager :=
  {| active_connections := f (active_connections m);
     user_connections := user_connections m;
     connection_roles := connection_roles m;
     connection_health := connection_health m;
     message_queue := message_queue m;
     message_history := message_history m;
     reconnect_tokens := reconnect_tokens m;
     session_state := session_state m;
     rate_limits := rate_limits m |}.

Definition with_users (f : list (string * gset string) → list (string * gset string))
    (m : Manager) : Manager :=
  {| active_connections := active_connections m;
     user_connections := f (user_connections m);
     connection_roles := connection_roles m;
     connection_health := connection_health m;
     message_queue := message_queue m;
     message_history := message_history m;
     reconnect_tokens := reconnect_tokens m;
     session_state := session_state m;
     rate_limits := rate_limits m |}.

Definition with_roles (f : list (string * string) → list (string * string))
    (m : Manager) : Manager :=
  {| active_connections := active_connections m;
     user_connections := user_connections m;
     connection_roles := f (connection_roles m);
     connection_health := connection_health m;
     message_queue := message_queue m;
     message_history := message_history m;
     reconnect_tokens := reconnect_tokens m;
     session_state := session_state m;
     rate_limits := rate_limits m |}.

Definition with_health (f : gmap string health → gmap string health)
    (m : Manager) : Manager :=
  {| active_connections := active_connections m;
     user_connections := user_connections m;
     connection_roles := connection_roles m;
     connection_health := f (connection_health m);
     message_queue := message_queue m;
     message_history := message_history m;
     reconnect_tokens := reconnect_tokens m;
     session_state := session_state m;
     rate_limits := rate_limits m |}.

Definition with_queue (f : list (string * list message) → list (string * list message))
    (m : Manager) : Manager :=
  {| active_connections := active_connections m;
     user_connections := user_connections m;
     connection_roles := connection_roles m;
     connection_health := connection_health m;
     message_queue := f (message_queue m);
     message_history := message_history m;
     reconnect_tokens := reconnect_tokens m;
     session_state := session_state m;
     rate_limits := rate_limits m |}.

Definition with_history (f : gmap string (list message) → gmap string (list message))
    (m : Manager) : Manager :=
  {| active_connections := active_connections m;
     user_connections := user_connections m;
     connection_roles := connection_roles m;
     connection_health := connection_health m;
     message_queue := message_queue m;
     message_history := f (message_history m);
     reconnect_tokens := reconnect_tokens m;
     session_state := session_state m;
     rate_limits := rate_limits m |}.

Definition with_tokens (f : gmap string string → gmap string string)
    (m : Manager) : Manager :=
  {| active_connections := active_connections m;
     user_connections := user_connections m;
     connection_roles := connection_roles m;
     connection_health := connection_health m;
     message_queue := message_queue m;
     message_history := message_history m;
     reconnect_tokens := f (reconnect_tokens m);
     session_state := session_state m;
     rate_limits := rate_limits m |}.

Definition with_sessions (f : list (string * session) → list (string * session))
    (m : Manager) : Manager :=
  {| active_connections := active_connections m;
     user_connections := user_connections m;
     connection_roles := connection_roles m;
     connection_health := connection_health m;
     message_queue := message_queue m;
     message_history := message_history m;
     reconnect_tokens := reconnect_tokens m;
     session_state := f (session_state m);
     rate_limits := rate_limits m |}.

Definition with_rates (f : gmap string rate_data → gmap string rate_data)
    (m : Manager) : Manager :=
  {| active_connections := active_connections m;
     user_connections := user_connections m;
     connection_roles := connection_roles m;
     connection_health := connection_health m;
     message_queue := message_queue m;
     message_history := message_history m;
     reconnect_tokens := reconnect_tokens m;
     session_state := session_state m;
     rate_limits := f (rate_limits m) |}.

(** Python truthiness of an optional string argument: [None] and the empty
    string are falsy. *)
Definition truthy (o : option string) : bool :=
  match o with
  | Some s => negb (String.eqb s "")
  | None => false
  end.

(** ** [WebSocketManager.disconnect] *)

Definition disconnect (connection_id : string) (user_id : option string)
    (m : Manager) : Manager :=
  let m :=
    if PyDict.mem connection_id (active_connections m)
    then with_active (PyDict.del connection_id) m
    else m in
  if truthy user_id then
    let u := default ""%string user_id in
    match PyDict.get u (user_connections m) with
    | Some conns =>
        let conns := conns ∖ {[connection_id]} in
        if decide (conns = ∅)
        then with_users (PyDict.del u) m
        else with_users (PyDict.set u conns) m
    | None => m
    end
  else m.

(** ** [WebSocketManager._check_rate_limit]

    [now] is the reading of [datetime.now()] taken on entry. *)

(** [int(time_passed * (self.max_messages_per_minute / 60))] with
    [time_passed = (now - last_update).total_seconds()]; [int] truncates
    towards zero. *)
Definition tokens_to_add (now : Z) (rate : rate_data) : Z :=
  Z.quot ((now - last_update rate) * max_messages_per_minute) (60 * microseconds).

Definition _check_rate_limit (now : Z) (connection_id : string) (m : Manager)
    : bool * Manager :=
  match rate_limits m !! connection_id with
  | None =>
      (true,
       with_rates (insert connection_id
         {| tokens := max_messages_per_minute; last_update := now; warnings := 0 |}) m)
  | Some rate =>
      let refilled :=
        Z.min max_messages_per_minute (tokens rate + tokens_to_add now rate) in
      if 0 <? refilled then
        (true,
         with_rates (insert connection_id
           {| tokens := refilled - 1; last_update := now;
              warnings := warnings rate |}) m)
      else
        let warned := warnings rate + 1 in
        let m := with_rates (insert connection_id
           {| tokens := refilled; last_update := now; warnings := warned |}) m in
        (false, if 3 <? warned then disconnect connection_id None m else m)
  end.

(** A connection's successive checks, one clock reading per check. *)
Fixpoint run_checks (connection_id : string) (times : list Z) (m : Manager)
    : list bool * Manager :=
  match times with
  | [] => ([], m)
  | now :: rest =>
      let '(ok, m) := _check_rate_limit now connection_id m in
      let '(oks, m) := run_checks connection_id rest m in
      (ok :: oks, m)
  end.

Definition allowed (results : list bool) : Z :=
  Z.of_nat (length (List.filter id results)).

(** The time between the first and the last check of a window. *)
Definition span (times : list Z) : Z :=
  match times with
  | [] => 0
  | t :: _ => List.last times t - t
  end.

(** ** The world around the manager *)

(** One session of the fallback poller ([FallbackPollingService.active_polls]
    values; the callback is the manager's [_handle_poll_update]). *)
Record poll := {
  p_user_id : string;
  p_type : string;
  p_last_poll : Z;
  p_interval : Z;
  p_last_update_id : option string
}.

Record Env := {
  wall_clock : nat → Z;          (* successive datetime.now() readings *)
  loop_clock : nat → Z;          (* successive loop.time() readings *)
  uuid4 : nat → string;
  token_urlsafe : nat → string
}.

Record World := {
  mgr : Manager;
  active_polls : list (string * poll);
  wire : list (nat * message);   (* frames written to sockets, oldest first *)
  wall_reads : nat;
  loop_reads : nat;
  uuid_reads : nat;
  token_reads : nat
}.

Definition init_world : World :=
  {| mgr := init_manager; active_polls := []; wire := [];
     wall_reads := 0; loop_reads := 0; uuid_reads := 0; token_reads := 0 |}.

Definition M (A : Type) : Type := World → A * World.

Definition ret {A} (a : A) : M A := λ w, (a, w).
Definition bind {A B} (c : M A) (k : A → M B) : M B :=
  λ w, let (a, w') := c w in k a w'.

Notation "x <- c ;; k" := (bind c (λ x, k))
  (at level 100, c at next level, right associativity).
Notation "c ;; k" := (bind c (λ _, k))
  (at level 100, right associativity).

Definition get_mgr : M Manager := λ w, (mgr w, w).

Definition modify_mgr (f : Manager → Manager) : M unit := λ w,
  (tt, {| mgr := f (mgr w); active_polls := active_polls w; wire := wire w;
          wall_reads := wall_reads w; loop_reads := loop_reads w;
          uuid_reads := uuid_reads w; token_reads := token_reads w |}).

Definition lift_mgr {A} (f : Manager → A * Manager) : M A := λ w,
  let (a, m) := f (mgr w) in
  (a, {| mgr := m; active_polls := active_polls w; wire := wire w;
         wall_reads := wall_reads w; loop_reads := loop_reads w;
         uuid_reads := uuid_reads w; token_reads := token_reads w |}).

Definition modify_polls (f : list (string * poll) → list (string * poll)) : M unit :=
  λ w,
  (tt, {| mgr := mgr w; active_polls := f (active_polls w); wire := wire w;
          wall_reads := wall_reads w; loop_reads := loop_reads w;
          uuid_reads := uuid_reads w; token_reads := token_reads w |}).

(** [await websocket.send_text(json.dumps(message))] returning normally. *)
Definition emit (sock : nat) (msg : message) : M unit := λ w,
  (tt, {| mgr := mgr w; active_polls := active_polls w;
          wire := wire w ++ [(sock, msg)];
          wall_reads := wall_reads w; loop_reads := loop_reads w;
          uuid_reads := uuid_reads w; token_reads := token_reads w |}).

Definition now_wall (E : Env) : M Z := λ w,
  (wall_clock E (wall_reads w),
   {| mgr := mgr w; active_polls := active_polls w; wire := wire w;
      wall_reads := S (wall_reads w); loop_reads := loop_reads w;
      uuid_reads := uuid_reads w; token_reads := token_reads w |}).

Definition now_loop (E : Env) : M Z := λ w,
  (loop_clock E (loop_reads w),
   {| mgr := mgr w; active_polls := active_polls w; wire := wire w;
      wall_reads := wall_reads w; loop_reads := S (loop_reads w);
      uuid_reads := uuid_reads w; token_reads := token_reads w |}).

Definition fresh_uuid (E : Env) : M string := λ w,
  (uuid4 E (uuid_reads w),
   {| mgr := mgr w; active_polls := active_polls w; wire := wire w;
      wall_reads := wall_reads w; loop_reads := loop_reads w;
      uuid_reads := S (uuid_reads w); token_reads := token_reads w |}).

Definition fresh_token (E : Env) : M string := λ w,
  (token_urlsafe E (token_reads w),
   {| mgr := mgr w; active_polls := active_polls w; wire := wire w;
      wall_reads := wall_reads w; loop_reads := loop_reads w;
      uuid_reads := uuid_reads w; token_reads := S (token_reads w) |}).

(** ** [FallbackPollingService.start_polling] / [stop_polling] *)

Definition poll_intervals (poll_type : string) : option Z :=
  if String.eqb poll_type "interview" then Some 5
  else if String.eqb poll_type "application" then Some 30
  else if String.eqb poll_type "job" then Some 60
  else if String.eqb poll_type "system" then Some 300
  else None.

Definition max_poll_age : Z := 24 * 3600 * microseconds.

(** [_get_last_update_id]: [return await self.cache.get(cache_key)], where
    [self.cache] is a [CacheService], a class that has no [get]: the
    attribute lookup raises AttributeError and the bare [except] of the
    method returns None, whatever the cache holds. *)
Definition _get_last_update_id (user_id poll_type : string) : option string :=
  None.

(** The result tells whether the call returned ([false]: it raised). *)
Definition start_polling (E : Env) (user_id poll_type : string) : M bool :=
  t0 <- now_wall E ;;
  let poll_id :=
    ("poll_" +:+ user_id +:+ "_" +:+ poll_type +:+ "_"
       +:+ pretty (Z.quot t0 microseconds))%string in
  t1 <- now_wall E ;;
  match poll_intervals poll_type with
  | None => ret false                    (* KeyError, logged and re-raised *)
  | Some interval =>
      modify_polls (PyDict.set poll_id
        {| p_user_id := user_id; p_type := poll_type; p_last_poll := t1;
           p_interval := interval;
           p_last_update_id := _get_last_update_id user_id poll_type |}) ;;
      (* asyncio.create_task(self._poll_loop(poll_id)) *)
      ret true
  end.

Definition stop_polling (poll_id : string) (polls : list (string * poll))
    : list (string * poll) :=
  if PyDict.mem poll_id polls then PyDict.del poll_id polls else polls.

(** ** Sending *)

(** Python's [sub in s] on strings. *)
Fixpoint contains (sub s : string) : bool :=
  String.prefix sub s ||
  match s with
  | EmptyString => false
  | String _ s' => contains sub s'
  end.

Definition _get_poll_type (msg : message) : option string :=
  let msg_type := m_type msg in
  if contains "interview" msg_type then Some "interview"%string
  else if contains "application" msg_type then Some "application"%string
  else if contains "job" msg_type then Some "job"%string
  else if contains "system" msg_type then Some "system"%string
  else None.

(** [next((uid for uid, conns in self.user_connections.items()
          if connection_id in conns), None)] *)
Fixpoint owner_of (connection_id : string) (ucs : list (string * gset string))
    : option string :=
  match ucs with
  | [] => None
  | (uid, conns) :: rest =>
      if decide (connection_id ∈ conns) then Some uid
      else owner_of connection_id rest
  end.

Definition _handle_disconnect_with_fallback (E : Env) (connection_id : string)
    (msg : message) : M unit :=
  m <- get_mgr ;;
  match owner_of connection_id (user_connections m) with
  | None => ret tt
  | Some user_id =>
      if negb (truthy (Some user_id)) then ret tt
      else
        t <- now_wall E ;;
        modify_mgr (with_sessions (PyDict.set connection_id
          {| ss_last_message := msg; ss_disconnected_at := t;
             ss_user_id := user_id;
             ss_role := PyDict.get connection_id (connection_roles m) |})) ;;
        match _get_poll_type msg with
        | Some poll_type =>
            started <- start_polling E user_id poll_type ;;
            if started then modify_mgr (disconnect connection_id None)
            else ret tt                   (* the handler only logs *)
        | None => modify_mgr (disconnect connection_id None)
        end
  end.

Definition set_message_id (i : string) (msg : message) : message :=
  {| m_type := m_type msg; m_message_id := Some i;
     m_timestamp := m_timestamp msg; m_fields := m_fields msg |}.

Definition set_timestamp (t : stamp) (msg : message) : message :=
  {| m_type := m_type msg; m_message_id := m_message_id msg;
     m_timestamp := Some t; m_fields := m_fields msg |}.

(** The two in-place updates of the message dict before it is written. *)
Definition stamp_message (E : Env) (msg : message) : M message :=
  msg <- match m_message_id msg with
         | Some _ => ret msg
         | None => u <- fresh_uuid E ;; ret (set_message_id u msg)
         end ;;
  match m_timestamp msg with
  | Some _ => ret msg
  | None => t <- now_wall E ;; ret (set_timestamp (IsoTime t) msg)
  end.

(** [history[-self.history_limit:]] applied when the list got too long. *)
Definition trim_history (h : list message) : list message :=
  if decide (history_limit < length h)%nat
  then drop (length h - history_limit) h
  else h.

(** [send_personal_message]; the result is the message dict as the call
    leaves it (the caller goes on using the same object). *)
Definition send_personal_message (E : Env) (msg : message)
    (connection_id : string) (retry_fallback : bool) : M message :=
  now <- now_wall E ;;
  ok <- lift_mgr (_check_rate_limit now connection_id) ;;
  if negb ok then ret msg
  else
    m <- get_mgr ;;
    match PyDict.get connection_id (active_connections m) with
    | Some websocket =>
        msg <- stamp_message E msg ;;
        match ws_on_send websocket with
        | WriteOk =>
            emit (ws_sock websocket) msg ;;
            modify_mgr (with_history (λ hs,
              <[connection_id :=
                  trim_history (default [] (hs !! connection_id) ++ [msg])]> hs)) ;;
            ret msg
        | WriteDisconnect | WriteError =>
            (if retry_fallback
             then _handle_disconnect_with_fallback E connection_id msg
             else ret tt) ;;
            ret msg
        end
    | None =>
        (if retry_fallback
         then _handle_disconnect_with_fallback E connection_id msg
         else ret tt) ;;
        ret msg
    end.

(** [for msg in queued_messages: await self.send_personal_message(msg, cid)] *)
Fixpoint replay (E : Env) (queued : list message) (connection_id : string) : M unit :=
  match queued with
  | [] => ret tt
  | msg :: rest =>
      send_personal_message E msg connection_id true ;;
      replay E rest connection_id
  end.

Definition opt_json (o : option string) : json :=
  match o with Some s => JStr s | None => JNull end.

(** ** [WebSocketManager.connect]; [false] when [accept()] raised and the
    exception was re-raised to the caller. *)
Definition connect (E : Env) (websocket : WebSocket) (connection_id : string)
    (user_id role : option string) : M bool :=
  if negb (ws_accepts websocket) then ret false
  else
    modify_mgr (with_active (PyDict.set connection_id websocket)) ;;
    (if truthy user_id then
       let u := default ""%string user_id in
       modify_mgr (with_users (λ ucs,
         PyDict.set u (default ∅ (PyDict.get u ucs) ∪ {[connection_id]}) ucs)) ;;
       m <- get_mgr ;;
       match PyDict.get u (message_queue m) with
       | Some queued_messages =>
           modify_mgr (with_queue (PyDict.del u)) ;;
           replay E queued_messages connection_id
       | None => ret tt
       end
     else ret tt) ;;
    (if truthy role
     then modify_mgr (with_roles (PyDict.set connection_id (default ""%string role)))
     else ret tt) ;;
    t <- now_loop E ;;
    modify_mgr (with_health (insert connection_id
      {| connected_at := t; last_ping := None; ping_count := 0;
         latency_ms := [] |})) ;;
    (if truthy user_id then
       tok <- fresh_token E ;;
       modify_mgr (with_tokens (insert (default ""%string user_id) tok))
     else ret tt) ;;
    m <- get_mgr ;;
    send_personal_message E
      {| m_type := "connection_established";
         m_message_id := None; m_timestamp := None;
         m_fields :=
           [("connection_id"%string, JStr connection_id);
            ("reconnect_token"%string,
             opt_json (user_id ≫= λ u, reconnect_tokens m !! u));
            ("message"%string, JStr "Connected to real-time updates")] |}
      connection_id true ;;
    (* asyncio.create_task(self._connection_heartbeat(connection_id)) *)
    ret true.

(** ** Fan-out *)

(** [for connection_id in list(self.user_connections[user_id])]: the loop
    runs over a copy, and every send goes on with the same message dict. *)
Fixpoint send_each (E : Env) (msg : message) (connection_ids : list string)
    : M message :=
  match connection_ids with
  | [] => ret msg
  | connection_id :: rest =>
      msg' <- send_personal_message E msg connection_id true ;;
      send_each E msg' rest
  end.

Definition send_to_user (E : Env) (msg : message) (user_id : option string)
    : M message :=
  m <- get_mgr ;;
  match user_id ≫= λ u, PyDict.get u (user_connections m) with
  | Some conns => send_each E msg (elements conns)
  | None => ret msg
  end.

(** The loop of [broadcast] iterates [self.active_connections.items()]
    itself.  The dict iterator remembers the size the dict had when the loop
    started and compares it with the current size each time it is asked for
    the next item; a difference raises RuntimeError ("dictionary changed size
    during iteration"), which leaves the loop and is logged by the outer
    handler.  Up to that point the items come in insertion order, so the loop
    walks [items], the entries present at the start. *)
Fixpoint broadcast_loop (size0 : nat) (items : list (string * WebSocket))
    (msg : message) (exclude_connections : list string) : M unit :=
  m <- get_mgr ;;
  if negb (Nat.eqb (length (active_connections m)) size0) then ret tt
  else
    match items with
    | [] => ret tt
    | (connection_id, websocket) :: rest =>
        (if bool_decide (connection_id ∈ exclude_connections) then ret tt
         else
           match ws_on_send websocket with
           | WriteOk => emit (ws_sock websocket) msg
           | WriteDisconnect | WriteError =>
               modify_mgr (disconnect connection_id None)
           end) ;;
        broadcast_loop size0 rest msg exclude_connections
    end.

Definition broadcast (msg : message) (exclude_connections : list string) : M unit :=
  m <- get_mgr ;;
  broadcast_loop (length (active_connections m)) (active_connections m)
    msg exclude_connections.

(** [broadcast_to_role] iterates [self.connection_roles.items()], a dict no
    callee changes. *)
Fixpoint role_loop (E : Env) (items : list (string * string)) (msg : message)
    (role : string) : M message :=
  match items with
  | [] => ret msg
  | (conn_id, conn_role) :: rest =>
      m <- get_mgr ;;
      if String.eqb conn_role role && PyDict.mem conn_id (active_connections m)
      then
        msg' <- send_personal_message E msg conn_id true ;;
        role_loop E rest msg' role
      else role_loop E rest msg role
  end.

Definition broadcast_to_role (E : Env) (msg : message) (role : string) : M unit :=
  m <- get_mgr ;;
  role_loop E (connection_roles m) msg role ;;
  ret tt.

Definition update_message (type : string) (job_id : option string)
    (status data : json) (t : Z) : message :=
  {| m_type := type; m_message_id := None; m_timestamp := Some (LoopTime t);
     m_fields := [("job_id"%string, opt_json job_id);
                  ("status"%string, status); ("data"%string, data)] |}.

(** [{**message, "candidate_id": user_id}] *)
Definition with_candidate (user_id : option string) (msg : message) : message :=
  {| m_type := m_type msg; m_message_id := m_message_id msg;
     m_timestamp := m_timestamp msg;
     m_fields := m_fields msg ++ [("candidate_id"%string, opt_json user_id)] |}.

Definition handle_job_update (E : Env) (job_id : option string)
    (status : string) (data : json) : M unit :=
  t <- now_loop E ;;
  broadcast (update_message "job_update" job_id (JStr status) data t) [].

Definition handle_interview_update (E : Env) (job_id user_id : option string)
    (status data : json) : M unit :=
  t <- now_loop E ;;
  msg <- send_to_user E (update_message "interview_update" job_id status data t)
           user_id ;;
  broadcast_to_role E (with_candidate user_id msg) "recruiter".

Definition handle_application_update (E : Env) (job_id user_id : option string)
    (status data : json) : M unit :=
  t <- now_loop E ;;
  msg <- send_to_user E (update_message "application_update" job_id status data t)
           user_id ;;
  broadcast_to_role E (with_candidate user_id msg) "recruiter".

(** ** The queue of an offline user *)

Definition retention : Z := 24 * 60 * 60 * microseconds.

(** [msg.get("timestamp", current_time) > expiry_time]; comparing the text
    of an ISO timestamp with a float raises TypeError ([None]). *)
Definition not_expired (current_time expiry_time : Z) (msg : message)
    : option bool :=
  match m_timestamp msg with
  | None => Some (expiry_time <? current_time)
  | Some (LoopTime t) => Some (expiry_time <? t)
  | Some (IsoTime _) => None
  end.

Fixpoint keep_recent (current_time expiry_time : Z) (msgs : list message)
    : option (list message) :=
  match msgs with
  | [] => Some []
  | msg :: rest =>
      match not_expired current_time expiry_time msg with
      | None => None
      | Some keep =>
          match keep_recent current_time expiry_time rest with
          | None => None
          | Some kept => Some (if keep then msg :: kept else kept)
          end
      end
  end.

(** [for user_id in list(self.message_queue.keys())]; an exception stops the
    sweep where it is (the handler around the loop logs it). *)
Fixpoint sweep (current_time expiry_time : Z) (user_ids : list string)
    (queue : list (string * list message)) : list (string * list message) :=
  match user_ids with
  | [] => queue
  | user_id :: rest =>
      match PyDict.get user_id queue with
      | None => queue
      | Some msgs =>
          match keep_recent current_time expiry_time msgs with
          | None => queue
          | Some [] => sweep current_time expiry_time rest (PyDict.del user_id queue)
          | Some kept =>
              sweep current_time expiry_time rest (PyDict.set user_id kept queue)
          end
      end
  end.

Definition _cleanup_message_queue (E : Env) : M unit :=
  current_time <- now_loop E ;;
  let expiry_time := current_time - retention in
  modify_mgr (with_queue (λ q, sweep current_time expiry_time (PyDict.keys q) q)).

(** ** [WebSocketManager._handle_redis_event] *)

Record event := {
  ev_event_type : option string;
  ev_job_id : option string;
  ev_user_id : option string;
  ev_target_role : option string;
  ev_payload : option json
}.

Definition ends_with (suffix s : string) : bool :=
  String.prefix (String.rev suffix) (String.rev s).

(** The per-category handlers; [false] when the branch raised
    ([payload.get] on a payload that is not an object). *)
Definition dispatch_event (E : Env) (ev : event) (event_type : string)
    (payload : json) : M bool :=
  let job_id := ev_job_id ev in
  let target_user := ev_user_id ev in
  if String.prefix "interview_" event_type then
    if String.eqb event_type "interview_questions_ready" then
      handle_interview_update E job_id target_user (JStr "questions_ready") payload ;;
      ret true
    else if String.eqb event_type "interview_response_evaluated" then
      handle_interview_update E job_id target_user (JStr "response_evaluated") payload ;;
      ret true
    else if String.eqb event_type "interview_completed" then
      handle_interview_update E job_id target_user (JStr "completed") payload ;;
      ret true
    else ret true
  else if String.prefix "application_" event_type then
    if String.eqb event_type "application_status_changed" then
      match payload with
      | JObj fields =>
          handle_application_update E job_id target_user
            (default JNull (PyDict.get "status" fields)) payload ;;
          ret true
      | _ => ret false
      end
    else ret true
  else if ends_with "_completed" event_type then
    if String.eqb event_type "resume_processed" then
      handle_job_update E job_id "resume_processed" payload ;; ret true
    else if String.eqb event_type "video_processed" then
      handle_job_update E job_id "video_processed" payload ;; ret true
    else if String.eqb event_type "job_matching_completed" then
      handle_job_update E job_id "matching_completed" payload ;; ret true
    else if String.eqb event_type "candidate_scored" then
      handle_job_update E job_id "scoring_completed" payload ;; ret true
    else ret true
  else ret true.

(** [self.message_queue[target_user].append(message)] after creating the
    list when the user has none. *)
Definition enqueue (user_id : string) (msg : message)
    (queue : list (string * list message)) : list (string * list message) :=
  PyDict.set user_id (default [] (PyDict.get user_id queue) ++ [msg]) queue.

Definition route_event (E : Env) (ev : event) (msg : message) : M unit :=
  if truthy (ev_target_role ev) then
    broadcast_to_role E msg (default ""%string (ev_target_role ev))
  else if truthy (ev_user_id ev) then
    let target_user := default ""%string (ev_user_id ev) in
    m <- get_mgr ;;
    if PyDict.mem target_user (user_connections m)
    then send_to_user E msg (Some target_user) ;; ret tt
    else modify_mgr (with_queue (enqueue target_user msg))
  else broadcast msg [].

Definition _handle_redis_event (E : Env) (ev : event) : M unit :=
  let payload := default (JObj []) (ev_payload ev) in
  t <- now_loop E ;;
  let msg :=
    {| m_type := "event"; m_message_id := None;
       m_timestamp := Some (LoopTime t);
       m_fields := [("event_type"%string, opt_json (ev_event_type ev));
                    ("job_id"%string, opt_json (ev_job_id ev));
                    ("data"%string, payload)] |} in
  match ev_event_type ev with
  | None => ret tt                  (* None has no startswith: the handler logs *)
  | Some event_type =>
      ok <- dispatch_event E ev event_type payload ;;
      if negb ok then ret tt
      else
        route_event E ev msg ;;
        _cleanup_message_queue E
  end.

(** The least magnitude of an int that has no float: converting an int [n]
    with [2^1024 - 2^970 <= |n|] raises OverflowError. *)
Definition float_limit : Z := 2 ^ 1024 - 2 ^ 970.

(** The right operand of [float - x]: a JSON number, or a boolean (Python's
    [True] and [False] are the integers 1 and 0); times are in microseconds.
    [JNum z] is the int or the finite float of value [z] microseconds; a
    value beyond the range of a float can only be an int, and the
    subtraction raises OverflowError on it, as it raises TypeError on a
    value that is no number: [None] stands for both.  (The floats inf and
    nan, which [json.loads] returns for the literals Infinity, NaN and for
    a literal such as 1e400, have no value in [json].) *)
Definition number (j : json) : option Z :=
  match j with
  | JNum z =>
      if Z.abs z <? float_limit * microseconds then Some z else None
  | JBool b => Some (if b then microseconds else 0)
  | _ => None
  end.

(** ** [WebSocketManager.handle_pong]

    The latency is kept in microseconds (the code stores milliseconds
    rounded to two decimals).  A [ping_timestamp] that is not a number makes
    the subtraction raise TypeError, an int beyond the range of a float
    makes it raise OverflowError; the method logs either. *)
Definition handle_pong (E : Env) (connection_id : string)
    (ping_timestamp : option json) : M unit :=
  m <- get_mgr ;;
  match connection_health m !! connection_id with
  | None => ret tt
  | Some h =>
      t <- now_loop E ;;
      match ping_timestamp ≫= number with
      | Some sent =>
          modify_mgr (with_health (insert connection_id
            {| connected_at := connected_at h; last_ping := last_ping h;
               ping_count := ping_count h;
               latency_ms :=
                 let l := latency_ms h ++ [t - sent] in
                 drop (length l - 10) l |}))
      | None => ret tt
      end
  end.

(** ** The routes of routes/websocket.py *)

Inductive http_error :=
| Unauthorized      (* 401 "Invalid reconnect token" *)
| NotFound          (* 404 "Session not found" *)
| ServerError.      (* 500 "Reconnection failed" *)

Record reconnect_reply := {
  r_user_id : string;
  r_role : option string;
  r_last_message : message;
  r_disconnected_at : Z
}.

(** [next((state for state in session_state.values()
          if state["user_id"] == user_id), None)] *)
Definition find_session (user_id : string) (sessions : list (string * session))
    : option session :=
  List.find (λ st, String.eqb (ss_user_id st) user_id) (PyDict.values sessions).

Definition reconnect_session (m : Manager) (user_id reconnect_token : string)
    (role : option string) : http_error + reconnect_reply :=
  let stored_token := reconnect_tokens m !! user_id in
  if negb (truthy stored_token)
     || negb (String.eqb (default ""%string stored_token) reconnect_token)
  then inl Unauthorized
  else
    match find_session user_id (session_state m) with
    | None => inl NotFound
    | Some st =>
        inr {| r_user_id := user_id;
               r_role := if truthy role then role else ss_role st;
               r_last_message := ss_last_message st;
               r_disconnected_at := ss_disconnected_at st |}
    end.

(** What the receive loop of [websocket_endpoint] gets from
    [await websocket.receive_text()] followed by [json.loads(data)]. *)
Inductive inbound :=
| Text (decoded : option json)   (* a text frame; [None]: json.loads raised *)
| Gone.                          (* receive_text raised WebSocketDisconnect *)

(** Where the endpoint stands after the frames received so far. *)
Inductive endpoint_state :=
| Receiving        (* in the loop, awaiting the next frame *)
| Disconnected     (* the client left; the manager dropped the connection *)
| Closed.          (* an exception reached the outer handler: websocket.close() *)

(** [message.get(key)]: only a dict has [get]; [None] is the
    AttributeError of any other value. *)
Definition json_get (key : string) (j : json) : option (option json) :=
  match j with
  | JObj fields => Some (PyDict.get key fields)
  | _ => None
  end.

Definition is_str (s : string) (o : option json) : bool :=
  match o with
  | Some (JStr s') => String.eqb s' s
  | _ => false
  end.

Fixpoint receive_loop (E : Env) (connection_id user_id : string)
    (frames : list inbound) : M endpoint_state :=
  match frames with
  | [] => ret Receiving
  | Gone :: _ =>
      modify_mgr (disconnect connection_id (Some user_id)) ;;
      ret Disconnected
  | Text None :: rest => receive_loop E connection_id user_id rest
  | Text (Some message) :: rest =>
      match json_get "type" message with
      | None => ret Closed
      | Some type =>
          if is_str "pong" type then
            handle_pong E connection_id
              (default None (json_get "ping_timestamp" message)) ;;
            receive_loop E connection_id user_id rest
          else if is_str "user_message" type then
            (* websocket_manager.handle_user_message: the manager has no
               such attribute, the lookup raises AttributeError *)
            ret Closed
          else receive_loop E connection_id user_id rest
      end
  end.

Definition websocket_endpoint (E : Env) (websocket : WebSocket)
    (connection_id user_id : string) (role : option string)
    (frames : list inbound) : M endpoint_state :=
  connected <- connect E websocket connection_id (Some user_id) role ;;
  if connected then receive_loop E connection_id user_id frames
  else ret Closed.

(** ** The fallback poller (services/fallback_polling.py) *)

(** A document of the system of record.  The keys the poller reads are
    fields; [None] is a missing key. *)
Record doc := {
  d_id : string;                  (* "_id" *)
  d_user_id : option string;
  d_status : option string;
  d_session_id : option json;
  d_job_id : option json;
  d_title : option json;
  d_other : list (string * json)
}.

Record Store := {
  interview_sessions : list doc;
  applications : list doc;
  jobs : list doc;
  system_updates : list doc
}.

(** The filter the poller builds: [{"user_id": ..., "_id": {"$gt": ...},
    "status": ...}]. *)
Record query := {
  q_user_id : string;
  q_id_gt : option string;
  q_status_in : option (list string)
}.

Definition id_lt (a b : string) : bool := bool_decide (strict String.le a b).

Definition matches (q : query) (d : doc) : bool :=
  bool_decide (d_user_id d = Some (q_user_id q))
  && match q_id_gt q with
     | Some bound => id_lt bound (d_id d)
     | None => true
     end
  && match q_status_in q with
     | Some allowed =>
         match d_status d with
         | Some s => bool_decide (s ∈ allowed)
         | None => false
         end
     | None => true
     end.

Definition doc_le (d1 d2 : doc) : Prop := String.le (d_id d1) (d_id d2).

Global Instance doc_le_dec : RelDecision doc_le.
Proof. intros d1 d2. unfold doc_le. apply _. Defined.

(** [collection.find(query, sort=[("_id", 1)], limit=100)] *)
Definition find (q : query) (collection : list doc) : list doc :=
  take 100 (merge_sort doc_le (List.filter (matches q) collection)).

(** A formatted update, the dict [_format_update] returns. *)
Record update := {
  u_id : string;                  (* "id": str(doc["_id"]) *)
  u_timestamp : Z;
  u_type : string;
  u_fields : list (string * json)
}.

Definition opt_field (o : option json) : json := default JNull o.

(** [_format_update]; [None] when a required key is missing (the KeyError
    is logged) or the poll type is none of the four. *)
Definition _format_update (E : Env) (d : doc) (poll_type : string)
    : M (option update) :=
  now <- now_wall E ;;
  if String.eqb poll_type "interview" then
    match d_status d, d_session_id d, d_job_id d with
    | Some status, Some session_id, Some job_id =>
        ret (Some
          {| u_id := d_id d; u_timestamp := now;
             u_type := if String.eqb status "ready"
                       then "interview_questions_ready"
                       else "interview_completed";
             u_fields := [("session_id"%string, session_id);
                          ("job_id"%string, job_id);
                          ("status"%string, JStr status);
                          ("data"%string,
                           JObj [("questions"%string,
                                  default (JArr []) (PyDict.get "questions" (d_other d)));
                                 ("scores"%string,
                                  default (JObj []) (PyDict.get "scores" (d_other d)))])] |})
    | _, _, _ => ret None
    end
  else if String.eqb poll_type "application" then
    match d_job_id d, d_status d with
    | Some job_id, Some status =>
        ret (Some
          {| u_id := d_id d; u_timestamp := now;
             u_type := "application_status_changed";
             u_fields := [("application_id"%string, JStr (d_id d));
                          ("job_id"%string, job_id);
                          ("status"%string, JStr status);
                          ("data"%string,
                           JObj [("score"%string,
                                  opt_field (PyDict.get "score" (d_other d)));
                                 ("feedback"%string,
                                  opt_field (PyDict.get "feedback" (d_other d)))])] |})
    | _, _ => ret None
    end
  else if String.eqb poll_type "job" then
    match d_status d, d_title d with
    | Some status, Some title =>
        ret (Some
          {| u_id := d_id d; u_timestamp := now;
             u_type := "job_updated";
             u_fields := [("job_id"%string, JStr (d_id d));
                          ("status"%string, JStr status);
                          ("data"%string,
                           JObj [("title"%string, title);
                                 ("applications"%string,
                                  default (JNum 0)
                                    (PyDict.get "application_count" (d_other d)))])] |})
    | _, _ => ret None
    end
  else if String.eqb poll_type "system" then
    ret (Some
      {| u_id := d_id d; u_timestamp := now;
         u_type := "system_announcement";
         u_fields := [("severity"%string,
                       default (JStr "info") (PyDict.get "severity" (d_other d)));
                      ("title"%string, opt_field (d_title d));
                      ("content"%string, opt_field (PyDict.get "content" (d_other d)));
                      ("action_required"%string,
                       default (JBool false)
                         (PyDict.get "action_required" (d_other d)))] |})
  else ret None.

(** [async for doc in cursor: ... if message: updates.append(message)] *)
Fixpoint format_all (E : Env) (docs : list doc) (poll_type : string)
    : M (list update) :=
  match docs with
  | [] => ret []
  | d :: rest =>
      formatted <- _format_update E d poll_type ;;
      updates <- format_all E rest poll_type ;;
      ret (match formatted with
           | Some u => u :: updates
           | None => updates
           end)
  end.

(** The module-level name [settings] of services/fallback_polling.py, which
    [_get_updates] reads for [settings.mongo_db_name].  The module imports
    asyncio, logging, four names of typing, datetime and timedelta,
    CacheService, AsyncMongoClient and WebSocketEventType, and assigns
    [logger]; nothing binds [settings], in the module or in builtins, so
    reading it raises NameError. *)
Definition settings : option string := None.

(** [_get_updates].  [db] is what [AsyncMongoClient()] connects to: [None]
    when it raises.  Whatever raises in the body of the [try] is logged and
    the method returns the empty list: the first statement of the body,
    [db = client[settings.mongo_db_name]], raises on every call. *)
Definition _get_updates (E : Env) (db : option Store) (user_id poll_type : string)
    (last_update_id : option string) : M (list update) :=
  match db, settings with
  | None, _ => ret []
  | Some _, None => ret []            (* NameError: name 'settings' *)
  | Some store, Some _ =>
      let id_gt := if truthy last_update_id then last_update_id else None in
      let docs :=
        if String.eqb poll_type "interview" then
          find {| q_user_id := user_id; q_id_gt := id_gt;
                  q_status_in := Some ["ready"; "in_progress"; "completed"]%string |}
               (interview_sessions store)
        else if String.eqb poll_type "application" then
          find {| q_user_id := user_id; q_id_gt := id_gt; q_status_in := None |}
               (applications store)
        else if String.eqb poll_type "job" then
          find {| q_user_id := user_id; q_id_gt := id_gt;
                  q_status_in := Some ["active"%string] |}
               (jobs store)
        else
          find {| q_user_id := user_id; q_id_gt := id_gt; q_status_in := None |}
               (system_updates store) in
      format_all E docs poll_type
  end.

Definition set_last_update_id (i : string) (p : poll) : poll :=
  {| p_user_id := p_user_id p; p_type := p_type p; p_last_poll := p_last_poll p;
     p_interval := p_interval p; p_last_update_id := Some i |}.

Definition set_last_poll (t : Z) (p : poll) : poll :=
  {| p_user_id := p_user_id p; p_type := p_type p; p_last_poll := t;
     p_interval := p_interval p; p_last_update_id := p_last_update_id p |}.

(** [poll[...] = ...] on the dict object held by [active_polls]. *)
Definition update_poll (poll_id : string) (f : poll → poll) : M unit :=
  modify_polls (λ polls,
    match PyDict.get poll_id polls with
    | Some p => PyDict.set poll_id (f p) polls
    | None => polls
    end).

(** One pass through the [while] loop of [_poll_loop]: the updates of this
    tick and whether the loop goes on (to sleep and to the next pass).
    [callback_ok] tells whether the session's callback returned; the
    callback does not touch the session itself. *)
Definition poll_tick (E : Env) (db : option Store) (callback_ok : bool)
    (poll_id : string) : M (list update * bool) :=
  λ w,
  match PyDict.get poll_id (active_polls w) with
  | None => (([], false), w)
  | Some p =>
      (updates <- _get_updates E db (p_user_id p) (p_type p) (p_last_update_id p) ;;
       if bool_decide (updates ≠ []) && negb callback_ok
       then ret (updates, true)        (* the callback raised: logged, then sleep *)
       else
         (match last updates with
          | Some u =>
              if truthy (Some (u_id u))
              then update_poll poll_id (set_last_update_id (u_id u))
              else ret tt
          | None => ret tt
          end) ;;
         t <- now_wall E ;;
         update_poll poll_id (set_last_poll t) ;;
         now <- now_wall E ;;
         if max_poll_age <? now - t
         then modify_polls (stop_polling poll_id) ;; ret (updates, false)
         else ret (updates, true)) w
  end.

(** The session's watermark. *)
Definition watermark (poll_id : string) (w : World) : option string :=
  PyDict.get poll_id (active_polls w) ≫= p_last_update_id.

(** ** Counters, notifications and the heartbeat of the manager

    Left out of the embedding: [start_event_listener] (it only starts the
    subscriber thread that feeds [_handle_redis_event]), [_handle_poll_update]
    (its system branch hands [json.dumps] the update with its [datetime],
    which the message type here cannot hold) and the status route (it reads
    a third clock, [time.time()]). *)

Definition get_connection_count (m : Manager) : nat :=
  length (active_connections m).

(** [len(self.user_connections.get(user_id, set()))] *)
Definition get_user_connection_count (user_id : string) (m : Manager) : nat :=
  size (default ∅ (PyDict.get user_id (user_connections m))).

Record connection_stats := {
  total_connections : nat;
  unique_users : nat;
  per_user : list (string * nat)       (* "user_connections" *)
}.

Definition get_connection_stats (m : Manager) : connection_stats :=
  {| total_connections := length (active_connections m);
     unique_users := length (user_connections m);
     per_user := (λ item, (item.1, size item.2)) <$> user_connections m |}.


Definition handle_system_announcement (E : Env) (announcement : json) : M unit :=
  t <- now_loop E ;;
  broadcast
    {| m_type := "system_announcement"; m_message_id := None;
       m_timestamp := Some (LoopTime t);
       m_fields := [("announcement"%string, announcement)] |} [].

(** One turn of the [while] loop of [_connection_heartbeat], from the end of
    its sleep; the result tells whether the loop goes back to its test
    ([false]: the health record is missing, the KeyError is handled by
    [disconnect] and [break]). *)
Definition heartbeat_turn (E : Env) (connection_id : string) : M bool :=
  start_time <- now_loop E ;;
  send_personal_message E
    {| m_type := "ping"; m_message_id := None;
       m_timestamp := Some (LoopTime start_time); m_fields := [] |}
    connection_id true ;;
  m <- get_mgr ;;
  match connection_health m !! connection_id with
  | Some h =>
      modify_mgr (with_health (insert connection_id
        {| connected_at := connected_at h; last_ping := Some start_time;
           ping_count := ping_count h + 1; latency_ms := latency_ms h |})) ;;
      ret true
  | None =>
      modify_mgr (disconnect connection_id None) ;;
      ret false
  end.

(** [_connection_heartbeat] over [turns] sleeps that nothing else interrupts:
    the loop tests [connection_id in self.active_connections] before each. *)
Fixpoint _connection_heartbeat (E : Env) (connection_id : string) (turns : nat)
    : M unit :=
  match turns with
  | O => ret tt
  | S turns =>
      m <- get_mgr ;;
      if PyDict.mem connection_id (active_connections m) then
        go_on <- heartbeat_turn E connection_id ;;
        if go_on then _connection_heartbeat E connection_id turns else ret tt
      else ret tt
  end.

(** * Notions the statements use *)

(** What a check does to the connection's own bucket. *)
Definition bucket_step (now : Z) (o : option rate_data) : bool * rate_data :=
  match o with
  | None =>
      (true, {| tokens := max_messages_per_minute; last_update := now;
                warnings := 0 |})
  | Some rate =>
      let refilled :=
        Z.min max_messages_per_minute (tokens rate + tokens_to_add now rate) in
      if 0 <? refilled
      then (true, {| tokens := refilled - 1; last_update := now;
                     warnings := warnings rate |})
      else (false, {| tokens := refilled; last_update := now;
                      warnings := warnings rate + 1 |})
  end.

(** The bucket along a connection's successive checks. *)
Fixpoint run_bucket (times : list Z) (o : option rate_data)
    : list bool * option rate_data :=
  match times with
  | [] => ([], o)
  | now :: rest =>
      let (ok, rate) := bucket_step now o in
      let (oks, o') := run_bucket rest (Some rate) in
      (ok :: oks, o')
  end.

(** A bucket within its bounds. *)
Definition bucket_ok (rate : rate_data) : Prop :=
  0 ≤ tokens rate ≤ max_messages_per_minute.


(** Successive checks, each less than half a second after the one before
    ([prev] is the time of the check before the first). *)
Fixpoint short_gaps (prev : Z) (times : list Z) : Prop :=
  match times with
  | [] => True
  | now :: rest => 0 ≤ now - prev < 500000 ∧ short_gaps now rest
  end.

(** A bucket, if any, within bounds and dated before the checks to come. *)
Definition start_ok (o : option rate_data) (times : list Z) : Prop :=
  match o with
  | None => True
  | Some rate => bucket_ok rate ∧ Forall (Z.le (last_update rate)) times
  end.

(** The manager's ordered dicts have one entry per key. *)
Definition dicts_ok (m : Manager) : Prop :=
  NoDup (PyDict.keys (active_connections m))
  ∧ NoDup (PyDict.keys (user_connections m)).

(** A connection id of which no index of the manager holds anything. *)
Definition forgotten (connection_id : string) (m : Manager) : Prop :=
  PyDict.get connection_id (active_connections m) = None
  ∧ (∀ u conns, PyDict.get u (user_connections m) = Some conns →
       connection_id ∉ conns)
  ∧ PyDict.get connection_id (connection_roles m) = None
  ∧ connection_health m !! connection_id = None
  ∧ rate_limits m !! connection_id = None.

(** A sample environment and sample sockets for the concrete runs. *)
Definition demo_env : Env :=
  {| wall_clock := λ i, Z.of_nat i;
     loop_clock := λ i, Z.of_nat i;
     uuid4 := λ i, ("uuid-" +:+ pretty i)%string;
     token_urlsafe := λ i, ("token-" +:+ pretty i)%string |}.

(** A socket that takes every write, and one whose writes raise. *)
Definition good_socket (n : nat) : WebSocket :=
  {| ws_sock := n; ws_accepts := true; ws_on_send := WriteOk |}.

Definition broken_socket (n : nat) : WebSocket :=
  {| ws_sock := n; ws_accepts := true; ws_on_send := WriteError |}.

(** User u1 connected as c1 with role recruiter. *)
Definition one_connection : World :=
  (connect demo_env (good_socket 1) "c1" (Some "u1"%string)
     (Some "recruiter"%string) init_world).2.

(** The frames a broadcast of [msg] writes to the sockets of [items]. *)
Definition frames_to (msg : message) (items : list (string * WebSocket))
    : list (nat * message) :=
  map (λ item, (ws_sock item.2, msg)) items.

(** Two users on two connections; the transport of c1, the older one, has
    failed since it connected. *)
Definition first_socket_broken : World :=
  let w := (connect demo_env (good_socket 1) "c1" (Some "u1"%string) None
              init_world).2 in
  let w := (connect demo_env (good_socket 2) "c2" (Some "u2"%string) None w).2 in
  (modify_mgr (with_active (PyDict.set "c1" (broken_socket 1))) w).2.

(** A message to broadcast. *)
Definition announcement : message :=
  {| m_type := "system_announcement"; m_message_id := None;
     m_timestamp := Some (LoopTime 0); m_fields := [] |}.

(** A projection [f] of the world that the computation [c] leaves as it
    found it. *)
Definition keeps {B A} (f : World → B) (c : M A) : Prop := ∀ w, f (c w).2 = f w.

(** The queues and the user index. *)
Definition queue_of (w : World) :=
  (message_queue (mgr w), user_connections (mgr w)).

(** What no send, fallback or rate-limit check touches. *)
Definition stable_of (w : World) :=
  (message_queue (mgr w), user_connections (mgr w), reconnect_tokens (mgr w),
   token_reads w, loop_reads w).

(** The histories and the frames written. *)
Definition history_of (w : World) := (message_history (mgr w), wire w).

(** From a world satisfying [P], [c] yields a result and a world
    satisfying [Q]. *)
Definition hoare {A} (P : World → Prop) (c : M A) (Q : A → World → Prop) : Prop :=
  ∀ w, P w → Q (c w).1 (c w).2.

(** The stored tokens and the number of tokens drawn. *)
Definition tokens_of (w : World) := (reconnect_tokens (mgr w), token_reads w).

(** Stored tokens are never empty: they come from
    [secrets.token_urlsafe(32)]. *)
Definition tokens_ok (m : Manager) : Prop :=
  ∀ u t, reconnect_tokens m !! u = Some t → t ≠ ""%string.

(** Some session state captured at a disconnect belongs to the user. *)
Definition has_session (user_id : string) (m : Manager) : Prop :=
  ∃ st, st ∈ PyDict.values (session_state m) ∧ ss_user_id st = user_id.

(** A sample store: the applications of user u1. *)
Definition application (i : string) (status : string) : doc :=
  {| d_id := i; d_user_id := Some "u1"%string; d_status := Some status;
     d_session_id := None; d_job_id := Some (JStr "job-7"); d_title := None;
     d_other := [] |}.

(** The store at a first tick, and at the next one. *)
Definition store_monday : Store :=
  {| interview_sessions := [];
     applications := [application "a2" "shortlisted"; application "a1" "received"];
     jobs := []; system_updates := [] |}.

Definition store_tuesday : Store :=
  {| interview_sessions := [];
     applications := [application "a3" "rejected"; application "a2" "shortlisted";
                      application "a1" "received"];
     jobs := []; system_updates := [] |}.

(** User u1 polls for application updates. *)
Definition polling_world : World :=
  (start_polling demo_env "u1" "application" init_world).2.

(** Ticks one microsecond apart, the first reading 25 hours after the
    session started. *)
Definition day_after : Env :=
  {| wall_clock := λ i, 25 * 3600 * microseconds + Z.of_nat i;
     loop_clock := λ i, Z.of_nat i;
     uuid4 := uuid4 demo_env; token_urlsafe := token_urlsafe demo_env |}.

(** A queued message carries a reading of the loop clock. *)
Definition loop_stamped (msg : message) : Prop :=
  ∃ t, m_timestamp msg = Some (LoopTime t).

(** The queue dict has one entry per user and holds stamped messages. *)
Definition queue_ok (m : Manager) : Prop :=
  NoDup (PyDict.keys (message_queue m))
  ∧ ∀ u msgs, PyDict.get u (message_queue m) = Some msgs → Forall loop_stamped msgs.

(** The test of the sweep on a message stamped by the loop clock. *)
Definition recent (expiry_time : Z) (msg : message) : bool :=
  match m_timestamp msg with
  | Some (LoopTime t) => expiry_time <? t
  | _ => false
  end.

(** A list as a dict value: an empty list has no entry. *)
Definition nonempty {A} (l : list A) : option (list A) :=
  match l with [] => None | _ => Some l end.

(** The user for whom [route_event] queues the event: no role target, a
    user target, and no connection of that user. *)
Definition offline_target (ev : event) (m : Manager) : option string :=
  if truthy (ev_target_role ev) then None
  else if truthy (ev_user_id ev) then
    let u := default ""%string (ev_user_id ev) in
    if PyDict.mem u (user_connections m) then None else Some u
  else None.

(** The message [_handle_redis_event] builds, stamped with the reading of
    the loop clock it starts with. *)
Definition event_message (E : Env) (ev : event) (w : World) : message :=
  {| m_type := "event"; m_message_id := None;
     m_timestamp := Some (LoopTime (loop_clock E (loop_reads w)));
     m_fields := [("event_type"%string, opt_json (ev_event_type ev));
                  ("job_id"%string, opt_json (ev_job_id ev));
                  ("data"%string, default (JObj []) (ev_payload ev))] |}.

(** The events the handler takes to its end: the type is present, and the
    payload of an application status change is an object. *)
Definition handled (ev : event) : Prop :=
  ∃ event_type, ev_event_type ev = Some event_type
    ∧ (event_type = "application_status_changed"%string →
       ∃ fields, default (JObj []) (ev_payload ev) = JObj fields).

(** An event for user u9, who has no connection. *)
Definition notice : event :=
  {| ev_event_type := Some "notice"%string; ev_job_id := None;
     ev_user_id := Some "u9"%string; ev_target_role := None;
     ev_payload := None |}.

(** Events arriving while the loop clock reads 0. *)
Definition frozen : Env :=
  {| wall_clock := wall_clock demo_env; loop_clock := λ _, 0;
     uuid4 := uuid4 demo_env; token_urlsafe := token_urlsafe demo_env |}.

(** The wall clock on the night daylight saving time ends: the first
    reading at 02:59:59, the later ones from 02:00:00 on, a microsecond
    apart ([datetime.now()] is local time without a zone). *)
Definition dst_end : Env :=
  {| wall_clock := λ i,
       match i with
       | O => (2 * 3600 + 3599) * microseconds
       | S i => 2 * 3600 * microseconds + Z.of_nat i
       end;
     loop_clock := loop_clock demo_env;
     uuid4 := uuid4 demo_env; token_urlsafe := token_urlsafe demo_env |}.

(** [n] events for the offline user, one after the other. *)
Fixpoint flood (n : nat) (w : World) : World :=
  match n with
  | O => w
  | S n => (_handle_redis_event frozen notice (flood n w)).2
  end.

(** [sent] is the queued message as it goes out: the same type and fields,
    the id and the timestamp it had, and both present. *)
Definition stamped_from (queued sent : message) : Prop :=
  m_type sent = m_type queued
  ∧ m_fields sent = m_fields queued
  ∧ (∀ i, m_message_id queued = Some i → m_message_id sent = Some i)
  ∧ (∀ t, m_timestamp queued = Some t → m_timestamp sent = Some t)
  ∧ is_Some (m_message_id sent)
  ∧ is_Some (m_timestamp sent).

(** The wall clock does not go back. *)
Definition monotone (E : Env) : Prop :=
  ∀ i j, (i ≤ j)%nat → wall_clock E i ≤ wall_clock E j.

(** The send credit of a connection: its bucket is within bounds, dated no
    later than the clock, and holds [k] tokens at least; a connection
    without a bucket has the free first check and a full bucket ahead. *)
Definition credit (E : Env) (cid : string) (k : Z) (w : World) : Prop :=
  match rate_limits (mgr w) !! cid with
  | None => k ≤ max_messages_per_minute + 1
  | Some rate =>
      bucket_ok rate
      ∧ last_update rate ≤ wall_clock E (wall_reads w)
      ∧ k ≤ tokens rate
  end.



(** The number of checks of a run that were denied. *)
Definition denials (results : list bool) : nat :=
  length (List.filter negb results).

(** The key of a polling session started for a user and a poll type when
    the wall clock read [t]: [f"poll_{user_id}_{poll_type}_{int(timestamp)}"]. *)
Definition poll_name (user_id poll_type : string) (t : Z) : string :=
  ("poll_" +:+ user_id +:+ "_" +:+ poll_type +:+ "_"
     +:+ pretty (Z.quot t microseconds))%string.

(** The session [start_polling] registers, from its second clock reading. *)
Definition new_poll (E : Env) (user_id poll_type : string) (t : Z)
    (interval : Z) : poll :=
  {| p_user_id := user_id; p_type := poll_type; p_last_poll := t;
     p_interval := interval;
     p_last_update_id := _get_last_update_id user_id poll_type |}.

(** The connections a broadcast does not exclude. *)
Definition recipients (exclude_connections : list string)
    (items : list (string * WebSocket)) : list (string * WebSocket) :=
  List.filter (λ item, negb (bool_decide (item.1 ∈ exclude_connections))) items.

(** A message that carries its id and its timestamp. *)
Definition complete (msg : message) : Prop :=
  is_Some (m_message_id msg) ∧ is_Some (m_timestamp msg).

(** The frames that carry [msg] to the sockets registered for
    [connection_ids], one for each id that is an active connection. *)
Definition frames_for (msg : message) (m : Manager) (connection_ids : list string)
    : list (nat * message) :=
  omap (λ cid, (λ ws, (ws_sock ws, msg)) <$> PyDict.get cid (active_connections m))
    connection_ids.

(** A connection that can be written to: it is registered, its socket
    takes the write and its bucket holds a token. *)
Definition writable (E : Env) (w : World) (connection_id : string) : Prop :=
  ∃ ws, PyDict.get connection_id (active_connections (mgr w)) = Some ws
    ∧ ws_on_send ws = WriteOk
    ∧ credit E connection_id 1 w.

(** The roles, the health records and the number of loop-clock readings:
    what no send, fallback or rate-limit check touches either. *)
Definition registry_of (w : World) :=
  (connection_roles (mgr w), connection_health (mgr w), loop_reads w).

(** The health record of a connection that has just been accepted. *)
Definition fresh_health (t : Z) : health :=
  {| connected_at := t; last_ping := None; ping_count := 0; latency_ms := [] |}.

(** The user index has one entry per user and no user with an empty set. *)
Definition users_ok (m : Manager) : Prop :=
  NoDup (PyDict.keys (user_connections m))
  ∧ ∀ u conns, PyDict.get u (user_connections m) = Some conns → conns ≠ ∅.


(** The health record of a connection after a heartbeat that started when
    the loop clock read [t]. *)
Definition pinged (t : Z) (h : health) : health :=
  {| connected_at := connected_at h; last_ping := Some t;
     ping_count := ping_count h + 1; latency_ms := latency_ms h |}.

(** What the frames a client sends cannot touch: the frames written, the
    polling sessions and, of the manager, everything but the health records
    and the two indexes that [disconnect] clears. *)
Definition outbound_of (w : World) :=
  (wire w, active_polls w, message_queue (mgr w), message_history (mgr w),
   reconnect_tokens (mgr w), session_state (mgr w), rate_limits (mgr w),
   connection_roles (mgr w)).

(** A connection that cannot be written to: no socket is registered for
    it, or the one that is raises on a write. *)
Definition unwritable (connection_id : string) (w : World) : Prop :=
  NoDup (PyDict.keys (active_connections (mgr w)))
  ∧ ∀ ws, PyDict.get connection_id (active_connections (mgr w)) = Some ws →
          ws_on_send ws ≠ WriteOk.

(** More sample states for the concrete runs. *)

(** Connection c1 accepted, nothing sent to it yet. *)
Definition accepted_only : Manager :=
  with_active (PyDict.set "c1" (good_socket 1)) init_manager.

(** A connection without a user, accepted over a socket whose writes
    raise. *)
Definition unowned_broken : World :=
  (connect demo_env (broken_socket 7) "c7" None None init_world).2.

(** The session state recorded when connection c1 of user u1 was lost, and
    a manager that holds it with the user's token. *)
Definition lost_c1 : session :=
  {| ss_last_message := announcement; ss_disconnected_at := 5;
     ss_user_id := "u1"; ss_role := None |}.

Definition one_lost_session : Manager :=
  with_sessions (PyDict.set "c1" lost_c1)
    (with_tokens (insert "u1"%string "token-0"%string) init_manager).

(** The state a broadcast leaves when the socket of c1, the connection of
    u1, raised. *)
Definition after_failed_broadcast : World :=
  (broadcast announcement [] first_socket_broken).2.

(** An event for user u1. *)
Definition notice_u1 : event :=
  {| ev_event_type := Some "notice"%string; ev_job_id := None;
     ev_user_id := Some "u1"%string; ev_target_role := None;
     ev_payload := None |}.

(** Connection c1 with its bucket used up. *)
Definition drained : World :=
  (modify_mgr (with_rates (insert "c1"%string
     {| tokens := 0; last_update := 0; warnings := 0 |})) one_connection).2.

(** * Properties *)

(** ** Insertion-ordered dictionaries *)

Section DictFacts.
Context {V : Type}.
Implicit Types (d : list (string * V)) (k : string) (v : V).

Lemma dict_get_set_eq k v d : PyDict.get k (PyDict.set k v d) = Some v.
Proof.
  induction d as [|[k' v'] d IH]; simpl.
  - by rewrite String.eqb_refl.
  - destruct (String.eqb k k') eqn:E; simpl.
    + by rewrite String.eqb_refl.
    + by rewrite E.
Qed.

Lemma dict_get_set_ne k k' v d :
  k ≠ k' → PyDict.get k' (PyDict.set k v d) = PyDict.get k' d.
Proof.
  intros Hne. induction d as [|[k0 v0] d IH]; simpl.
  - destruct (String.eqb k' k) eqn:E; [|done].
    apply String.eqb_eq in E. congruence.
  - destruct (String.eqb k k0) eqn:E; simpl.
    + apply String.eqb_eq in E. subst k0.
      destruct (String.eqb k' k) eqn:E'; [|done].
      apply String.eqb_eq in E'. congruence.
    + by rewrite IH.
Qed.

Lemma dict_get_del_ne k k' d :
  k ≠ k' → PyDict.get k' (PyDict.del k d) = PyDict.get k' d.
Proof.
  intros Hne. induction d as [|[k0 v0] d IH]; simpl; [done|].
  destruct (String.eqb k k0) eqn:E; simpl.
  - apply String.eqb_eq in E. subst k0.
    destruct (String.eqb k' k) eqn:E'; [|done].
    apply String.eqb_eq in E'. congruence.
  - by rewrite IH.
Qed.

Lemma dict_get_None_notin k d : PyDict.get k d = None ↔ k ∉ PyDict.keys d.
Proof.
  unfold PyDict.keys. induction d as [|[k0 v0] d IH]; simpl.
  - split; [intros _; apply not_elem_of_nil | done].
  - destruct (String.eqb k k0) eqn:E.
    + apply String.eqb_eq in E. subst. split; [done|].
      intros []. apply elem_of_cons. by left.
    + apply String.eqb_neq in E. rewrite IH, not_elem_of_cons. tauto.
Qed.

Lemma dict_get_del_eq k d :
  NoDup (PyDict.keys d) → PyDict.get k (PyDict.del k d) = None.
Proof.
  unfold PyDict.keys. induction d as [|[k0 v0] d IH]; simpl; [done|].
  intros Hnd. apply NoDup_cons in Hnd as [Hk0 Hnd].
  destruct (String.eqb k k0) eqn:E; simpl.
  - apply String.eqb_eq in E. subst. by apply dict_get_None_notin.
  - rewrite E. by apply IH.
Qed.

Lemma dict_del_length k v d :
  PyDict.get k d = Some v → S (length (PyDict.del k d)) = length d.
Proof.
  induction d as [|[k0 v0] d IH]; simpl; [done|].
  destruct (String.eqb k k0); [done|]. intros H. simpl. by rewrite (IH H).
Qed.

End DictFacts.

(** ** Field-by-field facts about [disconnect] *)

Lemma disconnect_rates cid u m : rate_limits (disconnect cid u m) = rate_limits m.
Proof.
  unfold disconnect.
  destruct (PyDict.mem cid (active_connections m)); simpl;
    destruct (truthy u); simpl; try reflexivity;
    match goal with |- context [PyDict.get ?k ?d] => destruct (PyDict.get k d) end;
    try reflexivity; case_decide; reflexivity.
Qed.

(** ** The token bucket *)

Lemma check_rate_limit_bucket now cid m :
  (_check_rate_limit now cid m).1 = (bucket_step now (rate_limits m !! cid)).1
  ∧ rate_limits (_check_rate_limit now cid m).2 !! cid
    = Some (bucket_step now (rate_limits m !! cid)).2.
Proof.
  unfold _check_rate_limit, bucket_step.
  destruct (rate_limits m !! cid) as [rate|]; simpl.
  - destruct (0 <? _); simpl.
    + split; [done|]. apply lookup_insert_eq.
    + split; [done|]. destruct (3 <? _); rewrite ?disconnect_rates; simpl;
        apply lookup_insert_eq.
  - split; [done|]. apply lookup_insert_eq.
Qed.

Lemma run_checks_bucket cid times : ∀ m,
  (run_checks cid times m).1 = (run_bucket times (rate_limits m !! cid)).1
  ∧ rate_limits (run_checks cid times m).2 !! cid
    = (run_bucket times (rate_limits m !! cid)).2.
Proof.
  induction times as [|now rest IH]; intros m; simpl; [done|].
  pose proof (check_rate_limit_bucket now cid m) as [Hok Hrate].
  destruct (_check_rate_limit now cid m) as [ok m1]; simpl in *.
  destruct (bucket_step now (rate_limits m !! cid)) as [ok' rate]; simpl in *.
  specialize (IH m1). rewrite Hrate in IH.
  destruct (run_checks cid rest m1) as [oks m2]; simpl in *.
  destruct (run_bucket rest (Some rate)) as [oks' o']; simpl in *.
  destruct IH as [-> ->]. by subst.
Qed.

Lemma run_bucket_app t1 t2 o :
  run_bucket (t1 ++ t2) o =
    let (r1, o1) := run_bucket t1 o in
    let (r2, o2) := run_bucket t2 o1 in
    (r1 ++ r2, o2).
Proof.
  revert o. induction t1 as [|now rest IH]; intros o; simpl.
  - by destruct (run_bucket t2 o).
  - destruct (bucket_step now o) as [ok rate].
    rewrite IH. destruct (run_bucket rest (Some rate)) as [r1 o1].
    by destruct (run_bucket t2 o1).
Qed.

Lemma run_bucket_length times : ∀ o, length (run_bucket times o).1 = length times.
Proof.
  induction times as [|now rest IH]; intros o; simpl; [done|].
  destruct (bucket_step now o) as [ok rate]. specialize (IH (Some rate)).
  destruct (run_bucket rest (Some rate)). simpl in *. by rewrite IH.
Qed.

Lemma last_cons_default (l : list Z) : ∀ (x d d' : Z),
  List.last (x :: l) d = List.last (x :: l) d'.
Proof.
  induction l as [|y l IH]; intros x d d'; [done|].
  change (List.last (y :: l) d = List.last (y :: l) d'). apply IH.
Qed.

Lemma last_lower_bound (a : Z) (l : list Z) : ∀ d,
  a ≤ d → Forall (Z.le a) l → a ≤ List.last l d.
Proof.
  induction l as [|x l IH]; intros d Hd Hall; [done|].
  inversion_clear Hall. destruct l; [done|]. by apply IH.
Qed.

Lemma tokens_to_add_bounds now rate :
  last_update rate ≤ now →
  0 ≤ tokens_to_add now rate
  ∧ tokens_to_add now rate * (60 * microseconds)
    ≤ (now - last_update rate) * max_messages_per_minute.
Proof.
  intros Hle. unfold tokens_to_add, max_messages_per_minute, microseconds.
  rewrite Z.quot_div_nonneg by lia. split.
  - apply Z.div_pos; lia.
  - rewrite Z.mul_comm. apply Z.mul_div_le. lia.
Qed.

(** One check on an existing bucket: the bucket stays within its bounds,
    and an allowed check is paid for by a token held or refilled. *)
Lemma bucket_step_some now rate :
  bucket_ok rate → last_update rate ≤ now →
  let (ok, rate') := bucket_step now (Some rate) in
  bucket_ok rate' ∧ last_update rate' = now
  ∧ (if ok then 1 else 0) + tokens rate' ≤ tokens rate + tokens_to_add now rate
  ∧ (if ok then 1 else 0) + tokens rate' ≤ max_messages_per_minute.
Proof.
  intros [Hlo Hhi] Hle.
  destruct (tokens_to_add_bounds now rate Hle) as [Hadd _].
  unfold bucket_step, bucket_ok.
  destruct (0 <? _) eqn:Hpos; simpl.
  - apply Z.ltb_lt in Hpos. lia.
  - apply Z.ltb_ge in Hpos. lia.
Qed.

(** Along a run of checks at non-decreasing times, the allowed checks and
    the tokens left are covered by the tokens held at the start and the
    time elapsed, at [max_messages_per_minute] per 60 seconds. *)
Lemma run_bucket_account times : ∀ rate,
  bucket_ok rate →
  StronglySorted Z.le (last_update rate :: times) →
  match run_bucket times (Some rate) with
  | (oks, Some rate') =>
      bucket_ok rate'
      ∧ last_update rate' = List.last times (last_update rate)
      ∧ (allowed oks + tokens rate' - tokens rate) * (60 * microseconds)
        ≤ (last_update rate' - last_update rate) * max_messages_per_minute
  | (_, None) => False
  end.
Proof.
  induction times as [|now rest IH]; intros rate Hok Hsorted.
  - simpl. unfold allowed. simpl. split; [done|]. split; [done|]. lia.
  - apply StronglySorted_inv in Hsorted as [Hrest Hall].
    apply StronglySorted_inv in Hrest as [Hrest Hnow].
    inversion_clear Hall as [|? ? Hle Hall'].
    pose proof (bucket_step_some now rate Hok Hle) as Hstep.
    destruct (tokens_to_add_bounds now rate Hle) as [_ Hadd].
    cbn [run_bucket].
    destruct (bucket_step now (Some rate)) as [ok rate1].
    destruct Hstep as (Hok1 & Hlu1 & Hpay & _).
    specialize (IH rate1 Hok1).
    rewrite Hlu1 in IH.
    assert (StronglySorted Z.le (now :: rest)) as Hs by (by constructor).
    specialize (IH Hs).
    destruct (run_bucket rest (Some rate1)) as [oks [rate'|]]; [|done].
    destruct IH as (Hok' & Hlu' & Hacc).
    split; [done|]. split.
    { rewrite Hlu'. destruct rest as [|x rest']; [done|].
      change (List.last (x :: rest') now
              = List.last (x :: rest') (last_update rate)).
      apply last_cons_default. }
    assert (now ≤ last_update rate').
    { rewrite Hlu'. apply last_lower_bound; [lia|done]. }
    unfold allowed in *. unfold max_messages_per_minute, microseconds in *.
    destruct ok; simpl in *; lia.
Qed.

Lemma last_elem_of (l : list Z) : ∀ d, List.last l d ∈ d :: l.
Proof.
  induction l as [|x l IH]; intros d; [set_solver|].
  destruct l as [|y l]; [set_solver|].
  specialize (IH x). change (List.last (y :: l) d ∈ d :: x :: y :: l).
  rewrite (last_cons_default l y d x). set_solver.
Qed.

Lemma run_bucket_fresh now rest :
  run_bucket (now :: rest) None =
    let (oks, o) :=
      run_bucket rest
        (Some {| tokens := max_messages_per_minute; last_update := now;
                 warnings := 0 |}) in
    (true :: oks, o).
Proof. done. Qed.

(** From a connection's first check on, the bucket exists, holds between
    0 and [max_messages_per_minute] tokens and is dated by a check. *)
Lemma run_from_none times :
  StronglySorted Z.le times →
  match (run_bucket times None).2 with
  | None => times = []
  | Some rate => bucket_ok rate ∧ last_update rate ∈ times
  end.
Proof.
  destruct times as [|now rest]; [done|]. intros Hs.
  rewrite run_bucket_fresh.
  set (rate0 := {| tokens := max_messages_per_minute; last_update := now;
                   warnings := 0 |}).
  pose proof (run_bucket_account rest rate0) as Hacc.
  destruct (run_bucket rest (Some rate0)) as [oks [rate'|]]; simpl.
  - destruct Hacc as (Hok & Hlu & _); [by compute|done|].
    split; [done|]. rewrite Hlu. apply last_elem_of.
  - exfalso. apply Hacc; [by compute|done].
Qed.

(** The checks allowed inside a window, against the time it spans. *)
Lemma window_account win o :
  start_ok o win → StronglySorted Z.le win →
  allowed (run_bucket win o).1 * (60 * microseconds)
    ≤ (max_messages_per_minute + 1) * (60 * microseconds)
      + span win * max_messages_per_minute.
Proof.
  intros Hstart Hs. destruct win as [|now rest].
  { simpl. unfold allowed, max_messages_per_minute, microseconds. simpl. lia. }
  assert (span (now :: rest) = List.last rest now - now) as ->.
  { unfold span. destruct rest as [|x rest]; [done|]. done. }
  destruct o as [rate|].
  - destruct Hstart as [Hok Hall]. inversion_clear Hall as [|? ? Hle _].
    pose proof (bucket_step_some now rate Hok Hle) as Hstep.
    cbn [run_bucket].
    destruct (bucket_step now (Some rate)) as [ok rate1].
    destruct Hstep as (Hok1 & Hlu1 & _ & Hcap).
    pose proof (run_bucket_account rest rate1 Hok1) as Hacc.
    rewrite Hlu1 in Hacc. specialize (Hacc Hs).
    destruct (run_bucket rest (Some rate1)) as [oks [rate'|]]; [|done].
    destruct Hacc as ([Hlo _] & Hlu' & Hacc). rewrite Hlu' in Hacc.
    unfold allowed in *. unfold max_messages_per_minute, microseconds in *.
    destruct ok; simpl in *; lia.
  - rewrite run_bucket_fresh.
    set (rate0 := {| tokens := max_messages_per_minute; last_update := now;
                     warnings := 0 |}).
    pose proof (run_bucket_account rest rate0) as Hacc.
    destruct (run_bucket rest (Some rate0)) as [oks [rate'|]].
    + destruct Hacc as ([Hlo _] & Hlu' & Hacc); [by compute|done|].
      rewrite Hlu' in Hacc.
      unfold allowed in *. unfold max_messages_per_minute, microseconds in *.
      simpl in *. lia.
    + exfalso. apply Hacc; [by compute|done].
Qed.

(** The window bound and the cap, which hold on the code.  A connection's
    rate-limit checks, from its first one on, at non-decreasing clock
    readings.  Among the checks of any window spanning at most 60 seconds,
    at most [max_messages_per_minute] (the capacity, 120) plus the initial
    burst are allowed, the initial burst being the 121 checks a new
    connection passes with no time elapsing: the check that creates the
    full bucket without taking a token, and the 120 tokens.  A window
    spanning less than 60 seconds allows at most 120 + 120.  After the
    first check the bucket exists and never holds more than the capacity
    (nor less than zero); a check on it adds the truncation of the seconds
    elapsed since the check before times capacity / 60, capped at the
    capacity, before it takes one token when it allows. *)
Lemma rate_limit_window (connection_id : string) (m : Manager)
    (pre win post : list Z) :
  rate_limits m !! connection_id = None →
  Sorted Z.le (pre ++ win ++ post) →
  let run := run_checks connection_id (pre ++ win ++ post) m in
  let in_window := take (length win) (drop (length pre) run.1) in
  (span win ≤ 60 * microseconds →
     allowed in_window ≤ max_messages_per_minute + (max_messages_per_minute + 1))
  ∧ (span win < 60 * microseconds →
     allowed in_window ≤ max_messages_per_minute + max_messages_per_minute)
  ∧ match rate_limits run.2 !! connection_id with
    | Some rate => 0 ≤ tokens rate ≤ max_messages_per_minute
    | None => pre ++ win ++ post = []
    end
  ∧ (∀ rate now, rate_limits run.2 !! connection_id = Some rate →
       let next := _check_rate_limit now connection_id run.2 in
       ∃ rate', rate_limits next.2 !! connection_id = Some rate'
         ∧ last_update rate' = now
         ∧ tokens rate' =
             Z.min max_messages_per_minute
               (tokens rate
                + Z.quot ((now - last_update rate) * max_messages_per_minute)
                    (60 * microseconds))
             - (if next.1 then 1 else 0)).
Proof.
  intros Hnone Hsorted run in_window.
  apply Sorted_StronglySorted in Hsorted; [|apply _].
  pose proof (run_checks_bucket connection_id (pre ++ win ++ post) m) as [Hres Hfin].
  fold run in Hres, Hfin. rewrite Hnone in Hres, Hfin.
  assert (allowed in_window * (60 * microseconds)
          ≤ (max_messages_per_minute + 1) * (60 * microseconds)
            + span win * max_messages_per_minute) as Hwin.
  { unfold in_window. rewrite Hres.
    rewrite run_bucket_app.
    pose proof (run_bucket_length pre None) as Hlen1.
    pose proof (run_from_none pre (StronglySorted_app_1_l _ _ _ Hsorted)) as Hpre.
    destruct (run_bucket pre None) as [r1 o1]. simpl in Hlen1, Hpre.
    rewrite run_bucket_app.
    pose proof (run_bucket_length win o1) as Hlen2.
    pose proof (window_account win o1) as Hacc.
    destruct (run_bucket win o1) as [r2 o2]. simpl in Hlen2, Hacc.
    destruct (run_bucket post o2) as [r3 o3]. simpl.
    rewrite drop_app_length' by done. rewrite take_app_length' by done.
    apply Hacc.
    - destruct o1 as [rate|]; [|done]. destruct Hpre as [Hok Hin].
      split; [done|]. apply Forall_forall. intros x Hx.
      apply (StronglySorted_app_1_elem_of _ _ _ _ _ Hsorted Hin).
      set_solver.
    - apply StronglySorted_app_1_r in Hsorted.
      by apply StronglySorted_app_1_l in Hsorted. }
  pose proof (run_from_none _ Hsorted) as Hend. rewrite <- Hfin in Hend.
  unfold max_messages_per_minute, microseconds in *.
  split; [intros; lia|]. split; [intros; lia|]. split.
  - destruct (rate_limits run.2 !! connection_id); [by destruct Hend|done].
  - intros rate now Hrate. cbv zeta.
    pose proof (check_rate_limit_bucket now connection_id run.2) as [Hok Hnext].
    rewrite Hrate in Hok, Hnext.
    eexists. split; [exact Hnext|]. rewrite Hok.
    unfold bucket_step, tokens_to_add, max_messages_per_minute, microseconds.
    destruct (0 <? _); simpl; split; (done || lia).
Qed.

(** The initial burst: with the clock standing still a new connection
    passes 121 checks, and no more. *)
Example initial_burst_frozen_clock :
  allowed (run_checks "c1" (replicate 200 0) init_manager).1 = 121.
Proof. vm_compute. reflexivity. Qed.

(** The bound of 120 + 121 is reached: 121 checks at time 0, then one check
    every half second up to second 60. *)
Example window_bound_reached :
  let times := replicate 121 0 ++ map (λ k, Z.of_nat k * 500000) (seq 1 120) in
  span times = 60 * microseconds
  ∧ allowed (run_checks "c1" times init_manager).1 = 241.
Proof. vm_compute. split; reflexivity. Qed.

(** A check less than half a second after the bucket's last one adds no
    token: [int] drops the fraction of a token that the time elapsed has
    earned, and the check moves [last_update], so that this time is not
    counted again at the next check. *)
Lemma short_gap_adds_nothing now rate :
  0 ≤ now - last_update rate < 500000 → tokens_to_add now rate = 0.
Proof.
  intros Hgap. unfold tokens_to_add, max_messages_per_minute, microseconds.
  apply Z.quot_small. lia.
Qed.

(** Checks less than half a second apart never refill the bucket, however
    long they go on: the checks allowed are paid from the tokens the bucket
    held at the start, and no more than those are allowed. *)
Lemma run_bucket_short_gaps times : ∀ rate,
  bucket_ok rate → short_gaps (last_update rate) times →
  match run_bucket times (Some rate) with
  | (oks, Some rate') => allowed oks + tokens rate' = tokens rate
                         ∧ 0 ≤ tokens rate'
  | (_, None) => False
  end.
Proof.
  induction times as [|now rest IH]; intros rate Hok Hgaps.
  - simpl. unfold allowed. simpl. unfold bucket_ok in Hok. lia.
  - destruct Hgaps as [Hgap Hgaps]. cbn [run_bucket].
    unfold bucket_step. rewrite (short_gap_adds_nothing now rate Hgap).
    unfold bucket_ok in Hok.
    rewrite Z.add_0_r, Z.min_r by lia.
    destruct (0 <? tokens rate) eqn:Hpos.
    + apply Z.ltb_lt in Hpos.
      specialize (IH {| tokens := tokens rate - 1; last_update := now;
                        warnings := warnings rate |}).
      destruct (run_bucket rest _) as [oks [rate'|]].
      * destruct IH as [IH1 IH2]; [unfold bucket_ok; simpl; lia|done|].
        unfold allowed in *. simpl in *. lia.
      * apply IH; [unfold bucket_ok; simpl; lia|done].
    + apply Z.ltb_ge in Hpos.
      specialize (IH {| tokens := tokens rate; last_update := now;
                        warnings := warnings rate + 1 |}).
      destruct (run_bucket rest _) as [oks [rate'|]].
      * destruct IH as [IH1 IH2]; [unfold bucket_ok; simpl; lia|done|].
        unfold allowed in *. simpl in *. lia.
      * apply IH; [unfold bucket_ok; simpl; lia|done].
Qed.

(** C6 on the code.  A new connection is checked 121 times at once, which
    empties its bucket, and then every 0.4 second for 60 seconds, 150
    times: none of these 150 checks is allowed and the bucket holds no
    token at the end, although 60 seconds have elapsed, in which a bucket
    refilled at capacity / 60 = 2 tokens per second earns 120 tokens.  Each
    check adds [int(0.4 * 2.0)] = 0 tokens and resets [last_update]. *)
Theorem refill_lost_between_checks :
  let times := replicate 121 0 ++ map (λ k, Z.of_nat k * 400000) (seq 1 150) in
  let run := run_checks "c1" times init_manager in
  Sorted Z.le times
  ∧ span times = 60 * microseconds
  ∧ run.1 = replicate 121 true ++ replicate 150 false
  ∧ (tokens <$> rate_limits run.2 !! "c1"%string) = Some 0
  ∧ (last_update <$> rate_limits run.2 !! "c1"%string) = Some (60 * microseconds).
Proof.
  cbv zeta. split; [apply (bool_decide_unpack _); vm_compute; exact I|].
  vm_compute. repeat split; reflexivity.
Qed.

(** ** What [disconnect] removes and what it leaves *)

Lemma disconnect_frame cid u m :
  connection_roles (disconnect cid u m) = connection_roles m
  ∧ connection_health (disconnect cid u m) = connection_health m
  ∧ message_queue (disconnect cid u m) = message_queue m
  ∧ message_history (disconnect cid u m) = message_history m
  ∧ reconnect_tokens (disconnect cid u m) = reconnect_tokens m
  ∧ session_state (disconnect cid u m) = session_state m.
Proof.
  unfold disconnect.
  destruct (PyDict.mem cid (active_connections m)); simpl;
    destruct (truthy u); simpl; try done;
    match goal with |- context [PyDict.get ?k ?d] => destruct (PyDict.get k d) end;
    try done; case_decide; done.
Qed.

Lemma disconnect_active cid u m :
  active_connections (disconnect cid u m)
  = if PyDict.mem cid (active_connections m)
    then PyDict.del cid (active_connections m)
    else active_connections m.
Proof.
  unfold disconnect.
  destruct (PyDict.mem cid (active_connections m)); simpl;
    destruct (truthy u); simpl; try done;
    match goal with |- context [PyDict.get ?k ?d] => destruct (PyDict.get k d) end;
    try done; case_decide; done.
Qed.

Lemma disconnect_users_none cid m :
  user_connections (disconnect cid None m) = user_connections m.
Proof.
  unfold disconnect. simpl. by destruct (PyDict.mem cid (active_connections m)).
Qed.

Lemma set_set_same {V} k (v : V) d : PyDict.set k v (PyDict.set k v d) = PyDict.set k v d.
Proof.
  induction d as [|[k' v'] d IH]; simpl.
  - by rewrite String.eqb_refl.
  - destruct (String.eqb k k') eqn:E; simpl.
    + by rewrite String.eqb_refl.
    + by rewrite E, IH.
Qed.

Lemma mem_del_false {V} k (d : list (string * V)) :
  NoDup (PyDict.keys d) → PyDict.mem k (PyDict.del k d) = false.
Proof. intros Hnd. unfold PyDict.mem. by rewrite dict_get_del_eq. Qed.

(** C5, as the code has it.  After [disconnect(connection_id, user_id)] the
    active connections hold no entry for the id and, when a user id is
    passed, neither does that user's set of connections (a set left empty is
    deleted with its key); roles, health, rate-limit state, queue, history,
    tokens and session states are left as they were; disconnecting again
    with the same arguments changes nothing. *)
Theorem disconnect_removes (connection_id : string) (user_id : option string)
    (m : Manager) :
  dicts_ok m →
  let m' := disconnect connection_id user_id m in
  PyDict.get connection_id (active_connections m') = None
  ∧ (∀ u conns, user_id = Some u → u ≠ ""%string →
       PyDict.get u (user_connections m') = Some conns →
       (connection_id ∉ conns) ∧ conns ≠ ∅)
  ∧ connection_roles m' = connection_roles m
  ∧ connection_health m' = connection_health m
  ∧ rate_limits m' = rate_limits m
  ∧ message_queue m' = message_queue m
  ∧ message_history m' = message_history m
  ∧ reconnect_tokens m' = reconnect_tokens m
  ∧ session_state m' = session_state m
  ∧ disconnect connection_id user_id m' = m'.
Proof.
  intros [Hact Husers] m'.
  destruct (disconnect_frame connection_id user_id m) as (Hr & Hh & Hq & Hhi & Ht & Hs).
  pose proof (disconnect_rates connection_id user_id m) as Hrl.
  assert (PyDict.get connection_id (active_connections m') = None) as Hgone.
  { unfold m'. rewrite disconnect_active. unfold PyDict.mem.
    destruct (PyDict.get connection_id (active_connections m)) eqn:E; [|done].
    by apply dict_get_del_eq. }
  split; [done|]. split; [|repeat (split; [done|])].
  - intros u conns -> Hu. unfold m', disconnect. simpl.
    assert (String.eqb u "" = false) as -> by by apply String.eqb_neq.
    simpl.
    destruct (PyDict.mem connection_id (active_connections m)); simpl;
      destruct (PyDict.get u (user_connections m)) as [cs|] eqn:E; simpl;
      try congruence; case_decide; simpl;
      rewrite ?dict_get_del_eq, ?dict_get_set_eq by done;
      intros; simplify_eq; split; (done || set_solver).
  - unfold disconnect at 1. fold m'. unfold PyDict.mem. rewrite Hgone.
    unfold m', disconnect.
    destruct (truthy user_id) eqn:Htr; simpl;
      [|by destruct (PyDict.mem connection_id (active_connections m))].
    destruct (PyDict.mem connection_id (active_connections m)); simpl;
      destruct (PyDict.get (default ""%string user_id) (user_connections m))
        as [cs|] eqn:E; simpl; rewrite ?E; try done;
      case_decide as Hemp; simpl;
      rewrite ?dict_get_del_eq, ?dict_get_set_eq by done; try done;
      (assert ((cs ∖ {[connection_id]}) ∖ {[connection_id]} = cs ∖ {[connection_id]})
         as -> by set_solver);
      rewrite decide_False by done; unfold with_users; simpl;
      by rewrite set_set_same.
Qed.

Lemma disconnect_removes_witness :
  dicts_ok (mgr one_connection)
  ∧ PyDict.get "c1"
      (active_connections (disconnect "c1" (Some "u1"%string) (mgr one_connection)))
    = None.
Proof.
  assert (dicts_ok (mgr one_connection)) as Hok.
  { split; apply (bool_decide_unpack _); vm_compute; exact I. }
  split; [exact Hok|].
  apply (disconnect_removes "c1" (Some "u1"%string) (mgr one_connection) Hok).
Defined.

(** C5 as stated fails: the role, the health record and the rate-limit
    state of a disconnected connection stay in the manager. *)
Lemma disconnect_leaves_role_health_rate :
  let m := disconnect "c1" (Some "u1"%string) (mgr one_connection) in
  PyDict.get "c1" (connection_roles m) = Some "recruiter"%string
  ∧ is_Some (connection_health m !! "c1"%string)
  ∧ is_Some (rate_limits m !! "c1"%string)
  ∧ ¬ forgotten "c1" m.
Proof.
  assert (PyDict.get "c1"
            (connection_roles (disconnect "c1" (Some "u1"%string) (mgr one_connection)))
          = Some "recruiter"%string) as Hrole by (vm_compute; reflexivity).
  cbv zeta. split; [exact Hrole|].
  split; [vm_compute; eauto|]. split; [vm_compute; eauto|].
  intros (_ & _ & Hnone & _). rewrite Hrole in Hnone. discriminate.
Qed.

(** ** Broadcast *)

(** While the writes succeed the loop of [broadcast] goes on, one frame per
    connection, the manager untouched. *)
Lemma broadcast_loop_writes size0 msg before : ∀ rest w,
  length (active_connections (mgr w)) = size0 →
  Forall (λ item, ws_on_send item.2 = WriteOk) before →
  ∃ w1, broadcast_loop size0 (before ++ rest) msg [] w
        = broadcast_loop size0 rest msg [] w1
      ∧ mgr w1 = mgr w
      ∧ wire w1 = wire w ++ frames_to msg before.
Proof.
  induction before as [|[cid ws] before IH]; intros rest w Hsize Hall.
  - exists w. simpl. by rewrite app_nil_r.
  - inversion_clear Hall as [|? ? Hws Hall']. simpl in Hws.
    set (w0 := (emit (ws_sock ws) msg w).2).
    destruct (IH rest w0) as (w1 & Hrun & Hmgr & Hwire); [done|done|].
    exists w1. split; [|split].
    + rewrite <- Hrun. simpl. unfold bind at 1, get_mgr.
      rewrite Hsize, Nat.eqb_refl. simpl.
      rewrite Hws. reflexivity.
    + by rewrite Hmgr.
    + rewrite Hwire. simpl. by rewrite <- app_assoc.
Qed.

(** The first failing write ends the broadcast: the failing connection is
    deleted from [active_connections], the dict iterator then refuses to go
    on, and the connections that come later in the dict get nothing. *)
Lemma broadcast_stops_at_first_failure msg before cid ws after w :
  active_connections (mgr w) = before ++ (cid, ws) :: after →
  NoDup (PyDict.keys (active_connections (mgr w))) →
  Forall (λ item, ws_on_send item.2 = WriteOk) before →
  ws_on_send ws ≠ WriteOk →
  let w' := (broadcast msg [] w).2 in
  wire w' = wire w ++ frames_to msg before
  ∧ active_connections (mgr w') = before ++ after.
Proof.
  intros Hact Hnd Hbefore Hws w'.
  destruct (broadcast_loop_writes (length (active_connections (mgr w))) msg
              before ((cid, ws) :: after) w eq_refl Hbefore)
    as (w1 & Hrun & Hmgr & Hwire).
  assert (PyDict.get cid (active_connections (mgr w1)) = Some ws
          ∧ PyDict.del cid (active_connections (mgr w1)) = before ++ after)
    as [Hget Hdel].
  { rewrite Hmgr, Hact. rewrite Hact in Hnd. clear -Hnd.
    unfold PyDict.keys in Hnd. rewrite fmap_app in Hnd. simpl in Hnd.
    apply NoDup_app in Hnd as (_ & Hdisj & _).
    induction before as [|[k v] before IH]; simpl.
    - by rewrite String.eqb_refl.
    - destruct (String.eqb cid k) eqn:E.
      + apply String.eqb_eq in E. subst k. exfalso.
        apply (Hdisj cid); set_solver.
      + destruct IH as [-> ->]; [|done]. intros x Hx. apply Hdisj. set_solver. }
  assert (active_connections (disconnect cid None (mgr w1)) = before ++ after) as Hafter.
  { rewrite disconnect_active. unfold PyDict.mem. by rewrite Hget. }
  assert (Nat.eqb (length (before ++ after)) (length (active_connections (mgr w)))
          = false) as Hsize.
  { apply Nat.eqb_neq. rewrite Hact, !length_app. simpl. lia. }
  assert (broadcast msg [] w = (tt, (modify_mgr (disconnect cid None) w1).2)) as Hall.
  { unfold broadcast, bind at 1, get_mgr. rewrite <- Hact in Hrun. rewrite Hrun.
    simpl. unfold bind at 1, get_mgr. rewrite Hmgr, Nat.eqb_refl. simpl.
    unfold bind at 1.
    replace (match ws_on_send ws with
             | WriteOk => emit (ws_sock ws) msg
             | _ => modify_mgr (disconnect cid None)
             end) with (modify_mgr (disconnect cid None))
      by (by destruct (ws_on_send ws)).
    unfold modify_mgr at 1.
    destruct after as [|[k v] after]; simpl; unfold bind at 1, get_mgr; simpl.
    all: rewrite Hmgr in Hafter |- *; rewrite Hafter, Hsize; simpl; done. }
  unfold w'. rewrite Hall. simpl. by rewrite Hafter.
Qed.

(** C1 on the code.  Of two live connections the older one fails on write:
    the broadcast writes nothing to the other one, which stays registered
    without having received the message; the failing connection leaves
    [active_connections] but stays in its user's connection set. *)
Theorem broadcast_failure_not_isolated :
  let w := first_socket_broken in
  let w' := (broadcast announcement [] w).2 in
  PyDict.keys (active_connections (mgr w)) = ["c1"; "c2"]%string
  ∧ wire w' = wire w
  ∧ PyDict.keys (active_connections (mgr w')) = ["c2"%string]
  ∧ PyDict.get "u1" (user_connections (mgr w')) = Some {["c1"%string]}.
Proof. vm_compute. repeat split; reflexivity. Qed.

(** ** Parts of the world an operation leaves alone *)

Lemma keeps_ret {B A} (f : World → B) (a : A) : keeps f (ret a).
Proof. by intros w. Qed.

Lemma keeps_bind {B A C} (f : World → B) (c : M A) (k : A → M C) :
  keeps f c → (∀ a, keeps f (k a)) → keeps f (bind c k).
Proof.
  intros Hc Hk w. unfold bind. specialize (Hc w).
  destruct (c w) as [a w1]. simpl in Hc. by rewrite Hk.
Qed.

Lemma keeps_get_mgr {B} (f : World → B) : keeps f get_mgr.
Proof. by intros w. Qed.

Lemma disconnect_queue cid u m :
  message_queue (disconnect cid u m) = message_queue m.
Proof. apply disconnect_frame. Qed.

Lemma disconnect_history cid u m :
  message_history (disconnect cid u m) = message_history m.
Proof. apply disconnect_frame. Qed.

Lemma disconnect_tokens cid u m :
  reconnect_tokens (disconnect cid u m) = reconnect_tokens m.
Proof. apply disconnect_frame. Qed.

Lemma check_rate_limit_frame now cid m :
  let m' := (_check_rate_limit now cid m).2 in
  message_queue m' = message_queue m
  ∧ message_history m' = message_history m
  ∧ reconnect_tokens m' = reconnect_tokens m
  ∧ user_connections m' = user_connections m
  ∧ connection_roles m' = connection_roles m
  ∧ session_state m' = session_state m.
Proof.
  unfold _check_rate_limit.
  destruct (rate_limits m !! cid) as [rate|]; simpl; [|done].
  destruct (0 <? _); simpl; [done|].
  destruct (3 <? _); simpl; [|done].
  rewrite disconnect_users_none.
  by destruct (disconnect_frame cid None
       (with_rates (insert cid
          {| tokens := Z.min max_messages_per_minute
                         (tokens rate + tokens_to_add now rate);
             last_update := now; warnings := warnings rate + 1 |}) m))
    as (-> & _ & -> & -> & -> & ->).
Qed.

(** Steps through a monadic term: splits binds, cases on the branch taken,
    and leaves the primitive steps to [tac]. *)
Ltac keeps_with tac :=
  repeat first
    [ progress tac
    | apply keeps_ret
    | apply keeps_get_mgr
    | match goal with
      | |- keeps _ (bind _ _) => apply keeps_bind; [|intros ?]
      | |- keeps _ (match ?x with _ => _ end) => destruct x
      | |- keeps _ (let (_, _) := ?x in _) => destruct x
      end ].

Ltac keeps_prim :=
  try (intros ?; unfold lift_mgr, modify_mgr, modify_polls, emit, now_wall,
         now_loop, fresh_uuid, fresh_token; simpl;
       rewrite ?disconnect_queue, ?disconnect_history, ?disconnect_tokens,
         ?disconnect_users_none;
       done).

Lemma start_polling_keeps_mgr E u pt : keeps mgr (start_polling E u pt).
Proof. unfold start_polling. keeps_with keeps_prim. Qed.

Lemma fallback_keeps_history E cid msg :
  keeps history_of (_handle_disconnect_with_fallback E cid msg).
Proof.
  unfold _handle_disconnect_with_fallback, start_polling, history_of.
  keeps_with keeps_prim.
Qed.

Lemma fallback_keeps_stable E cid msg :
  keeps stable_of (_handle_disconnect_with_fallback E cid msg).
Proof.
  unfold _handle_disconnect_with_fallback, start_polling, stable_of.
  keeps_with keeps_prim.
Qed.

Lemma stamp_message_keeps E msg : keeps (λ w, (mgr w, wire w, active_polls w))
                                     (stamp_message E msg).
Proof. unfold stamp_message. keeps_with keeps_prim. Qed.

Lemma check_keeps_stable now cid :
  keeps stable_of (lift_mgr (_check_rate_limit now cid)).
Proof.
  intros w. unfold lift_mgr, stable_of.
  pose proof (check_rate_limit_frame now cid (mgr w)) as (Hq & _ & Ht & Hu & _).
  destruct (_check_rate_limit now cid (mgr w)). simpl in *. by rewrite Hq, Ht, Hu.
Qed.

Lemma check_keeps_history now cid :
  keeps history_of (lift_mgr (_check_rate_limit now cid)).
Proof.
  intros w. unfold lift_mgr, history_of.
  pose proof (check_rate_limit_frame now cid (mgr w)) as (_ & H & _).
  destruct (_check_rate_limit now cid (mgr w)). simpl in *. by rewrite H.
Qed.

Lemma keeps_compose {A B C} (f : World → B) (g : B → C) (c : M A) :
  keeps f c → keeps (λ w, g (f w)) c.
Proof. intros H w. by rewrite H. Qed.

Lemma stamp_keeps_stable E msg : keeps stable_of (stamp_message E msg).
Proof. unfold stamp_message, stable_of. keeps_with keeps_prim. Qed.

Lemma stamp_keeps_history E msg : keeps history_of (stamp_message E msg).
Proof.
  apply (keeps_compose _ (λ x, (message_history x.1.1, x.1.2)) _
           (stamp_message_keeps E msg)).
Qed.

Ltac keeps_stable :=
  keeps_with ltac:(first
    [ apply check_keeps_stable | apply fallback_keeps_stable
    | apply stamp_keeps_stable
    | intros ?; unfold stable_of, lift_mgr, modify_mgr, modify_polls, emit,
        now_wall, now_loop, fresh_uuid, fresh_token; simpl;
      rewrite ?disconnect_queue, ?disconnect_tokens, ?disconnect_users_none;
      done ]).

Lemma send_keeps_stable E msg cid rf :
  keeps stable_of (send_personal_message E msg cid rf).
Proof. unfold send_personal_message. keeps_stable. Qed.

Lemma send_each_keeps_stable E cids : ∀ msg, keeps stable_of (send_each E msg cids).
Proof.
  induction cids as [|cid cids IH]; intros msg; simpl; [apply keeps_ret|].
  apply keeps_bind; [apply send_keeps_stable|done].
Qed.

Lemma send_to_user_keeps_stable E msg u : keeps stable_of (send_to_user E msg u).
Proof.
  unfold send_to_user. apply keeps_bind; [apply keeps_get_mgr|]. intros m.
  destruct (_ ≫= _); [apply send_each_keeps_stable|apply keeps_ret].
Qed.

Lemma role_loop_keeps_stable E role items : ∀ msg,
  keeps stable_of (role_loop E items msg role).
Proof.
  induction items as [|[cid r] items IH]; intros msg; simpl; [apply keeps_ret|].
  apply keeps_bind; [apply keeps_get_mgr|]. intros m.
  destruct (_ && _); [|done].
  apply keeps_bind; [apply send_keeps_stable|done].
Qed.

Lemma broadcast_to_role_keeps_stable E msg role :
  keeps stable_of (broadcast_to_role E msg role).
Proof.
  unfold broadcast_to_role. apply keeps_bind; [apply keeps_get_mgr|]. intros m.
  apply keeps_bind; [apply role_loop_keeps_stable|]. intros _. apply keeps_ret.
Qed.

Lemma broadcast_loop_keeps_stable size0 msg excl items :
  keeps stable_of (broadcast_loop size0 items msg excl).
Proof.
  induction items as [|[cid ws] items IH]; simpl.
  - apply keeps_bind; [apply keeps_get_mgr|]. intros m.
    destruct (negb _); apply keeps_ret.
  - apply keeps_bind; [apply keeps_get_mgr|]. intros m.
    destruct (negb _); [apply keeps_ret|].
    apply keeps_bind; [|done]. keeps_stable.
Qed.

Lemma broadcast_keeps_stable msg excl : keeps stable_of (broadcast msg excl).
Proof.
  unfold broadcast. apply keeps_bind; [apply keeps_get_mgr|]. intros m.
  apply broadcast_loop_keeps_stable.
Qed.

Lemma send_to_user_keeps_queue E msg u : keeps queue_of (send_to_user E msg u).
Proof. apply (keeps_compose _ (λ x, (x.1.1.1.1, x.1.1.1.2)) _ (send_to_user_keeps_stable E msg u)). Qed.

Lemma broadcast_to_role_keeps_queue E msg role :
  keeps queue_of (broadcast_to_role E msg role).
Proof.
  apply (keeps_compose _ (λ x, (x.1.1.1.1, x.1.1.1.2)) _
           (broadcast_to_role_keeps_stable E msg role)).
Qed.

Lemma broadcast_keeps_queue msg excl : keeps queue_of (broadcast msg excl).
Proof. apply (keeps_compose _ (λ x, (x.1.1.1.1, x.1.1.1.2)) _ (broadcast_keeps_stable msg excl)). Qed.

Lemma dispatch_keeps_queue E ev et payload :
  keeps queue_of (dispatch_event E ev et payload).
Proof.
  unfold dispatch_event, handle_interview_update, handle_application_update,
    handle_job_update.
  keeps_with ltac:(first
    [ apply send_to_user_keeps_queue | apply broadcast_to_role_keeps_queue
    | apply broadcast_keeps_queue
    | intros ?; unfold queue_of, now_loop; simpl; done ]).
Qed.

(** ** The per-connection history *)

Lemma trim_history_drop h :
  trim_history h = drop (length h - history_limit) h
  ∧ (length (trim_history h) ≤ history_limit)%nat.
Proof.
  unfold trim_history, history_limit. case_decide as Hlen.
  - split; [done|]. rewrite length_drop. lia.
  - replace (length h - 100)%nat with 0%nat by lia. split; [done|lia].
Qed.

(** C10.  A call of [send_personal_message] either writes nothing and
    leaves every history as it was, or writes one frame to the connection's
    socket and then the connection's history is the last 100
    ([history_limit]) entries of the old history followed by the message
    sent, the histories of the other connections unchanged. *)
Theorem history_within_limit (E : Env) (msg : message) (connection_id : string)
    (retry_fallback : bool) (w : World) :
  let r := send_personal_message E msg connection_id retry_fallback w in
  let old := default [] (message_history (mgr w) !! connection_id) in
  (wire r.2 = wire w ∧ message_history (mgr r.2) = message_history (mgr w))
  ∨ (∃ sock, wire r.2 = wire w ++ [(sock, r.1)]
       ∧ message_history (mgr r.2) !! connection_id
         = Some (drop (length (old ++ [r.1]) - history_limit) (old ++ [r.1]))
       ∧ (length (drop (length (old ++ [r.1]) - history_limit) (old ++ [r.1]))
          ≤ history_limit)%nat
       ∧ ∀ other, other ≠ connection_id →
           message_history (mgr r.2) !! other = message_history (mgr w) !! other).
Proof.
  cbv zeta.
  remember (send_personal_message E msg connection_id retry_fallback w) as r eqn:Hr.
  unfold send_personal_message in Hr.
  unfold bind at 1 in Hr. simpl in Hr.
  set (w0 := {| mgr := mgr w; active_polls := active_polls w; wire := wire w;
                wall_reads := S (wall_reads w); loop_reads := loop_reads w;
                uuid_reads := uuid_reads w; token_reads := token_reads w |}) in Hr.
  unfold bind at 1 in Hr.
  pose proof (check_keeps_history (wall_clock E (wall_reads w)) connection_id w0)
    as Hcheck.
  destruct (lift_mgr _ w0) as [ok w1]. simpl in Hcheck.
  assert (history_of w1 = history_of w) as Hw1 by done. clear Hcheck.
  injection Hw1 as Hh1 Hwire1.
  destruct ok; simpl in Hr; [|subst r; by left].
  unfold bind at 1, get_mgr in Hr.
  assert (∀ m' w2, history_of
            ((if retry_fallback
              then _handle_disconnect_with_fallback E connection_id m'
              else ret ()) w2).2 = history_of w2) as Hfb.
  { intros m' w2. destruct retry_fallback; [apply fallback_keeps_history|done]. }
  destruct (PyDict.get connection_id (active_connections (mgr w1))) as [ws|].
  - unfold bind at 1 in Hr.
    pose proof (stamp_message_keeps E msg w1) as Hst.
    destruct (stamp_message E msg w1) as [msg' w2]. simpl in Hst.
    injection Hst as Hmgr Hwire Hpolls.
    destruct (ws_on_send ws).
    + right. exists (ws_sock ws). subst r. simpl.
      rewrite Hwire, Hmgr, Hwire1, Hh1.
      split; [done|]. rewrite lookup_insert_eq.
      destruct (trim_history_drop
                  (default [] (message_history (mgr w) !! connection_id) ++ [msg']))
        as [Heq Hlen].
      rewrite <- Heq. split; [done|]. split; [done|].
      intros other Hne. by rewrite lookup_insert_ne.
    + left. unfold bind in Hr. specialize (Hfb msg' w2).
      match type of Hr with
      | context [let (_, _) := ?x in _] => destruct x as [[] w3]
      end.
      subst r. simpl in *. injection Hfb as -> ->. by rewrite Hmgr, Hwire.
    + left. unfold bind in Hr. specialize (Hfb msg' w2).
      match type of Hr with
      | context [let (_, _) := ?x in _] => destruct x as [[] w3]
      end.
      subst r. simpl in *. injection Hfb as -> ->. by rewrite Hmgr, Hwire.
  - left. unfold bind in Hr. specialize (Hfb msg w1).
    match type of Hr with
    | context [let (_, _) := ?x in _] => destruct x as [[] w3]
    end.
    subst r. simpl in *. by injection Hfb as -> ->.
Qed.

(** ** Pre- and postconditions of monadic steps *)

Lemma hoare_bind {A B} (P : World → Prop) (Q : A → World → Prop)
    (R : B → World → Prop) (c : M A) (k : A → M B) :
  hoare P c Q → (∀ a, hoare (Q a) (k a) R) → hoare P (bind c k) R.
Proof.
  intros Hc Hk w HP. unfold bind. specialize (Hc w HP).
  destruct (c w) as [a w1]. by apply Hk.
Qed.

Lemma hoare_keeps {A B} (f : World → B) (x : B) (c : M A) :
  keeps f c → hoare (λ w, f w = x) c (λ _ w, f w = x).
Proof. intros Hk w Hw. by rewrite Hk. Qed.

Lemma hoare_weaken {A} (P P' : World → Prop) (Q Q' : A → World → Prop) (c : M A) :
  hoare P' c Q' → (∀ w, P w → P' w) → (∀ a w, Q' a w → Q a w) → hoare P c Q.
Proof. intros Hc HP HQ w Hw. apply HQ, Hc, HP, Hw. Qed.

Lemma replay_keeps_stable E cid queued : keeps stable_of (replay E queued cid).
Proof.
  induction queued as [|msg rest IH]; simpl; [apply keeps_ret|].
  apply keeps_bind; [apply send_keeps_stable|done].
Qed.

Lemma send_keeps_tokens E msg cid rf :
  keeps tokens_of (send_personal_message E msg cid rf).
Proof.
  apply (keeps_compose _ (λ x, (x.1.1.2, x.1.2)) _ (send_keeps_stable E msg cid rf)).
Qed.

Lemma replay_keeps_tokens E cid queued : keeps tokens_of (replay E queued cid).
Proof.
  apply (keeps_compose _ (λ x, (x.1.1.2, x.1.2)) _ (replay_keeps_stable E cid queued)).
Qed.

Ltac keeps_tokens :=
  keeps_with ltac:(first
    [ apply send_keeps_tokens | apply replay_keeps_tokens
    | intros ?; unfold tokens_of, lift_mgr, modify_mgr, modify_polls, emit,
        now_wall, now_loop, fresh_uuid; simpl; done ]).

Lemma connect_token_hoare E ws cid user_id role toks n :
  hoare (λ w, tokens_of w = (toks, n))
    (connect E ws cid user_id role)
    (λ _ w', reconnect_tokens (mgr w')
             = if ws_accepts ws && truthy user_id
               then <[default ""%string user_id := token_urlsafe E n]> toks
               else toks).
Proof.
  unfold connect. destruct (ws_accepts ws); simpl.
  2:{ intros w Hw. unfold tokens_of in Hw. injection Hw as Ht Hn. exact Ht. }
  destruct (truthy user_id) eqn:Htr.
  - do 5 (eapply hoare_bind; [apply hoare_keeps; keeps_tokens|intros ?]).
    eapply hoare_bind.
    { instantiate (1 := λ _ w', reconnect_tokens (mgr w')
                         = <[default ""%string user_id := token_urlsafe E n]> toks).
      intros w Hw. injection Hw as Htoks Hn.
      unfold bind, fresh_token, modify_mgr. simpl. by rewrite Hn, Htoks. }
    intros ?.
    eapply hoare_weaken;
      [apply (hoare_keeps (λ w, reconnect_tokens (mgr w))
                (<[default ""%string user_id := token_urlsafe E n]> toks))| |];
      [|done|done].
    apply (keeps_compose tokens_of (λ x, x.1)). keeps_tokens.
  - eapply hoare_weaken;
      [apply (hoare_keeps (λ w, reconnect_tokens (mgr w)) toks)| |];
      [|intros w Hw; unfold tokens_of in Hw; by injection Hw|done].
    apply (keeps_compose tokens_of (λ x, x.1)). keeps_tokens.
Qed.

(** [connect] with a user id stores a new token for the user, the next one
    that [secrets.token_urlsafe] yields; it replaces the one stored before
    and no other token changes. *)
Lemma connect_stores_token E ws cid user_id role w :
  reconnect_tokens (mgr (connect E ws cid user_id role w).2)
  = if ws_accepts ws && truthy user_id
    then <[default ""%string user_id := token_urlsafe E (token_reads w)]>
           (reconnect_tokens (mgr w))
    else reconnect_tokens (mgr w).
Proof.
  by apply (connect_token_hoare E ws cid user_id role (reconnect_tokens (mgr w))
              (token_reads w) w).
Qed.

(** ** The reconnect route *)

Lemma connect_tokens_ok E ws cid user_id role w :
  (∀ n, token_urlsafe E n ≠ ""%string) →
  tokens_ok (mgr w) → tokens_ok (mgr (connect E ws cid user_id role w).2).
Proof.
  intros HE Hok u t. rewrite connect_stores_token.
  destruct (_ && _); [|apply Hok].
  destruct (decide (default ""%string user_id = u)) as [->|Hne].
  - rewrite lookup_insert_eq. intros [= <-]. apply HE.
  - rewrite lookup_insert_ne by done. apply Hok.
Qed.

Lemma find_session_spec user_id m :
  match find_session user_id (session_state m) with
  | Some st => st ∈ PyDict.values (session_state m) ∧ ss_user_id st = user_id
  | None => ¬ has_session user_id m
  end.
Proof.
  unfold find_session, has_session.
  destruct (List.find _ _) as [st|] eqn:Hfind.
  - apply List.find_some in Hfind as [Hin Heq].
    split; [by apply list_elem_of_In|by apply String.eqb_eq].
  - intros (st & Hin & Heq). apply list_elem_of_In in Hin.
    pose proof (List.find_none _ _ Hfind st Hin) as Hno. simpl in Hno.
    apply String.eqb_neq in Hno. done.
Qed.

(** C3.  The reconnect route answers with the session snapshot exactly when
    the token presented is the token stored for the user and a session
    state of the user exists; it answers 401 exactly when the token is not
    the stored one (or none is stored), 404 exactly when the token is the
    stored one and the user has no session state, and never anything else. *)
Theorem reconnect_session_outcomes (m : Manager) (user_id reconnect_token : string)
    (role : option string) :
  tokens_ok m →
  let r := reconnect_session m user_id reconnect_token role in
  ((∃ reply, r = inr reply)
     ↔ reconnect_tokens m !! user_id = Some reconnect_token ∧ has_session user_id m)
  ∧ (r = inl Unauthorized ↔ reconnect_tokens m !! user_id ≠ Some reconnect_token)
  ∧ (r = inl NotFound
     ↔ reconnect_tokens m !! user_id = Some reconnect_token
       ∧ ¬ has_session user_id m)
  ∧ r ≠ inl ServerError.
Proof.
  intros Hok. cbv zeta. unfold reconnect_session.
  pose proof (find_session_spec user_id m) as Hfind.
  destruct (reconnect_tokens m !! user_id) as [stored|] eqn:Hstored; simpl.
  - assert (String.eqb stored "" = false) as ->
      by (apply String.eqb_neq; by eapply Hok).
    simpl. destruct (String.eqb stored reconnect_token) eqn:Heq; simpl.
    + apply String.eqb_eq in Heq. subst stored.
      destruct (find_session user_id (session_state m)) as [st|].
      * assert (has_session user_id m) by (by exists st).
        repeat split; try done; try (intros; eauto); naive_solver.
      * repeat split; try done; naive_solver.
    + apply String.eqb_neq in Heq.
      repeat split; try done; try naive_solver.
  - repeat split; try done; naive_solver.
Qed.

Lemma reconnect_session_outcomes_witness :
  tokens_ok (mgr one_connection)
  ∧ reconnect_session (mgr one_connection) "u1" "wrong" None = inl Unauthorized.
Proof.
  assert (tokens_ok (mgr one_connection)) as Hok.
  { apply connect_tokens_ok; [|done].
    intros n. simpl. unfold String.app. discriminate. }
  split; [exact Hok|].
  apply (reconnect_session_outcomes (mgr one_connection) "u1" "wrong" None Hok).
  vm_compute. discriminate.
Defined.

(** ** The fallback poller *)

(** Every call of [_get_updates] raises at [settings] and returns the empty
    list, without a query and without a reading of the clock. *)
Lemma get_updates_raises E db user_id pt mark w :
  _get_updates E db user_id pt mark w = ([], w).
Proof. unfold _get_updates, settings. by destruct db. Qed.

Lemma set_keys_present {V} k (v v0 : V) d :
  PyDict.get k d = Some v0 → PyDict.keys (PyDict.set k v d) = PyDict.keys d.
Proof.
  unfold PyDict.keys. induction d as [|[k' v'] d IH]; simpl; [done|].
  destruct (String.eqb k k') eqn:E; simpl.
  - apply String.eqb_eq in E. by subst.
  - intros H. f_equal. by apply IH.
Qed.

(** One tick of a registered session: it has no update to hand to the
    callback and none to take a watermark from; it stamps the session and,
    unless the clock jumps, goes on. *)
Lemma poll_tick_spec E db callback_ok poll_id w p r :
  PyDict.get poll_id (active_polls w) = Some p →
  NoDup (PyDict.keys (active_polls w)) →
  poll_tick E db callback_ok poll_id w = r →
  r.1.1 = []
  ∧ mgr r.2 = mgr w ∧ wire r.2 = wire w
  ∧ NoDup (PyDict.keys (active_polls r.2))
  ∧ (∀ p', PyDict.get poll_id (active_polls r.2) = Some p' →
       p' = set_last_poll (wall_clock E (wall_reads w)) p)
  ∧ ((∀ i, wall_clock E (S i) - wall_clock E i ≤ max_poll_age) →
       r.1.2 = true ∧ is_Some (PyDict.get poll_id (active_polls r.2))).
Proof.
  intros Hget Hnd Hr. unfold poll_tick in Hr. rewrite Hget in Hr.
  unfold bind at 1 in Hr. rewrite get_updates_raises in Hr. simpl in Hr.
  unfold bind at 1, ret in Hr.
  unfold bind at 1, now_wall in Hr. simpl in Hr.
  unfold bind at 1, update_poll, modify_polls in Hr. simpl in Hr.
  rewrite Hget in Hr.
  unfold bind at 1, now_wall in Hr. simpl in Hr.
  set (p2 := set_last_poll (wall_clock E (wall_reads w)) p) in *.
  assert (PyDict.get poll_id (PyDict.set poll_id p2 (active_polls w)) = Some p2)
    as Hget3 by apply dict_get_set_eq.
  assert (NoDup (PyDict.keys (PyDict.set poll_id p2 (active_polls w)))) as Hnd3
    by by erewrite set_keys_present.
  destruct (max_poll_age <? _) eqn:Hage; subst r; simpl.
  - split; [done|]. split; [done|]. split; [done|].
    unfold stop_polling, PyDict.mem. rewrite Hget3. split.
    { clear -Hnd3. unfold PyDict.keys in *.
      induction (PyDict.set poll_id p2 (active_polls w)) as [|[k v] d IH];
        simpl; [done|]. apply NoDup_cons in Hnd3 as [Hk Hnd3].
      destruct (String.eqb poll_id k); [done|]. simpl. apply NoDup_cons.
      split; [|by apply IH]. intros Hin. apply Hk.
      clear -Hin. induction d as [|[k' v'] d IH]; simpl in *; [done|].
      destruct (String.eqb poll_id k'); [set_solver|].
      simpl in Hin. set_solver. }
    split.
    + intros p'. by rewrite dict_get_del_eq.
    + intros Hclock. apply Z.ltb_lt in Hage. specialize (Hclock (wall_reads w)). lia.
  - split; [done|]. split; [done|]. split; [done|]. split; [done|]. split.
    + intros p'. rewrite Hget3. by intros [= <-].
    + intros _. split; [done|]. by eauto.
Qed.

(** No tick of any session, over any database, returns an update or moves
    the session's watermark. *)
Lemma poll_tick_no_update E db callback_ok poll_id w :
  NoDup (PyDict.keys (active_polls w)) →
  let r := poll_tick E db callback_ok poll_id w in
  r.1.1 = []
  ∧ (is_Some (PyDict.get poll_id (active_polls r.2)) →
     watermark poll_id r.2 = watermark poll_id w).
Proof.
  intros Hnd r. destruct (PyDict.get poll_id (active_polls w)) as [p|] eqn:Hget.
  - destruct (poll_tick_spec E db callback_ok poll_id w p r Hget Hnd eq_refl)
      as (Hnil & _ & _ & _ & Hp & _).
    split; [done|]. intros [p' Hp']. unfold watermark.
    rewrite Hp', Hget. by rewrite (Hp p' Hp').
  - assert (r = (([], false), w)) as ->
        by (unfold r, poll_tick; by rewrite Hget).
    done.
Qed.

(** C7 on the code.  The session of user u1 for application updates has no
    watermark, and the database holds two applications of u1, a1 and a2:
    the query [_get_updates] was written to run selects both.  Yet the tick
    returns no update and leaves the session without a watermark, and so
    does the next tick, over a database that holds a3 as well: reading the
    unbound name [settings] raises in [_get_updates], which logs and returns
    the empty list.  New records exist, none is delivered and the watermark
    does not advance. *)
Theorem poll_tick_delivers_nothing :
  let poll_id := "poll_u1_application_0"%string in
  let q := {| q_user_id := "u1"; q_id_gt := None; q_status_in := None |} in
  let r1 := poll_tick demo_env (Some store_monday) true poll_id polling_world in
  let r2 := poll_tick demo_env (Some store_tuesday) true poll_id r1.2 in
  PyDict.mem poll_id (active_polls polling_world) = true
  ∧ watermark poll_id polling_world = None
  ∧ d_id <$> find q (applications store_monday) = ["a1"; "a2"]%string
  ∧ r1.1 = ([], true)
  ∧ PyDict.mem poll_id (active_polls r1.2) = true
  ∧ watermark poll_id r1.2 = None
  ∧ d_id <$> find q (applications store_tuesday) = ["a1"; "a2"; "a3"]%string
  ∧ r2.1 = ([], true)
  ∧ PyDict.mem poll_id (active_polls r2.2) = true
  ∧ watermark poll_id r2.2 = None.
Proof. vm_compute. repeat split; reflexivity. Qed.

(** No tick ends a session on account of its age, however old the session,
    unless the clock jumps by more than 24 hours between two consecutive
    readings: the age is measured from a timestamp taken just before. *)
Lemma poll_tick_never_expires E db callback_ok poll_id w p :
  PyDict.get poll_id (active_polls w) = Some p →
  NoDup (PyDict.keys (active_polls w)) →
  (∀ i, wall_clock E (S i) - wall_clock E i ≤ max_poll_age) →
  let r := poll_tick E db callback_ok poll_id w in
  r.1.2 = true ∧ is_Some (PyDict.get poll_id (active_polls r.2)).
Proof.
  intros Hget Hnd Hclock r.
  by apply (poll_tick_spec E db callback_ok poll_id w p r Hget Hnd eq_refl).
Qed.

(** C8 on the code.  A session started at time 0 is ticked 25 hours later:
    the tick does not deregister it and the loop goes on, tick after tick. *)
Theorem old_session_keeps_polling :
  let poll_id := "poll_u1_application_0"%string in
  let r1 := poll_tick day_after (Some store_monday) true poll_id polling_world in
  let r2 := poll_tick day_after (Some store_tuesday) true poll_id r1.2 in
  (p_last_poll <$> PyDict.get poll_id (active_polls polling_world)) = Some 1
  ∧ r1.1.2 = true ∧ PyDict.mem poll_id (active_polls r1.2) = true
  ∧ r2.1.2 = true ∧ PyDict.mem poll_id (active_polls r2.2) = true.
Proof. vm_compute. repeat split; reflexivity. Qed.

(** ** The receive loop *)

(** A text frame that is not JSON is dropped and the loop goes on. *)
Lemma undecodable_frame_skipped E cid u rest w :
  receive_loop E cid u (Text None :: rest) w = receive_loop E cid u rest w.
Proof. done. Qed.

(** So is a JSON object whose type is neither pong nor user_message. *)
Lemma unknown_type_skipped E cid u fields rest w :
  is_str "pong" (PyDict.get "type" fields) = false →
  is_str "user_message" (PyDict.get "type" fields) = false →
  receive_loop E cid u (Text (Some (JObj fields)) :: rest) w
  = receive_loop E cid u rest w.
Proof. intros H1 H2. simpl. by rewrite H1, H2. Qed.

(** A frame that decodes to anything but an object ends the loop with the
    websocket closed, whatever follows. *)
Lemma non_object_frame_closes E cid u v rest w :
  (∀ fields, v ≠ JObj fields) →
  receive_loop E cid u (Text (Some v) :: rest) w = (Closed, w).
Proof. intros Hv. destruct v; try done. by destruct (Hv l). Qed.

(** C9 on the code.  The client of connection c1 sends the text [[]], then
    a well-formed frame: the loop ends at the first one with the websocket
    closed, and the manager still lists the connection. *)
Theorem malformed_frame_closes_connection :
  let frames := [Text (Some (JArr []));
                 Text (Some (JObj [("type"%string, JStr "pong");
                                   ("ping_timestamp"%string, JNum 5)]))] in
  let r := receive_loop demo_env "c1" "u1" frames one_connection in
  r.1 = Closed
  ∧ r.2 = one_connection
  ∧ PyDict.mem "c1" (active_connections (mgr r.2)) = true.
Proof. vm_compute. repeat split; reflexivity. Qed.

(** ** The queue of an offline user *)

Lemma del_keys_NoDup {V} k (d : list (string * V)) :
  NoDup (PyDict.keys d) → NoDup (PyDict.keys (PyDict.del k d)).
Proof.
  unfold PyDict.keys. induction d as [|[k' v'] d IH]; simpl; [done|].
  intros Hnd. apply NoDup_cons in Hnd as [Hk Hnd].
  destruct (String.eqb k k'); [done|]. simpl. apply NoDup_cons.
  split; [|by apply IH]. intros Hin. apply Hk. clear -Hin.
  induction d as [|[k0 v0] d IH]; simpl in *; [done|].
  destruct (String.eqb k k0); [set_solver|]. simpl in Hin. set_solver.
Qed.

Lemma set_keys_NoDup {V} k (v : V) (d : list (string * V)) :
  NoDup (PyDict.keys d) → NoDup (PyDict.keys (PyDict.set k v d)).
Proof.
  intros Hnd. destruct (PyDict.get k d) as [v0|] eqn:Hget.
  - by erewrite set_keys_present.
  - apply dict_get_None_notin in Hget. revert Hnd Hget. unfold PyDict.keys.
    induction d as [|[k' v'] d IH]; simpl; intros Hnd Hk.
    + apply NoDup_singleton.
    + apply NoDup_cons in Hnd as [Hk' Hnd]. apply not_elem_of_cons in Hk as [Hne Hk].
      assert (String.eqb k k' = false) as -> by by apply String.eqb_neq.
      simpl. apply NoDup_cons. split; [|by apply IH].
      clear -Hk' Hne. induction d as [|[k0 v0] d IH]; simpl in *.
      * set_solver.
      * destruct (String.eqb k k0); simpl in *; set_solver.
Qed.

Lemma keep_recent_filter current_time expiry_time msgs :
  Forall loop_stamped msgs →
  keep_recent current_time expiry_time msgs
  = Some (List.filter (recent expiry_time) msgs).
Proof.
  induction 1 as [|msg msgs [t Ht] _ IH]; simpl; [done|].
  unfold not_expired, recent. rewrite Ht, IH. by destruct (expiry_time <? t).
Qed.

Lemma filter_loop_stamped (f : message → bool) msgs :
  Forall loop_stamped msgs → Forall loop_stamped (List.filter f msgs).
Proof.
  rewrite !Forall_forall. intros H msg Hin.
  apply list_elem_of_In, List.filter_In in Hin as [Hin _].
  by apply H, list_elem_of_In.
Qed.

(** The sweep visits every user of [user_ids] once: the user's list keeps
    its recent entries, in order, and goes away when none is left. *)
Lemma sweep_get current_time expiry_time user_ids : ∀ queue,
  NoDup user_ids →
  (∀ u, u ∈ user_ids → is_Some (PyDict.get u queue)) →
  NoDup (PyDict.keys queue) →
  (∀ u msgs, PyDict.get u queue = Some msgs → Forall loop_stamped msgs) →
  let queue' := sweep current_time expiry_time user_ids queue in
  NoDup (PyDict.keys queue')
  ∧ ∀ u, PyDict.get u queue'
         = if bool_decide (u ∈ user_ids)
           then PyDict.get u queue
                  ≫= λ msgs, nonempty (List.filter (recent expiry_time) msgs)
           else PyDict.get u queue.
Proof.
  induction user_ids as [|u0 rest IH]; intros queue Hnd Hkeys Hq Hst; cbv zeta.
  { split; [done|]. intros u.
    rewrite bool_decide_eq_false_2 by apply not_elem_of_nil. done. }
  apply NoDup_cons in Hnd as [Hu0 Hnd].
  destruct (Hkeys u0) as [msgs Hget]; [set_solver|].
  simpl. rewrite Hget, (keep_recent_filter _ _ _ (Hst _ _ Hget)).
  set (kept := List.filter (recent expiry_time) msgs).
  set (queue1 := match kept with
                 | [] => PyDict.del u0 queue
                 | _ => PyDict.set u0 kept queue
                 end).
  assert (sweep current_time expiry_time rest queue1
          = match kept with
            | [] => sweep current_time expiry_time rest (PyDict.del u0 queue)
            | _ :: _ => sweep current_time expiry_time rest (PyDict.set u0 kept queue)
            end) as <- by (unfold queue1; by destruct kept).
  assert (PyDict.get u0 queue1 = nonempty kept) as Hget0.
  { unfold queue1. destruct kept; simpl.
    - by apply dict_get_del_eq.
    - apply dict_get_set_eq. }
  assert (∀ u, u ≠ u0 → PyDict.get u queue1 = PyDict.get u queue) as Hother.
  { intros u Hne. unfold queue1. destruct kept.
    - by apply dict_get_del_ne.
    - by apply dict_get_set_ne. }
  assert (NoDup (PyDict.keys queue1)) as Hq1.
  { unfold queue1. destruct kept; [by apply del_keys_NoDup|by apply set_keys_NoDup]. }
  destruct (IH queue1) as [Hnd' Hget']; [done| | done | |].
  { intros u Hu. rewrite Hother; [apply Hkeys; set_solver|].
    intros ->. done. }
  { intros u ms. destruct (decide (u = u0)) as [->|Hne].
    - rewrite Hget0. unfold nonempty. destruct kept eqn:Hk; [done|].
      intros [= <-]. rewrite <- Hk. by apply filter_loop_stamped, (Hst u0).
    - rewrite Hother by done. apply Hst. }
  split; [done|]. intros u. rewrite Hget'.
  destruct (decide (u = u0)) as [->|Hne].
  - rewrite bool_decide_eq_false_2 by done.
    rewrite bool_decide_eq_true_2 by set_solver.
    by rewrite Hget0, Hget.
  - rewrite Hother by done.
    destruct (decide (u ∈ rest)).
    + by rewrite !bool_decide_eq_true_2 by set_solver.
    + by rewrite !bool_decide_eq_false_2 by set_solver.
Qed.

(** What [_cleanup_message_queue] leaves of each user's queue. *)
Lemma cleanup_spec E w :
  queue_ok (mgr w) →
  let w' := (_cleanup_message_queue E w).2 in
  let expiry_time := loop_clock E (loop_reads w) - retention in
  loop_reads w' = S (loop_reads w)
  ∧ queue_ok (mgr w')
  ∧ ∀ u, PyDict.get u (message_queue (mgr w'))
         = PyDict.get u (message_queue (mgr w))
             ≫= λ msgs, nonempty (List.filter (recent expiry_time) msgs).
Proof.
  intros [Hnd Hst]. cbv zeta.
  unfold _cleanup_message_queue, bind, now_loop, modify_mgr. simpl.
  destruct (sweep_get (loop_clock E (loop_reads w))
              (loop_clock E (loop_reads w) - retention)
              (PyDict.keys (message_queue (mgr w))) (message_queue (mgr w)))
    as [Hnd' Hget]; [done| |done|done|].
  { intros u Hu. destruct (PyDict.get u (message_queue (mgr w))) eqn:E0; [by eauto|].
    by apply dict_get_None_notin in E0. }
  split; [done|]. split; [split; [done|]|].
  - intros u msgs. rewrite Hget.
    destruct (PyDict.get u (message_queue (mgr w))) as [ms|] eqn:E0;
      [|by case_bool_decide].
    assert (Forall loop_stamped (List.filter
              (recent (loop_clock E (loop_reads w) - retention)) ms)) as Hf
      by by apply filter_loop_stamped, (Hst u).
    case_bool_decide; simpl; [|intros [= <-]; by apply (Hst u)].
    unfold nonempty. destruct (List.filter _ ms); [done|]. by intros [= <-].
  - intros u. rewrite Hget. case_bool_decide as Hu; [done|].
    destruct (PyDict.get u (message_queue (mgr w))) eqn:E0; [|done].
    exfalso. apply Hu. unfold PyDict.keys.
    clear -E0. induction (message_queue (mgr w)) as [|[k v] d IH]; simpl in *; [done|].
    destruct (String.eqb u k) eqn:E; [|set_solver].
    apply String.eqb_eq in E. set_solver.
Qed.

Lemma bind_ret_true {A} (c : M A) w : (c ;; ret true) w = (true, (c w).2).
Proof. unfold bind, ret. by destruct (c w). Qed.

Lemma dispatch_returns E ev event_type w :
  ev_event_type ev = Some event_type → handled ev →
  (dispatch_event E ev event_type (default (JObj []) (ev_payload ev)) w).1 = true.
Proof.
  intros Het (et & Het' & Hpay). rewrite Het in Het'. injection Het' as <-.
  unfold dispatch_event.
  repeat (case_match; rewrite ?bind_ret_true; try done).
  all: match goal with
       | H : String.eqb _ "application_status_changed" = true |- _ =>
           apply String.eqb_eq in H; destruct (Hpay H) as [fields Hf]; congruence
       end.
Qed.

Lemma route_spec E ev msg w :
  let w' := (route_event E ev msg w).2 in
  loop_reads w' = loop_reads w
  ∧ message_queue (mgr w')
    = match offline_target ev (mgr w) with
      | Some u => enqueue u msg (message_queue (mgr w))
      | None => message_queue (mgr w)
      end.
Proof.
  cbv zeta. remember (route_event E ev msg w) as r eqn:Hr.
  unfold route_event in Hr. unfold offline_target.
  destruct (truthy (ev_target_role ev)).
  { pose proof (broadcast_to_role_keeps_stable E msg
                  (default ""%string (ev_target_role ev)) w) as H.
    rewrite <- Hr in H. by injection H as -> _ _ _ ->. }
  destruct (truthy (ev_user_id ev)).
  2:{ pose proof (broadcast_keeps_stable msg [] w) as H.
      rewrite <- Hr in H. by injection H as -> _ _ _ ->. }
  unfold bind at 1, get_mgr in Hr.
  destruct (PyDict.mem _ _); [|by subst r].
  pose proof (send_to_user_keeps_stable E msg
                (Some (default ""%string (ev_user_id ev))) w) as H.
  unfold bind in Hr. destruct (send_to_user _ _ _ w) as [m' w1].
  subst r. simpl in *. by injection H as -> _ _ _ ->.
Qed.

Lemma enqueue_get u u' msg queue :
  PyDict.get u (enqueue u' msg queue)
  = if decide (u = u')
    then Some (default [] (PyDict.get u queue) ++ [msg])
    else PyDict.get u queue.
Proof.
  unfold enqueue. case_decide as Hu.
  - subst. apply dict_get_set_eq.
  - apply dict_get_set_ne. congruence.
Qed.

(** The queue after an event handled to its end. *)
Lemma event_queue_get (E : Env) (ev : event) (w : World) :
  queue_ok (mgr w) → handled ev →
  let w' := (_handle_redis_event E ev w).2 in
  let swept_at := loop_clock E (pred (loop_reads w')) in
  queue_ok (mgr w')
  ∧ ∀ u, PyDict.get u (message_queue (mgr w'))
         = nonempty (List.filter (recent (swept_at - retention))
             (default [] (PyDict.get u (message_queue (mgr w)))
              ++ (if decide (offline_target ev (mgr w) = Some u)
                  then [event_message E ev w] else []))).
Proof.
  intros Hok Hhandled.
  assert (∃ w3, _handle_redis_event E ev w = (_cleanup_message_queue E w3)
            ∧ message_queue (mgr w3)
              = match offline_target ev (mgr w) with
                | Some u => enqueue u (event_message E ev w) (message_queue (mgr w))
                | None => message_queue (mgr w)
                end) as (w3 & Hrun & Hq3).
  { destruct Hhandled as (et & Het & Hpay) eqn:Hh. clear Hh.
    unfold _handle_redis_event. unfold bind at 1, now_loop. simpl.
    fold (event_message E ev w). rewrite Het.
    set (w1 := {| mgr := mgr w; active_polls := active_polls w; wire := wire w;
                  wall_reads := wall_reads w; loop_reads := S (loop_reads w);
                  uuid_reads := uuid_reads w; token_reads := token_reads w |}).
    unfold bind at 1.
    pose proof (dispatch_returns E ev et w1 Het (ex_intro _ et (conj Het Hpay))) as Hd.
    pose proof (dispatch_keeps_queue E ev et (default (JObj []) (ev_payload ev)) w1)
      as Hkeep.
    destruct (dispatch_event E ev et _ w1) as [ok w2]. simpl in Hd, Hkeep. subst ok.
    cbn [negb]. unfold bind at 1.
    pose proof (route_spec E ev (event_message E ev w) w2) as [_ Hroute].
    destruct (route_event E ev (event_message E ev w) w2) as [[] w3].
    simpl in Hroute. exists w3. split; [done|].
    rewrite Hroute. unfold queue_of in Hkeep. simpl in Hkeep.
    injection Hkeep as Hq Hu. unfold offline_target. by rewrite Hq, Hu. }
  assert (queue_ok (mgr w3)) as Hok3.
  { destruct Hok as [Hnd Hst]. unfold queue_ok. rewrite Hq3.
    destruct (offline_target ev (mgr w)) as [u0|]; [|done]. split.
    - by apply set_keys_NoDup.
    - intros u msgs. rewrite enqueue_get. case_decide as Hu; [|apply Hst].
      intros [= <-]. apply Forall_app. split.
      + destruct (PyDict.get u (message_queue (mgr w))) eqn:E0; [|constructor].
        by apply (Hst u).
      + repeat constructor. by eexists. }
  cbv zeta. rewrite Hrun.
  destruct (cleanup_spec E w3 Hok3) as (Hreads & Hok' & Hget).
  rewrite Hreads. simpl pred. split; [done|].
  intros u. rewrite Hget, Hq3.
  destruct (offline_target ev (mgr w)) as [u0|].
  - rewrite enqueue_get.
    destruct (decide (u = u0)) as [->|Hne].
    + by rewrite decide_True by done.
    + rewrite decide_False by congruence. rewrite app_nil_r.
      by destruct (PyDict.get u (message_queue (mgr w))).
  - rewrite decide_False by done. rewrite app_nil_r.
    by destruct (PyDict.get u (message_queue (mgr w))).
Qed.

(** C4, as the code has it.  An event handled to its end ends with the
    sweep.  After it each user's queue is what the user had queued, followed
    by the event's message when the event is queued for that user, less the
    entries stamped 24 hours or more before the sweep's reading of the loop
    clock; the entries kept stay in their order, and a queue left empty is
    removed.  (Nothing bounds the number of entries.) *)
Theorem queue_after_event (E : Env) (ev : event) (w : World) :
  queue_ok (mgr w) → handled ev →
  let w' := (_handle_redis_event E ev w).2 in
  let swept_at := loop_clock E (pred (loop_reads w')) in
  let arrived u :=
    if decide (offline_target ev (mgr w) = Some u)
    then [event_message E ev w] else [] in
  queue_ok (mgr w')
  ∧ (∀ u, PyDict.get u (message_queue (mgr w'))
          = nonempty (List.filter (recent (swept_at - retention))
                        (default [] (PyDict.get u (message_queue (mgr w)))
                         ++ arrived u)))
  ∧ (∀ u msgs, PyDict.get u (message_queue (mgr w')) = Some msgs →
       msgs ≠ []
       ∧ Forall (λ msg, ∃ t, m_timestamp msg = Some (LoopTime t)
                          ∧ swept_at - t < retention) msgs).
Proof.
  intros Hok Hhandled. cbv zeta.
  destruct (event_queue_get E ev w Hok Hhandled) as [Hok' Hget].
  cbv zeta in Hget.
  split; [done|]. split; [done|].
  intros u msgs Hmsgs. rewrite Hget in Hmsgs. unfold nonempty in Hmsgs.
  destruct (List.filter _ _) as [|x l] eqn:Hf; [done|]. injection Hmsgs as <-.
  split; [done|]. rewrite <- Hf. apply Forall_forall. intros msg Hin.
  apply list_elem_of_In, List.filter_In in Hin as [_ Hrec].
  unfold recent in Hrec. destruct (m_timestamp msg) as [[t|t]|]; try done.
  exists t. split; [done|]. apply Z.ltb_lt in Hrec. lia.
Qed.

Lemma notice_handled : handled notice.
Proof. exists "notice"%string. split; [done|]. discriminate. Qed.

Lemma queue_after_event_witness :
  queue_ok (mgr init_world) ∧ handled notice
  ∧ queue_ok (mgr (_handle_redis_event demo_env notice init_world).2).
Proof.
  assert (queue_ok (mgr init_world)) as Hok.
  { split; [constructor|]. intros u msgs. discriminate. }
  split; [exact Hok|]. split; [exact notice_handled|].
  exact (proj1 (queue_after_event demo_env notice init_world Hok notice_handled)).
Defined.

Lemma handle_event_keeps_users E ev :
  keeps (λ w, user_connections (mgr w)) (_handle_redis_event E ev).
Proof.
  unfold _handle_redis_event, route_event, _cleanup_message_queue.
  keeps_with ltac:(first
    [ apply (keeps_compose queue_of (λ x, x.2)), dispatch_keeps_queue
    | apply (keeps_compose stable_of (λ x, x.1.1.1.2)),
        broadcast_to_role_keeps_stable
    | apply (keeps_compose stable_of (λ x, x.1.1.1.2)), send_to_user_keeps_stable
    | apply (keeps_compose stable_of (λ x, x.1.1.1.2)), broadcast_keeps_stable
    | intros ?; unfold modify_mgr, now_loop; simpl; done ]).
Qed.

Lemma filter_replicate_true {A} (f : A → bool) (x : A) n :
  f x = true → List.filter f (replicate n x) = replicate n x.
Proof. intros Hf. induction n as [|n IH]; simpl; [done|]. by rewrite Hf, IH. Qed.

Lemma flood_queue n :
  let w := flood n init_world in
  queue_ok (mgr w)
  ∧ user_connections (mgr w) = []
  ∧ default [] (PyDict.get "u9" (message_queue (mgr w)))
    = replicate n (event_message frozen notice init_world).
Proof.
  induction n as [|n IH]; cbv zeta.
  { split; [|done]. split; [constructor|]. intros u msgs. discriminate. }
  destruct IH as (Hok & Husers & Hqueue). cbn [flood].
  destruct (event_queue_get frozen notice (flood n init_world) Hok notice_handled)
    as (Hok' & Hget).
  split; [done|]. split.
  { by rewrite handle_event_keeps_users. }
  rewrite Hget, Hqueue.
  assert (offline_target notice (mgr (flood n init_world)) = Some "u9"%string) as ->.
  { unfold offline_target. simpl. by rewrite Husers. }
  rewrite decide_True by done.
  assert (event_message frozen notice (flood n init_world)
          = event_message frozen notice init_world) as -> by done.
  change (replicate n ?x ++ [?x]) with (replicate n x ++ replicate 1 x).
  rewrite <- replicate_add, Nat.add_1_r.
  rewrite filter_replicate_true by done. done.
Qed.

(** C4 as stated fails: no number bounds the length of a user's queue. *)
Lemma queue_has_no_size_bound :
  ¬ ∃ bound : nat, ∀ n,
      (length (default [] (PyDict.get "u9"
                 (message_queue (mgr (flood n init_world))))) ≤ bound)%nat.
Proof.
  intros [bound Hbound]. specialize (Hbound (S bound)).
  destruct (flood_queue (S bound)) as (_ & _ & Hq). rewrite Hq in Hbound.
  rewrite length_replicate in Hbound. lia.
Qed.

(** ** Frames are only ever added *)














(** ** Replay on connect *)

Lemma stamp_message_spec E msg w :
  let r := stamp_message E msg w in
  stamped_from msg r.1
  ∧ mgr r.2 = mgr w ∧ wire r.2 = wire w
  ∧ (wall_reads w ≤ wall_reads r.2)%nat.
Proof.
  cbv zeta. unfold stamp_message, stamped_from, bind, ret, fresh_uuid, now_wall.
  destruct msg as [ty [i|] [t|] fs]; simpl; repeat split; eauto; try done; lia.
Qed.


(** Whatever the state, a send writes at most one frame, the message as it
    leaves the call, on the socket registered for the connection; the queue
    is not touched. *)
Lemma send_any E cid msg rf w :
  let r := send_personal_message E msg cid rf w in
  message_queue (mgr r.2) = message_queue (mgr w)
  ∧ (wire r.2 = wire w
     ∨ ∃ ws, PyDict.get cid (active_connections (mgr w)) = Some ws
         ∧ wire r.2 = wire w ++ [(ws_sock ws, r.1)]
         ∧ m_type r.1 = m_type msg).
Proof.
  cbv zeta. split.
  { pose proof (send_keeps_stable E msg cid rf w) as H. by injection H. }
  remember (send_personal_message E msg cid rf w) as r eqn:Hr.
  unfold send_personal_message in Hr.
  unfold bind at 1, now_wall in Hr. simpl in Hr.
  unfold bind at 1, lift_mgr in Hr. simpl in Hr.
  assert (∀ m' w2, wire
            ((if rf then _handle_disconnect_with_fallback E cid m' else ret ()) w2).2
          = wire w2) as Hfb.
  { intros m' w2. destruct rf; [|done].
    pose proof (fallback_keeps_history E cid m' w2) as H. by injection H. }
  destruct (_check_rate_limit _ cid (mgr w)) as [ok m1] eqn:Hcheck. simpl in Hr.
  destruct ok; simpl in Hr; [|subst r; by left].
  assert (active_connections m1 = active_connections (mgr w)) as Hact.
  { unfold _check_rate_limit in Hcheck.
    destruct (rate_limits (mgr w) !! cid); [|by injection Hcheck as <-].
    destruct (0 <? _); [by injection Hcheck as <-|done]. }
  unfold bind at 1, get_mgr in Hr. simpl in Hr. rewrite Hact in Hr.
  destruct (PyDict.get cid (active_connections (mgr w))) as [ws|].
  - unfold bind at 1 in Hr.
    match type of Hr with
    | context [stamp_message E msg ?w0] =>
        destruct (stamp_message_spec E msg w0) as ((Hty & _) & _ & Hwire & _);
        destruct (stamp_message E msg w0) as [msg' w1]
    end.
    simpl in Hty, Hwire.
    destruct (ws_on_send ws).
    + right. exists ws. subst r. simpl. by rewrite Hwire.
    + left. unfold bind in Hr. specialize (Hfb msg' w1).
      match type of Hr with
      | context [let (_, _) := ?x in _] => destruct x as [[] w3]
      end.
      subst r. simpl in *. by rewrite Hfb, Hwire.
    + left. unfold bind in Hr. specialize (Hfb msg' w1).
      match type of Hr with
      | context [let (_, _) := ?x in _] => destruct x as [[] w3]
      end.
      subst r. simpl in *. by rewrite Hfb, Hwire.
  - left. unfold bind in Hr.
    match type of Hr with
    | context [(if rf then _ else _) ?w0] => specialize (Hfb msg w0)
    end.
    match type of Hr with
    | context [let (_, _) := ?x in _] => destruct x as [[] w3]
    end.
    subst r. simpl in *. by rewrite Hfb.
Qed.




Lemma demo_env_monotone : monotone demo_env.
Proof. intros i j Hij. simpl. lia. Qed.




(** The clock has to keep its direction.  User u9 has two events queued and
    connects when daylight saving time ends: the first reading of
    [datetime.now()] is taken just before the hour is repeated, the next
    ones an hour earlier.  The refill of the second message's check is
    [int(-3599 * 2.0)] = -7198 tokens: the message is dropped, and so is
    the welcome; one frame is written, and the queue is gone. *)
Example connect_drops_when_clock_steps_back :
  let w := flood 2 init_world in
  let r := connect dst_end (good_socket 9) "c9" (Some "u9"%string) None w in
  (length <$> PyDict.get "u9" (message_queue (mgr w))) = Some 2%nat
  ∧ wire w = []
  ∧ r.1 = true
  ∧ length (wire r.2) = 1%nat
  ∧ PyDict.get "u9" (message_queue (mgr r.2)) = None.
Proof. vm_compute. repeat split; reflexivity. Qed.

(** * Further properties of the code *)

Lemma dict_del_absent {V} k (d : list (string * V)) :
  PyDict.get k d = None → PyDict.del k d = d.
Proof.
  induction d as [|[k' v'] d IH]; simpl; [done|].
  destruct (String.eqb k k'); [done|]. intros H. by rewrite IH.
Qed.

Lemma disconnect_active_del cid u m :
  active_connections (disconnect cid u m) = PyDict.del cid (active_connections m).
Proof.
  rewrite disconnect_active. unfold PyDict.mem.
  destruct (PyDict.get cid (active_connections m)) eqn:E; [done|].
  by rewrite dict_del_absent.
Qed.
(** ** Eviction by the rate limiter *)

Lemma run_checks_evicts cid times : ∀ m rate,
  NoDup (PyDict.keys (active_connections m)) →
  rate_limits m !! cid = Some rate →
  (3 < warnings rate → PyDict.get cid (active_connections m) = None) →
  active_connections (run_checks cid times m).2
    = (if decide (warnings rate + Z.of_nat (denials (run_checks cid times m).1) ≤ 3)
       then active_connections m
       else PyDict.del cid (active_connections m))
  ∧ ∃ rate', rate_limits (run_checks cid times m).2 !! cid = Some rate'
       ∧ warnings rate'
         = warnings rate + Z.of_nat (denials (run_checks cid times m).1).
Proof.
  induction times as [|now rest IH]; intros m rate Hnd Hrate Hgone.
  { simpl. rewrite Z.add_0_r. split; [|by exists rate].
    case_decide as Hw; [done|]. rewrite dict_del_absent; [done|]. apply Hgone. lia. }
  simpl. unfold _check_rate_limit. rewrite Hrate.
  destruct (0 <? _) eqn:Htok.
  - set (m1 := with_rates _ m).
    destruct (IH m1 _ Hnd (lookup_insert_eq _ _ _) Hgone) as [Hact (rate' & Hr' & Hw')].
    destruct (run_checks cid rest m1) as [oks m2]. simpl in *.
    split; [done|]. by exists rate'.
  - set (rate1 := {| tokens := _; last_update := now; warnings := warnings rate + 1 |}).
    set (m1 := with_rates (insert cid rate1) m).
    destruct (3 <? warnings rate + 1) eqn:Hev.
    + apply Z.ltb_lt in Hev.
      assert (active_connections (disconnect cid None m1)
              = PyDict.del cid (active_connections m)) as Hdel
        by (by rewrite disconnect_active_del).
      destruct (IH (disconnect cid None m1) rate1) as [Hact (rate' & Hr' & Hw')].
      { rewrite Hdel. by apply del_keys_NoDup. }
      { rewrite disconnect_rates. apply lookup_insert_eq. }
      { intros _. rewrite Hdel. by apply dict_get_del_eq. }
      destruct (run_checks cid rest (disconnect cid None m1)) as [oks m2].
      simpl in *. unfold denials in *. simpl.
      split.
      * rewrite Hact, Hdel. rewrite !decide_False by lia.
        rewrite dict_del_absent; [done|]. by apply dict_get_del_eq.
      * exists rate'. split; [done|]. lia.
    + apply Z.ltb_ge in Hev.
      destruct (IH m1 rate1 Hnd (lookup_insert_eq _ _ _)) as [Hact (rate' & Hr' & Hw')].
      { simpl. lia. }
      destruct (run_checks cid rest m1) as [oks m2].
      simpl in *. unfold denials in *. simpl. split.
      * rewrite Hact. do 2 case_decide; (done || lia).
      * exists rate'. split; [done|]. lia.
Qed.

(** X1.  A connection is removed from the active connections by the
    rate-limit check that denies it for the fourth time since its bucket was
    created, and by no earlier one: the count of denials is never reset by
    the checks that pass in between, and it is kept with the bucket. *)
Theorem eviction_at_fourth_denial (connection_id : string) (times : list Z)
    (m : Manager) :
  NoDup (PyDict.keys (active_connections m)) →
  rate_limits m !! connection_id = None →
  let run := run_checks connection_id times m in
  active_connections run.2
    = (if decide (denials run.1 ≤ 3)%nat then active_connections m
       else PyDict.del connection_id (active_connections m))
  ∧ (times ≠ [] →
     warnings <$> rate_limits run.2 !! connection_id
     = Some (Z.of_nat (denials run.1))).
Proof.
  intros Hnd Hrate. cbv zeta.
  destruct times as [|now rest]; [by split|].
  set (rate0 := {| tokens := max_messages_per_minute; last_update := now;
                   warnings := 0 |}).
  assert (_check_rate_limit now connection_id m
          = (true, with_rates (insert connection_id rate0) m)) as Hfirst
    by (unfold _check_rate_limit; by rewrite Hrate).
  simpl. rewrite Hfirst.
  destruct (run_checks_evicts connection_id rest
              (with_rates (insert connection_id rate0) m) rate0 Hnd
              (lookup_insert_eq _ _ _)) as [Hact (rate' & Hr' & Hw')].
  { simpl. lia. }
  destruct (run_checks connection_id rest _) as [oks m2].
  simpl in *. unfold denials in *. simpl. split.
  - rewrite Hact. do 2 case_decide; (done || lia).
  - intros _. rewrite Hr'. simpl. by rewrite Hw'.
Qed.

(** ** Pongs *)

(** X2.  A pong for a connection with a health record and a timestamp that
    is a boolean or a number within the range of a float appends the latency
    to the connection's measurements and keeps the ten most recent of them,
    whatever their number was; nothing else of the record changes.  A pong
    for a connection without a health record, or one whose timestamp is
    missing, is not a number, or is an int beyond the range of a float
    (2^1024 - 2^970 or more in magnitude: the subtraction raises
    OverflowError), leaves the manager as it was.  No pong writes a
    frame. *)
Theorem pong_latency_window (E : Env) (connection_id : string)
    (ping_timestamp : option json) (w : World) :
  let w' := (handle_pong E connection_id ping_timestamp w).2 in
  wire w' = wire w
  ∧ match connection_health (mgr w) !! connection_id, ping_timestamp ≫= number with
    | Some h, Some sent =>
        ∃ h', mgr w' = with_health (insert connection_id h') (mgr w)
          ∧ latency_ms h' `suffix_of`
              latency_ms h ++ [loop_clock E (loop_reads w) - sent]
          ∧ length (latency_ms h') = (S (length (latency_ms h)) `min` 10)%nat
          ∧ connected_at h' = connected_at h
          ∧ last_ping h' = last_ping h
          ∧ ping_count h' = ping_count h
    | _, _ => mgr w' = mgr w
    end
  ∧ (∀ z, ping_timestamp = Some (JNum z) →
       if Z.abs z <? float_limit * microseconds
       then ping_timestamp ≫= number = Some z
       else mgr w' = mgr w)
  ∧ (∀ b, ping_timestamp = Some (JBool b) →
       ping_timestamp ≫= number = Some (if b then microseconds else 0))
  ∧ (ping_timestamp ≫= number = None → mgr w' = mgr w).
Proof.
  cbv zeta.
  assert (ping_timestamp ≫= number = None →
          mgr (handle_pong E connection_id ping_timestamp w).2 = mgr w) as Hraise.
  { intros Hnone. unfold handle_pong, bind, get_mgr. simpl.
    destruct (connection_health (mgr w) !! connection_id); [|done].
    simpl. by rewrite Hnone. }
  split; [|split; [|split; [|split; [|done]]]].
  - unfold handle_pong, bind, get_mgr. simpl.
    destruct (connection_health (mgr w) !! connection_id); [|done].
    simpl. by destruct (ping_timestamp ≫= number).
  - unfold handle_pong, bind, get_mgr. simpl.
    destruct (connection_health (mgr w) !! connection_id) as [h|]; [|done].
    simpl. destruct (ping_timestamp ≫= number) as [sent|]; [|done].
    simpl. eexists. split; [done|]. simpl.
    split; [apply suffix_drop|]. split; [|done].
    rewrite length_drop, length_app. simpl. lia.
  - intros z ->. simpl.
    destruct (Z.abs z <? float_limit * microseconds) eqn:Hz; [done|].
    apply Hraise. simpl. by rewrite Hz.
  - by intros b ->.
Qed.

(** ** Polling sessions: start and stop *)

Lemma start_polling_spec E user_id poll_type w :
  start_polling E user_id poll_type w
  = match poll_intervals poll_type with
    | Some interval =>
        (true,
         {| mgr := mgr w;
            active_polls :=
              PyDict.set (poll_name user_id poll_type (wall_clock E (wall_reads w)))
                (new_poll E user_id poll_type (wall_clock E (S (wall_reads w)))
                   interval)
                (active_polls w);
            wire := wire w; wall_reads := S (S (wall_reads w));
            loop_reads := loop_reads w; uuid_reads := uuid_reads w;
            token_reads := token_reads w |})
    | None =>
        (false,
         {| mgr := mgr w; active_polls := active_polls w; wire := wire w;
            wall_reads := S (S (wall_reads w)); loop_reads := loop_reads w;
            uuid_reads := uuid_reads w; token_reads := token_reads w |})
    end.
Proof.
  unfold start_polling, bind, now_wall, modify_polls, ret, poll_name, new_poll.
  simpl. by destruct (poll_intervals poll_type).
Qed.

Lemma get_poll_type_interval msg pt :
  _get_poll_type msg = Some pt → is_Some (poll_intervals pt).
Proof.
  unfold _get_poll_type. repeat case_match; intros [= <-]; by eexists.
Qed.

(** ** The fallback after a failed send *)

(** The fallback for a connection that a user owns. *)
Lemma fallback_owned (E : Env) (connection_id : string) (msg : message)
    (user_id : string) (w : World) :
  owner_of connection_id (user_connections (mgr w)) = Some user_id →
  user_id ≠ ""%string →
  let w' := (_handle_disconnect_with_fallback E connection_id msg w).2 in
  session_state (mgr w')
    = PyDict.set connection_id
        {| ss_last_message := msg;
           ss_disconnected_at := wall_clock E (wall_reads w);
           ss_user_id := user_id;
           ss_role := PyDict.get connection_id (connection_roles (mgr w)) |}
        (session_state (mgr w))
  ∧ active_connections (mgr w')
    = PyDict.del connection_id (active_connections (mgr w))
  ∧ user_connections (mgr w') = user_connections (mgr w)
  ∧ wire w' = wire w
  ∧ active_polls w'
    = match _get_poll_type msg with
      | Some poll_type =>
          PyDict.set
            (poll_name user_id poll_type (wall_clock E (S (wall_reads w))))
            (new_poll E user_id poll_type (wall_clock E (S (S (wall_reads w))))
               (default 0 (poll_intervals poll_type)))
            (active_polls w)
      | None => active_polls w
      end.
Proof.
  intros Howner Hu. cbv zeta.
  remember (_handle_disconnect_with_fallback E connection_id msg w) as r eqn:Hr.
  unfold _handle_disconnect_with_fallback in Hr. unfold bind at 1, get_mgr in Hr.
  rewrite Howner in Hr. simpl in Hr.
  assert (String.eqb user_id "" = false) as Hne by by apply String.eqb_neq.
  rewrite Hne in Hr. simpl in Hr.
  unfold bind at 1, now_wall in Hr. simpl in Hr.
  unfold bind at 1, modify_mgr at 1 in Hr. simpl in Hr.
  set (st := {| ss_last_message := msg;
                ss_disconnected_at := wall_clock E (wall_reads w);
                ss_user_id := user_id;
                ss_role := PyDict.get connection_id (connection_roles (mgr w)) |})
    in *.
  pose proof (disconnect_frame connection_id None
                (with_sessions (PyDict.set connection_id st) (mgr w)))
    as (_ & _ & _ & _ & _ & Hss).
  pose proof (disconnect_active_del connection_id None
                (with_sessions (PyDict.set connection_id st) (mgr w))) as Hact.
  pose proof (disconnect_users_none connection_id
                (with_sessions (PyDict.set connection_id st) (mgr w))) as Husers.
  destruct (_get_poll_type msg) as [pt|] eqn:Hpt.
  - destruct (get_poll_type_interval msg pt Hpt) as [interval Hint].
    unfold bind in Hr. rewrite start_polling_spec, Hint in Hr. simpl in Hr.
    subst r. simpl. by rewrite Hss, Hact, Husers, Hint.
  - subst r. simpl. by rewrite Hss, Hact, Husers.
Qed.

(** X3.  When a user owns the connection (the active connections holding
    one entry per id), the fallback records a session
    state under the connection id (the message, the clock reading, the user
    and the connection's role, replacing any state recorded under that id)
    and leaves the states of other connections alone; it removes the
    connection, and no other, from the active connections and writes
    nothing; the user's connection set still lists the connection, so the
    user still owns it.  A polling session for the user is registered
    exactly when the message type names one of the four poll types. *)
Theorem fallback_snapshot (E : Env) (connection_id : string) (msg : message)
    (user_id : string) (w : World) :
  owner_of connection_id (user_connections (mgr w)) = Some user_id →
  user_id ≠ ""%string →
  NoDup (PyDict.keys (active_connections (mgr w))) →
  let w' := (_handle_disconnect_with_fallback E connection_id msg w).2 in
  PyDict.get connection_id (session_state (mgr w'))
    = Some {| ss_last_message := msg;
              ss_disconnected_at := wall_clock E (wall_reads w);
              ss_user_id := user_id;
              ss_role := PyDict.get connection_id (connection_roles (mgr w)) |}
  ∧ (∀ c, c ≠ connection_id →
       PyDict.get c (session_state (mgr w')) = PyDict.get c (session_state (mgr w)))
  ∧ PyDict.get connection_id (active_connections (mgr w')) = None
  ∧ (∀ c, c ≠ connection_id →
       PyDict.get c (active_connections (mgr w'))
       = PyDict.get c (active_connections (mgr w)))
  ∧ owner_of connection_id (user_connections (mgr w')) = Some user_id
  ∧ wire w' = wire w
  ∧ match _get_poll_type msg with
    | Some poll_type =>
        ∃ p, PyDict.get
               (poll_name user_id poll_type (wall_clock E (S (wall_reads w))))
               (active_polls w') = Some p
          ∧ p_user_id p = user_id ∧ p_type p = poll_type
          ∧ poll_intervals poll_type = Some (p_interval p)
    | None => active_polls w' = active_polls w
    end.
Proof.
  intros Howner Hu Hnd. cbv zeta.
  destruct (fallback_owned E connection_id msg user_id w Howner Hu)
    as (Hss & Hact & Husers & Hwire & Hpolls).
  rewrite Hss, Hact, Husers, Hpolls.
  split; [apply dict_get_set_eq|].
  split; [intros c Hc; apply dict_get_set_ne; congruence|].
  split; [by apply dict_get_del_eq|].
  split; [intros c Hc; apply dict_get_del_ne; congruence|].
  split; [done|]. split; [done|].
  destruct (_get_poll_type msg) as [pt|] eqn:Hpt; [|done].
  destruct (get_poll_type_interval msg pt Hpt) as [interval Hint].
  eexists. split; [apply dict_get_set_eq|]. by rewrite Hint.
Qed.

(** X4.  [start_polling] registers a session only for the four poll types
    it has an interval for; for any other type it raises (the KeyError of
    the interval table) and registers nothing.  A registered session is
    stored under the key made of the user, the type and the second of the
    call, with the type's interval and no watermark
    ([_get_last_update_id] returns None: the cache service has no [get],
    and the method swallows the AttributeError),
    replacing a session stored under that key; every other session, the
    manager and the frames written are left as they were. *)
Theorem start_polling_registers (E : Env) (user_id poll_type : string) (w : World) :
  let r := start_polling E user_id poll_type w in
  let key := poll_name user_id poll_type (wall_clock E (wall_reads w)) in
  mgr r.2 = mgr w ∧ wire r.2 = wire w
  ∧ (r.1 = true
     ↔ poll_type ∈ ["interview"; "application"; "job"; "system"]%string)
  ∧ (r.1 = false → active_polls r.2 = active_polls w)
  ∧ (r.1 = true →
     ∃ p, PyDict.get key (active_polls r.2) = Some p
       ∧ p_user_id p = user_id ∧ p_type p = poll_type
       ∧ poll_intervals poll_type = Some (p_interval p)
       ∧ p_interval p ∈ [5; 30; 60; 300]
       ∧ p_last_update_id p = None
       ∧ (∀ k, k ≠ key →
            PyDict.get k (active_polls r.2) = PyDict.get k (active_polls w))
       ∧ length (active_polls r.2)
         = if PyDict.mem key (active_polls w) then length (active_polls w)
           else S (length (active_polls w))).
Proof.
  cbv zeta. rewrite start_polling_spec.
  assert (is_Some (poll_intervals poll_type)
          ↔ poll_type ∈ ["interview"; "application"; "job"; "system"]%string)
    as Hknown.
  { unfold poll_intervals. rewrite !elem_of_cons, elem_of_nil.
    repeat (case_match;
            [match goal with
             | H : String.eqb _ _ = true |- _ => apply String.eqb_eq in H
             end; split; [tauto|by eexists]|]).
    repeat match goal with
           | H : String.eqb _ _ = false |- _ => apply String.eqb_neq in H
           end.
    split; [by intros [? ?]|]. intros [|[|[|[|[]]]]]; congruence. }
  destruct (poll_intervals poll_type) as [interval|] eqn:Hint; simpl.
  - split; [done|]. split; [done|]. split; [split; [intros _; by apply Hknown|done]|].
    split; [done|]. intros _. eexists. split; [apply dict_get_set_eq|].
    simpl. repeat split; try done.
    + unfold poll_intervals in Hint. rewrite !elem_of_cons.
      repeat case_match; simplify_eq; tauto.
    + intros k Hk. by apply dict_get_set_ne.
    + unfold PyDict.mem.
      generalize (new_poll E user_id poll_type (wall_clock E (S (wall_reads w)))
                    interval).
      generalize (poll_name user_id poll_type (wall_clock E (wall_reads w))).
      intros key p. induction (active_polls w) as [|[k v] d IH]; simpl; [done|].
      destruct (String.eqb key k); simpl; [done|].
      rewrite IH. by destruct (PyDict.get key d).
  - split; [done|]. split; [done|]. split; [|done].
    split; [done|]. intros H. apply Hknown in H. by destruct H.
Qed.

Lemma stop_polling_del poll_id (polls : list (string * poll)) :
  stop_polling poll_id polls = PyDict.del poll_id polls.
Proof.
  unfold stop_polling, PyDict.mem.
  destruct (PyDict.get poll_id polls) eqn:E; [done|]. by rewrite dict_del_absent.
Qed.

(** X5.  [stop_polling] removes the session and nothing else, a second call
    (or a call for a session that does not exist) changes nothing, and the
    poll loop of a stopped session ends at its next turn without a query and
    without touching the world. *)
Theorem stop_polling_ends_session (E : Env) (db : option Store)
    (callback_ok : bool) (poll_id : string) (w : World) :
  NoDup (PyDict.keys (active_polls w)) →
  let stopped := stop_polling poll_id (active_polls w) in
  let w' := (modify_polls (stop_polling poll_id) w).2 in
  PyDict.get poll_id stopped = None
  ∧ (∀ k, k ≠ poll_id → PyDict.get k stopped = PyDict.get k (active_polls w))
  ∧ stop_polling poll_id stopped = stopped
  ∧ (PyDict.get poll_id (active_polls w) = None → stopped = active_polls w)
  ∧ poll_tick E db callback_ok poll_id w' = (([], false), w').
Proof.
  intros Hnd. cbv zeta. rewrite !stop_polling_del.
  assert (PyDict.get poll_id (PyDict.del poll_id (active_polls w)) = None) as Hgone
    by by apply dict_get_del_eq.
  split; [done|]. split; [intros k Hk; by apply dict_get_del_ne|].
  split; [by apply dict_del_absent|]. split; [apply dict_del_absent|].
  unfold poll_tick, modify_polls. simpl. by rewrite stop_polling_del, Hgone.
Qed.

(** ** Fan-out over sockets that take the write *)

Lemma broadcast_loop_healthy size0 msg excl : ∀ items w,
  length (active_connections (mgr w)) = size0 →
  Forall (λ item, item.1 ∉ excl → ws_on_send item.2 = WriteOk) items →
  let w' := (broadcast_loop size0 items msg excl w).2 in
  mgr w' = mgr w
  ∧ wire w' = wire w ++ frames_to msg (recipients excl items).
Proof.
  induction items as [|[cid ws] items IH]; intros w Hsize Hall; cbv zeta.
  { simpl. unfold bind, get_mgr. rewrite Hsize, Nat.eqb_refl. simpl.
    by rewrite app_nil_r. }
  inversion_clear Hall as [|? ? Hws Hall']. simpl in Hws.
  remember (broadcast_loop size0 ((cid, ws) :: items) msg excl w) as r eqn:Hr.
  simpl in Hr. unfold bind at 1, get_mgr in Hr.
  rewrite Hsize, Nat.eqb_refl in Hr. simpl in Hr. unfold bind at 1 in Hr.
  unfold recipients. simpl. fold (recipients excl items).
  destruct (bool_decide (cid ∈ excl)) eqn:Hex; simpl in *.
  - destruct (IH w Hsize Hall') as [Hm Hw]. subst r. by rewrite Hm, Hw.
  - apply bool_decide_eq_false in Hex. rewrite (Hws Hex) in Hr.
    destruct (IH (emit (ws_sock ws) msg w).2) as [Hm Hw]; [done|done|].
    subst r. simpl in *. rewrite Hm, Hw. by rewrite <- app_assoc.
Qed.

(** X8.  When the sockets of the connections it does not exclude take the
    write, a broadcast writes the message once to each of them, in the order
    they registered, as it was passed (no id or timestamp is added), and
    leaves the manager as it was: it draws on no rate-limit bucket and adds
    to no history. *)
Theorem broadcast_reaches_all (msg : message) (exclude_connections : list string)
    (w : World) :
  (∀ item, item ∈ active_connections (mgr w) →
     item.1 ∉ exclude_connections → ws_on_send item.2 = WriteOk) →
  let w' := (broadcast msg exclude_connections w).2 in
  mgr w' = mgr w
  ∧ wire w'
    = wire w
      ++ frames_to msg (recipients exclude_connections (active_connections (mgr w))).
Proof.
  intros Hall. unfold broadcast, bind, get_mgr.
  apply broadcast_loop_healthy; [done|]. by apply Forall_forall.
Qed.

Lemma stamp_complete E msg w : complete msg → stamp_message E msg w = (msg, w).
Proof.
  intros [[i Hi] [t Ht]]. unfold stamp_message, bind, ret.
  destruct msg as [ty mi mt fs]. simpl in *. by subst.
Qed.

Lemma stamped_complete msg msg' : stamped_from msg msg' → complete msg'.
Proof. by intros (_ & _ & _ & _ & Hi & Ht). Qed.

(** A send that goes out, with what it leaves for the other connections. *)
Lemma send_delivers E ws cid msg rf w :
  monotone E → ws_on_send ws = WriteOk →
  PyDict.get cid (active_connections (mgr w)) = Some ws →
  credit E cid 1 w →
  ∃ msg' w', send_personal_message E msg cid rf w = (msg', w')
    ∧ stamped_from msg msg'
    ∧ (complete msg → msg' = msg)
    ∧ wire w' = wire w ++ [(ws_sock ws, msg')]
    ∧ active_connections (mgr w') = active_connections (mgr w)
    ∧ (∀ c, c ≠ cid → rate_limits (mgr w') !! c = rate_limits (mgr w) !! c)
    ∧ (wall_reads w ≤ wall_reads w')%nat
    ∧ message_history (mgr w') !! cid
      = Some (trim_history (default [] (message_history (mgr w) !! cid) ++ [msg'])).
Proof.
  intros Hmono Hws Hget Hcredit.
  unfold send_personal_message. unfold bind at 1, now_wall. simpl.
  set (now := wall_clock E (wall_reads w)).
  unfold bind at 1, lift_mgr. simpl.
  assert (∃ rate', _check_rate_limit now cid (mgr w)
                   = (true, with_rates (insert cid rate') (mgr w)))
    as (rate' & ->).
  { unfold _check_rate_limit, credit in *.
    destruct (rate_limits (mgr w) !! cid) as [rate|]; [|by eexists].
    destruct Hcredit as (Hok & Hlu & Htok).
    destruct (tokens_to_add_bounds now rate Hlu) as [Hadd _].
    unfold bucket_ok, max_messages_per_minute in *.
    assert ((0 <? Z.min 120 (tokens rate + tokens_to_add now rate)) = true) as ->
      by (apply Z.ltb_lt; lia).
    by eexists. }
  simpl. unfold bind at 1, get_mgr. simpl. rewrite Hget.
  unfold bind at 1.
  set (w0 := {| mgr := with_rates (insert cid rate') (mgr w);
                active_polls := active_polls w; wire := wire w;
                wall_reads := S (wall_reads w); loop_reads := loop_reads w;
                uuid_reads := uuid_reads w; token_reads := token_reads w |}).
  destruct (stamp_message_spec E msg w0) as (Hst & Hmgr & Hwire & Hreads).
  pose proof (stamp_complete E msg w0) as Hsame.
  destruct (stamp_message E msg w0) as [msg' w1]. simpl in Hst, Hmgr, Hwire, Hreads.
  rewrite Hws. unfold bind, emit, modify_mgr, ret. simpl.
  eexists _, _. split; [done|]. simpl. rewrite Hmgr, Hwire. simpl.
  split; [exact Hst|]. split; [intros Hc; by injection (Hsame Hc)|].
  split; [done|]. split; [done|].
  split; [intros c Hc; by rewrite lookup_insert_ne|].
  split; [lia|]. by rewrite lookup_insert_eq.
Qed.

Lemma writable_after E w w' c :
  monotone E →
  active_connections (mgr w') = active_connections (mgr w) →
  rate_limits (mgr w') !! c = rate_limits (mgr w) !! c →
  (wall_reads w ≤ wall_reads w')%nat →
  writable E w c → writable E w' c.
Proof.
  intros Hmono Hact Hrate Hreads (ws & Hget & Hws & Hcredit).
  exists ws. rewrite Hact. split; [done|]. split; [done|].
  unfold credit in *. rewrite Hrate.
  destruct (rate_limits (mgr w) !! c) as [rate|]; [|done].
  destruct Hcredit as (Hok & Hlu & Htok). split; [done|]. split; [|done].
  specialize (Hmono _ _ Hreads). lia.
Qed.

Lemma frames_for_ext msg m m' cids :
  active_connections m' = active_connections m →
  frames_for msg m' cids = frames_for msg m cids.
Proof. unfold frames_for. by intros ->. Qed.

(** A message that has its id and timestamp goes unchanged to every
    connection of the list. *)
Lemma send_each_delivers E msg : ∀ cids w,
  monotone E → complete msg → NoDup cids →
  Forall (writable E w) cids →
  ∃ w', send_each E msg cids w = (msg, w')
    ∧ wire w' = wire w ++ frames_for msg (mgr w) cids
    ∧ length (frames_for msg (mgr w) cids) = length cids
    ∧ active_connections (mgr w') = active_connections (mgr w).
Proof.
  induction cids as [|cid cids IH]; intros w Hmono Hc Hnd Hall.
  { exists w. simpl. by rewrite app_nil_r. }
  apply NoDup_cons in Hnd as [Hcid Hnd].
  inversion_clear Hall as [|? ? Hw Hall'].
  destruct Hw as (ws & Hget & Hws & Hcredit).
  destruct (send_delivers E ws cid msg true w Hmono Hws Hget Hcredit)
    as (msg' & w1 & Hsend & _ & Hsame & Hwire & Hact & Hrates & Hreads & _).
  rewrite (Hsame Hc) in *. clear Hsame.
  destruct (IH w1 Hmono Hc Hnd) as (w' & Hrun & Hwire' & Hlen & Hact').
  { rewrite Forall_forall in Hall'. apply Forall_forall. intros c Hin.
    apply (writable_after E w w1 c Hmono Hact); [|done|by apply Hall'].
    apply Hrates. intros ->. done. }
  exists w'. simpl. unfold bind. rewrite Hsend. split; [done|].
  rewrite (frames_for_ext msg _ _ cids Hact) in Hwire', Hlen.
  unfold frames_for at 1 2. simpl. rewrite Hget. simpl.
  fold (frames_for msg (mgr w) cids).
  split; [by rewrite Hwire', Hwire, <- app_assoc|].
  split; [by rewrite Hlen|]. by rewrite Hact'.
Qed.

(** Sends to connections that can all be written to: the first one stamps
    the message, the others carry it as stamped. *)
Lemma send_each_writable E msg cids w :
  monotone E → NoDup cids → Forall (writable E w) cids →
  ∃ sent w', send_each E msg cids w = (sent, w')
    ∧ wire w' = wire w ++ frames_for sent (mgr w) cids
    ∧ length (frames_for sent (mgr w) cids) = length cids
    ∧ (cids = [] → sent = msg)
    ∧ (cids ≠ [] → stamped_from msg sent)
    ∧ active_connections (mgr w') = active_connections (mgr w).
Proof.
  intros Hmono Hnd Hall. destruct cids as [|cid cids].
  { exists msg, w. simpl. by rewrite app_nil_r. }
  apply NoDup_cons in Hnd as [Hcid Hnd].
  inversion_clear Hall as [|? ? Hw Hrest].
  destruct Hw as (ws & Hget & Hws & Hcredit).
  destruct (send_delivers E ws cid msg true w Hmono Hws Hget Hcredit)
    as (msg' & w1 & Hsend & Hst & _ & Hwire & Hact & Hrates & Hreads & _).
  destruct (send_each_delivers E msg' cids w1 Hmono (stamped_complete _ _ Hst) Hnd)
    as (w' & Hrun & Hwire' & Hlen & Hact').
  { rewrite Forall_forall in Hrest. apply Forall_forall. intros c Hin.
    apply (writable_after E w w1 c Hmono Hact); [|done|by apply Hrest].
    apply Hrates. intros ->. done. }
  exists msg', w'. simpl. unfold bind. rewrite Hsend, Hrun.
  rewrite (frames_for_ext msg' _ _ cids Hact) in Hwire', Hlen.
  unfold frames_for at 1 2. simpl. rewrite Hget. simpl.
  fold (frames_for msg' (mgr w) cids).
  split; [done|]. split; [by rewrite Hwire', Hwire, <- app_assoc|].
  split; [by rewrite Hlen|]. split; [done|]. split; [done|]. by rewrite Hact'.
Qed.

(** X9.  When every connection of a user is registered with a socket that
    takes the write and has a token in its bucket, [send_to_user] writes
    one frame to each of them and nothing else; all the frames carry the
    same message, with the type, fields, id and timestamp passed and the id
    and timestamp filled in once when missing, which is also the message as
    the call leaves it. *)
Theorem send_to_user_delivers (E : Env) (msg : message) (user_id : string)
    (conns : gset string) (w : World) :
  monotone E →
  PyDict.get user_id (user_connections (mgr w)) = Some conns →
  (∀ cid, cid ∈ conns → writable E w cid) →
  let r := send_to_user E msg (Some user_id) w in
  wire r.2 = wire w ++ frames_for r.1 (mgr w) (elements conns)
  ∧ length (frames_for r.1 (mgr w) (elements conns)) = size conns
  ∧ (conns ≠ ∅ → stamped_from msg r.1)
  ∧ active_connections (mgr r.2) = active_connections (mgr w).
Proof.
  intros Hmono Hconns Hall. cbv zeta.
  assert (send_to_user E msg (Some user_id) w = send_each E msg (elements conns) w)
    as -> by (unfold send_to_user, bind, get_mgr; simpl; by rewrite Hconns).
  destruct (send_each_writable E msg (elements conns) w Hmono (NoDup_elements conns))
    as (sent & w' & -> & Hwire & Hlen & _ & Hst & Hact).
  { apply Forall_forall. intros c Hc. apply Hall. by apply elem_of_elements. }
  simpl. split; [done|]. split; [exact Hlen|]. split; [|done].
  intros Hne. apply Hst. intros Hnil. apply Hne. apply leibniz_equiv.
  by apply elements_empty_inv.
Qed.

(** ** Sends that cannot be written *)

Lemma check_passes E cid w :
  credit E cid 1 w →
  ∃ rate', _check_rate_limit (wall_clock E (wall_reads w)) cid (mgr w)
           = (true, with_rates (insert cid rate') (mgr w)).
Proof.
  unfold _check_rate_limit, credit.
  destruct (rate_limits (mgr w) !! cid) as [rate|]; [|by eexists].
  intros (Hok & Hlu & Htok).
  destruct (tokens_to_add_bounds (wall_clock E (wall_reads w)) rate Hlu) as [Hadd _].
  unfold bucket_ok, max_messages_per_minute in *.
  assert ((0 <? Z.min 120 (tokens rate
             + tokens_to_add (wall_clock E (wall_reads w)) rate)) = true) as ->
    by (apply Z.ltb_lt; lia).
  by eexists.
Qed.

(** A send that passes the rate limit but finds no socket, or a socket that
    raises, ends in the fallback, run on the message as stamped so far. *)
Lemma send_falls_back E cid msg w :
  credit E cid 1 w →
  match PyDict.get cid (active_connections (mgr w)) with
  | Some ws => ws_on_send ws ≠ WriteOk
  | None => True
  end →
  ∃ msg' w1,
    send_personal_message E msg cid true w
    = (msg', (_handle_disconnect_with_fallback E cid msg' w1).2)
    ∧ match PyDict.get cid (active_connections (mgr w)) with
      | Some _ => stamped_from msg msg'
      | None => msg' = msg
      end
    ∧ (∃ rate', mgr w1 = with_rates (insert cid rate') (mgr w))
    ∧ wire w1 = wire w ∧ active_polls w1 = active_polls w
    ∧ (wall_reads w < wall_reads w1)%nat.
Proof.
  intros Hcredit Hdead. destruct (check_passes E cid w Hcredit) as [rate' Hcheck].
  unfold send_personal_message. unfold bind at 1, now_wall. simpl.
  unfold bind at 1, lift_mgr. simpl. rewrite Hcheck. simpl.
  unfold bind at 1, get_mgr. simpl.
  destruct (PyDict.get cid (active_connections (mgr w))) as [ws|].
  - unfold bind at 1.
    match goal with
    | |- context [stamp_message E msg ?w0] =>
        destruct (stamp_message_spec E msg w0) as (Hst & Hmgr & Hwire & Hreads);
        pose proof (stamp_message_keeps E msg w0) as Hkeep;
        destruct (stamp_message E msg w0) as [msg' w1]
    end.
    simpl in *. injection Hkeep as _ _ Hpolls.
    exists msg', w1.
    split.
    { unfold bind, ret.
      destruct (ws_on_send ws); [done| |];
        by destruct (_handle_disconnect_with_fallback E cid msg' w1). }
    split; [done|]. split; [by exists rate'|]. split; [done|]. split; [done|]. lia.
  - set (w0 := {| mgr := with_rates (insert cid rate') (mgr w);
                  active_polls := active_polls w; wire := wire w;
                  wall_reads := S (wall_reads w); loop_reads := loop_reads w;
                  uuid_reads := uuid_reads w; token_reads := token_reads w |}).
    exists msg, w0. split.
    { unfold bind, ret.
      by destruct (_handle_disconnect_with_fallback E cid msg w0). }
    simpl. split; [done|]. split; [by exists rate'|]. split; [done|].
    split; [done|]. lia.
Qed.

(** X10.  A connection that no user owns is not torn down by a failed
    send: when its socket raises, the send (rate limit passed) writes
    nothing, records no session state, starts no polling, and leaves the
    connection among the active connections. *)
Theorem unowned_connection_survives_failed_send (E : Env) (connection_id : string)
    (msg : message) (ws : WebSocket) (w : World) :
  PyDict.get connection_id (active_connections (mgr w)) = Some ws →
  ws_on_send ws ≠ WriteOk →
  owner_of connection_id (user_connections (mgr w)) = None →
  credit E connection_id 1 w →
  let r := send_personal_message E msg connection_id true w in
  wire r.2 = wire w
  ∧ active_connections (mgr r.2) = active_connections (mgr w)
  ∧ session_state (mgr r.2) = session_state (mgr w)
  ∧ active_polls r.2 = active_polls w
  ∧ message_history (mgr r.2) = message_history (mgr w).
Proof.
  intros Hget Hws Howner Hcredit. cbv zeta.
  destruct (send_falls_back E connection_id msg w Hcredit)
    as (msg' & w1 & -> & _ & [rate' Hmgr] & Hwire & Hpolls & _).
  { by rewrite Hget. }
  unfold _handle_disconnect_with_fallback, bind, get_mgr. simpl.
  rewrite Hmgr. simpl. rewrite Howner. simpl. by rewrite Hmgr.
Qed.

(** ** Reconnecting after a failed send *)

Lemma find_session_set_new user_id cid st : ∀ sessions,
  find_session user_id sessions = None →
  ss_user_id st = user_id →
  find_session user_id (PyDict.set cid st sessions) = Some st.
Proof.
  unfold find_session, PyDict.values.
  induction sessions as [|[k v] ss IH]; simpl; intros Hnone Hu.
  - by rewrite Hu, String.eqb_refl.
  - destruct (String.eqb (ss_user_id v) user_id) eqn:Ev; [done|].
    destruct (String.eqb cid k); simpl.
    + by rewrite Hu, String.eqb_refl.
    + rewrite Ev. by apply IH.
Qed.

Lemma find_session_set_later user_id cid st st' : ∀ sessions,
  find_session user_id sessions = Some st →
  PyDict.get cid sessions = None →
  find_session user_id (PyDict.set cid st' sessions) = Some st.
Proof.
  unfold find_session, PyDict.values.
  induction sessions as [|[k v] ss IH]; simpl; intros Hsome Hget; [done|].
  destruct (String.eqb cid k); [done|]. simpl.
  destruct (String.eqb (ss_user_id v) user_id); [done|]. by apply IH.
Qed.

(** X11.  The reconnect route answers with the first session state of the
    user in the order the states were first recorded: a state recorded
    later under another connection id does not change the answer, so a user
    who lost two connections gets the state of the older loss, not of the
    latest one. *)
Theorem reconnect_returns_oldest_session (m : Manager)
    (user_id reconnect_token connection_id : string) (role : option string)
    (st later : session) :
  find_session user_id (session_state m) = Some st →
  PyDict.get connection_id (session_state m) = None →
  let m' := with_sessions (PyDict.set connection_id later) m in
  reconnect_session m' user_id reconnect_token role
  = reconnect_session m user_id reconnect_token role
  ∧ (reconnect_tokens m !! user_id = Some reconnect_token →
     reconnect_token ≠ ""%string →
     reconnect_session m' user_id reconnect_token role
     = inr {| r_user_id := user_id;
              r_role := if truthy role then role else ss_role st;
              r_last_message := ss_last_message st;
              r_disconnected_at := ss_disconnected_at st |}).
Proof.
  intros Hfind Hget. cbv zeta. unfold reconnect_session. simpl.
  rewrite (find_session_set_later user_id connection_id st later _ Hfind Hget).
  rewrite Hfind. split; [done|]. intros -> Hne. simpl.
  assert (String.eqb reconnect_token "" = false) as -> by by apply String.eqb_neq.
  by rewrite String.eqb_refl.
Qed.

(** X12.  A send that fails on a connection of a user (the socket raises,
    the rate limit passed) leaves what the reconnect route needs: when the
    user has a stored token and no earlier session state, presenting the
    token gets the message that could not be written, as it was stamped, the
    time of the failure and the role of the lost connection (or the role
    asked for). *)
Theorem failed_send_then_reconnect (E : Env) (connection_id : string)
    (msg : message) (ws : WebSocket) (user_id token : string)
    (role : option string) (w : World) :
  PyDict.get connection_id (active_connections (mgr w)) = Some ws →
  ws_on_send ws ≠ WriteOk →
  owner_of connection_id (user_connections (mgr w)) = Some user_id →
  user_id ≠ ""%string →
  credit E connection_id 1 w →
  reconnect_tokens (mgr w) !! user_id = Some token → token ≠ ""%string →
  find_session user_id (session_state (mgr w)) = None →
  let r := send_personal_message E msg connection_id true w in
  ∃ n, (wall_reads w < n)%nat
    ∧ stamped_from msg r.1
    ∧ wire r.2 = wire w
    ∧ active_connections (mgr r.2)
      = PyDict.del connection_id (active_connections (mgr w))
    ∧ reconnect_session (mgr r.2) user_id token role
      = inr {| r_user_id := user_id;
               r_role := if truthy role then role
                         else PyDict.get connection_id (connection_roles (mgr w));
               r_last_message := r.1;
               r_disconnected_at := wall_clock E n |}.
Proof.
  intros Hget Hws Howner Hu Hcredit Htok Htokne Hnone. cbv zeta.
  destruct (send_falls_back E connection_id msg w Hcredit)
    as (msg' & w1 & -> & Hst & [rate' Hmgr] & Hwire & Hpolls & Hreads).
  { by rewrite Hget. }
  rewrite Hget in Hst. simpl.
  assert (owner_of connection_id (user_connections (mgr w1)) = Some user_id)
    as Howner1 by by rewrite Hmgr.
  destruct (fallback_owned E connection_id msg' user_id w1 Howner1 Hu)
    as (Hss & Hact & _ & Hwire' & _).
  pose proof (fallback_keeps_stable E connection_id msg' w1) as Hkeep.
  injection Hkeep as _ _ Htoks _ _.
  exists (wall_reads w1). split; [done|]. split; [done|].
  split; [by rewrite Hwire'|]. split; [by rewrite Hact, Hmgr|].
  unfold reconnect_session. rewrite Htoks, Hmgr. simpl. rewrite Htok. simpl.
  assert (String.eqb token "" = false) as -> by by apply String.eqb_neq.
  rewrite String.eqb_refl. simpl. rewrite Hss, Hmgr. simpl.
  erewrite find_session_set_new; [done|done|done].
Qed.

(** ** Connections that stay listed after they have gone *)

Lemma dict_get_del_none {V} k k' (d : list (string * V)) :
  PyDict.get k d = None → PyDict.get k (PyDict.del k' d) = None.
Proof.
  induction d as [|[k0 v0] d IH]; simpl; [done|].
  destruct (String.eqb k k0) eqn:E; [done|]. intros H.
  destruct (String.eqb k' k0); [done|]. simpl. rewrite E. by apply IH.
Qed.

(** No fallback adds a connection. *)
Lemma fallback_active E cid msg w :
  let w' := (_handle_disconnect_with_fallback E cid msg w).2 in
  active_connections (mgr w') = active_connections (mgr w)
  ∨ active_connections (mgr w') = PyDict.del cid (active_connections (mgr w)).
Proof.
  cbv zeta.
  destruct (owner_of cid (user_connections (mgr w))) as [u|] eqn:Howner.
  - destruct (decide (u = ""%string)) as [->|Hu].
    + left. unfold _handle_disconnect_with_fallback, bind, get_mgr.
      by rewrite Howner.
    + right. by destruct (fallback_owned E cid msg u w Howner Hu) as (_ & -> & _).
  - left. unfold _handle_disconnect_with_fallback, bind, get_mgr. by rewrite Howner.
Qed.

(** No send adds a connection: the active connections are as they were, or
    without the connection sent to. *)
Lemma send_active E cid msg rf w :
  let w' := (send_personal_message E msg cid rf w).2 in
  active_connections (mgr w') = active_connections (mgr w)
  ∨ active_connections (mgr w') = PyDict.del cid (active_connections (mgr w)).
Proof.
  cbv zeta.
  remember (send_personal_message E msg cid rf w) as r eqn:Hr.
  unfold send_personal_message in Hr.
  unfold bind at 1, now_wall in Hr. simpl in Hr.
  unfold bind at 1, lift_mgr in Hr. simpl in Hr.
  assert (∀ m' w2,
            active_connections (mgr
              ((if rf then _handle_disconnect_with_fallback E cid m' else ret ()) w2).2)
            = active_connections (mgr w2)
            ∨ active_connections (mgr
              ((if rf then _handle_disconnect_with_fallback E cid m' else ret ()) w2).2)
            = PyDict.del cid (active_connections (mgr w2))) as Hfb.
  { intros m' w2. destruct rf; [apply fallback_active|by left]. }
  destruct (_check_rate_limit _ cid (mgr w)) as [ok m1] eqn:Hcheck. simpl in Hr.
  destruct ok; simpl in Hr.
  2:{ subst r. simpl. unfold _check_rate_limit in Hcheck.
      destruct (rate_limits (mgr w) !! cid); [|done].
      destruct (0 <? _); [done|]. injection Hcheck as <-.
      destruct (3 <? _); [right; by rewrite disconnect_active_del|by left]. }
  assert (active_connections m1 = active_connections (mgr w)) as Hact.
  { unfold _check_rate_limit in Hcheck.
    destruct (rate_limits (mgr w) !! cid); [|by injection Hcheck as <-].
    destruct (0 <? _); [by injection Hcheck as <-|done]. }
  unfold bind at 1, get_mgr in Hr. simpl in Hr. rewrite Hact in Hr.
  destruct (PyDict.get cid (active_connections (mgr w))) as [ws|].
  - unfold bind at 1 in Hr.
    match type of Hr with
    | context [stamp_message E msg ?w0] =>
        destruct (stamp_message_spec E msg w0) as (_ & Hmgr & _ & _);
        destruct (stamp_message E msg w0) as [msg' w1]
    end.
    simpl in Hmgr.
    destruct (ws_on_send ws).
    + left. subst r. simpl. by rewrite Hmgr.
    + unfold bind in Hr. specialize (Hfb msg' w1).
      match type of Hr with
      | context [let (_, _) := ?x in _] => destruct x as [[] w3]
      end.
      subst r. simpl in *. by rewrite Hmgr, Hact in Hfb.
    + unfold bind in Hr. specialize (Hfb msg' w1).
      match type of Hr with
      | context [let (_, _) := ?x in _] => destruct x as [[] w3]
      end.
      subst r. simpl in *. by rewrite Hmgr, Hact in Hfb.
  - unfold bind in Hr.
    match type of Hr with
    | context [(if rf then _ else _) ?w0] => specialize (Hfb msg w0)
    end.
    match type of Hr with
    | context [let (_, _) := ?x in _] => destruct x as [[] w3]
    end.
    subst r. simpl in *. by rewrite Hact in Hfb.
Qed.

Lemma send_keeps_absent E cid msg rf w c :
  PyDict.get c (active_connections (mgr w)) = None →
  PyDict.get c (active_connections (mgr (send_personal_message E msg cid rf w).2))
  = None.
Proof.
  intros Hc. destruct (send_active E cid msg rf w) as [-> | ->]; [done|].
  by apply dict_get_del_none.
Qed.

(** Sends to connections that are not active write nothing. *)
Lemma send_each_dead E : ∀ cids msg w,
  Forall (λ c, PyDict.get c (active_connections (mgr w)) = None) cids →
  wire (send_each E msg cids w).2 = wire w.
Proof.
  induction cids as [|cid cids IH]; intros msg w Hall; [done|].
  inversion_clear Hall as [|? ? Hcid Hrest].
  simpl. unfold bind.
  destruct (send_any E cid msg true w) as [_ Hwire].
  pose proof (λ c, send_keeps_absent E cid msg true w c) as Habs.
  destruct (send_personal_message E msg cid true w) as [msg' w1]. simpl in *.
  rewrite IH.
  - destruct Hwire as [Hw|(ws & Hget & _)]; [done|congruence].
  - eapply Forall_impl; [exact Hrest|]. intros c Hc. by apply Habs.
Qed.

(** X13.  An event for a user whose listed connections are all gone from
    the active connections (they were dropped by a failed send or a failed
    broadcast, which leave the user's connection set as it was) is neither
    written to any socket nor queued: the user still counts as connected. *)
Theorem stale_connections_swallow_event (E : Env) (ev : event) (msg : message)
    (user_id : string) (conns : gset string) (w : World) :
  truthy (ev_target_role ev) = false →
  ev_user_id ev = Some user_id → user_id ≠ ""%string →
  PyDict.get user_id (user_connections (mgr w)) = Some conns →
  (∀ cid, cid ∈ conns → PyDict.get cid (active_connections (mgr w)) = None) →
  let w' := (route_event E ev msg w).2 in
  wire w' = wire w ∧ message_queue (mgr w') = message_queue (mgr w).
Proof.
  intros Hrole Hev Hu Hconns Hdead. cbv zeta.
  destruct (route_spec E ev msg w) as [_ Hq]. split.
  - unfold route_event. rewrite Hrole, Hev. simpl.
    assert (String.eqb user_id "" = false) as -> by by apply String.eqb_neq.
    simpl. unfold bind at 1, get_mgr, PyDict.mem. rewrite Hconns.
    unfold bind.
    assert (send_to_user E msg (Some user_id) w
            = send_each E msg (elements conns) w) as ->
      by (unfold send_to_user, bind, get_mgr; simpl; by rewrite Hconns).
    pose proof (send_each_dead E (elements conns) msg w) as Hwire.
    destruct (send_each E msg (elements conns) w) as [msg' w1]. simpl in *.
    apply Hwire. apply Forall_forall. intros c Hc. apply Hdead.
    by apply elem_of_elements.
  - rewrite Hq. unfold offline_target. rewrite Hrole, Hev. simpl.
    assert (String.eqb user_id "" = false) as -> by by apply String.eqb_neq.
    simpl. unfold PyDict.mem. by rewrite Hconns.
Qed.

(** ** What [connect] registers *)

Lemma disconnect_roles cid u m :
  connection_roles (disconnect cid u m) = connection_roles m.
Proof. apply disconnect_frame. Qed.

Lemma disconnect_health cid u m :
  connection_health (disconnect cid u m) = connection_health m.
Proof. apply disconnect_frame. Qed.

Lemma check_keeps_registry now cid :
  keeps registry_of (lift_mgr (_check_rate_limit now cid)).
Proof.
  intros w. unfold lift_mgr, registry_of, _check_rate_limit.
  destruct (rate_limits (mgr w) !! cid) as [rate|]; simpl; [|done].
  destruct (0 <? _); simpl; [done|].
  destruct (3 <? _); simpl; [|done].
  by rewrite disconnect_roles, disconnect_health.
Qed.

Lemma fallback_keeps_registry E cid msg :
  keeps registry_of (_handle_disconnect_with_fallback E cid msg).
Proof.
  unfold _handle_disconnect_with_fallback, start_polling, registry_of.
  keeps_with ltac:(try (intros ?; unfold lift_mgr, modify_mgr, modify_polls, emit,
                          now_wall, now_loop, fresh_uuid, fresh_token; simpl;
                        rewrite ?disconnect_roles, ?disconnect_health; done)).
Qed.

Lemma stamp_keeps_registry E msg : keeps registry_of (stamp_message E msg).
Proof. unfold stamp_message, registry_of. keeps_with keeps_prim. Qed.

Ltac keeps_registry :=
  keeps_with ltac:(first
    [ apply check_keeps_registry | apply fallback_keeps_registry
    | apply stamp_keeps_registry
    | intros ?; unfold registry_of, lift_mgr, modify_mgr, modify_polls, emit,
        now_wall, fresh_uuid, fresh_token; simpl;
      rewrite ?disconnect_roles, ?disconnect_health;
      done ]).

Lemma send_keeps_registry E msg cid rf :
  keeps registry_of (send_personal_message E msg cid rf).
Proof. unfold send_personal_message. keeps_registry. Qed.

Lemma replay_keeps_registry E cid queued : keeps registry_of (replay E queued cid).
Proof.
  induction queued as [|msg rest IH]; simpl; [apply keeps_ret|].
  apply keeps_bind; [apply send_keeps_registry|done].
Qed.

Lemma keeps_pair {A B C} (f : World → B) (g : World → C) (c : M A) :
  keeps f c → keeps g c → keeps (λ w, (f w, g w)) c.
Proof. intros Hf Hg w. by rewrite Hf, Hg. Qed.

Lemma send_keeps_users E msg cid rf :
  keeps (λ w, user_connections (mgr w)) (send_personal_message E msg cid rf).
Proof.
  apply (keeps_compose _ (λ x, x.1.1.1.2) _ (send_keeps_stable E msg cid rf)).
Qed.

Lemma replay_keeps_users E cid queued :
  keeps (λ w, user_connections (mgr w)) (replay E queued cid).
Proof.
  apply (keeps_compose _ (λ x, x.1.1.1.2) _ (replay_keeps_stable E cid queued)).
Qed.

(** The roles, the health records, the loop-clock count and the user index
    through the steps of [connect]. *)
Ltac keeps_index :=
  keeps_with ltac:(first
    [ apply (keeps_pair registry_of (λ w, user_connections (mgr w)));
        [apply send_keeps_registry|apply send_keeps_users]
    | apply (keeps_pair registry_of (λ w, user_connections (mgr w)));
        [apply replay_keeps_registry|apply replay_keeps_users]
    | intros ?; unfold registry_of, lift_mgr, modify_mgr, modify_polls, emit,
        now_wall, fresh_uuid, fresh_token; simpl; done ]).

Lemma connect_index_hoare E ws cid user_id role R H n U :
  ws_accepts ws = true →
  hoare (λ w, (registry_of w, user_connections (mgr w)) = (R, H, n, U))
    (connect E ws cid user_id role)
    (λ _ w',
       connection_roles (mgr w')
       = (if truthy role then PyDict.set cid (default ""%string role) R else R)
       ∧ connection_health (mgr w') = <[cid := fresh_health (loop_clock E n)]> H
       ∧ user_connections (mgr w')
         = (if truthy user_id
            then PyDict.set (default ""%string user_id)
                   (default ∅ (PyDict.get (default ""%string user_id) U) ∪ {[cid]}) U
            else U)).
Proof.
  intros Hacc. unfold connect. rewrite Hacc. simpl.
  set (R' := if truthy role then PyDict.set cid (default ""%string role) R else R).
  set (U' := if truthy user_id
             then PyDict.set (default ""%string user_id)
                    (default ∅ (PyDict.get (default ""%string user_id) U) ∪ {[cid]}) U
             else U).
  eapply hoare_bind; [apply hoare_keeps; keeps_index|intros ?].
  eapply (hoare_bind _ (λ _ w, (registry_of w, user_connections (mgr w))
                               = (R, H, n, U'))).
  { unfold U'. destruct (truthy user_id); [|by intros w Hw].
    eapply (hoare_bind _ (λ _ w, (registry_of w, user_connections (mgr w))
                                 = (R, H, n, _))).
    { intros w Hw. unfold modify_mgr, registry_of in *. simpl.
      injection Hw as -> -> -> ->. reflexivity. }
    intros ?. apply hoare_keeps. keeps_index. }
  intros ?.
  eapply (hoare_bind _ (λ _ w, (registry_of w, user_connections (mgr w))
                               = (R', H, n, U'))).
  { unfold R'. destruct (truthy role); [|by intros w Hw].
    intros w Hw. unfold modify_mgr, registry_of in *. simpl.
    injection Hw as -> -> -> ->. reflexivity. }
  intros ?.
  eapply (hoare_bind _ (λ t w, t = loop_clock E n
                               ∧ (connection_roles (mgr w), connection_health (mgr w),
                                  user_connections (mgr w)) = (R', H, U'))).
  { intros w Hw. unfold now_loop, registry_of in *. simpl.
    injection Hw as -> -> -> ->. done. }
  intros t.
  eapply (hoare_bind _ (λ _ w, (connection_roles (mgr w), connection_health (mgr w),
                                user_connections (mgr w))
                               = (R', <[cid := fresh_health (loop_clock E n)]> H, U'))).
  { intros w [-> Hw]. unfold modify_mgr. simpl.
    injection Hw as -> -> ->. reflexivity. }
  intros ?.
  eapply hoare_weaken;
    [apply (hoare_keeps (λ w, (connection_roles (mgr w), connection_health (mgr w),
                               user_connections (mgr w)))
              (R', <[cid := fresh_health (loop_clock E n)]> H, U'))| |].
  - keeps_with ltac:(first
      [ apply (keeps_compose (λ w, (registry_of w, user_connections (mgr w)))
                 (λ x, (x.1.1.1, x.1.1.2, x.2)));
        apply (keeps_pair registry_of (λ w, user_connections (mgr w)));
          [apply send_keeps_registry|apply send_keeps_users]
      | intros ?; unfold modify_mgr, fresh_token; simpl; done ]).
  - done.
  - intros ? w' Hw'. simpl in Hw'. by injection Hw' as -> -> ->.
Qed.

(** X14.  [connect] on a socket that accepts files the connection under
    its user (the set is created when the user had none), records its role
    when one is given, and gives it a fresh health record dated with the
    loop clock; roles, health records and connection sets of others are as
    they were, however the sends of the queued messages and of the welcome
    went.  On a socket that refuses, [connect] raises and nothing at all is
    changed. *)
Theorem connect_registers (E : Env) (ws : WebSocket) (connection_id : string)
    (user_id role : option string) (w : World) :
  let r := connect E ws connection_id user_id role w in
  if ws_accepts ws then
    r.1 = true
    ∧ connection_roles (mgr r.2)
      = (if truthy role
         then PyDict.set connection_id (default ""%string role)
                (connection_roles (mgr w))
         else connection_roles (mgr w))
    ∧ connection_health (mgr r.2)
      = <[connection_id := fresh_health (loop_clock E (loop_reads w))]>
          (connection_health (mgr w))
    ∧ user_connections (mgr r.2)
      = (if truthy user_id
         then PyDict.set (default ""%string user_id)
                (default ∅ (PyDict.get (default ""%string user_id)
                              (user_connections (mgr w)))
                 ∪ {[connection_id]})
                (user_connections (mgr w))
         else user_connections (mgr w))
  else r = (false, w).
Proof.
  cbv zeta. destruct (ws_accepts ws) eqn:Hacc.
  2:{ unfold connect. by rewrite Hacc. }
  split.
  { unfold connect. rewrite Hacc. simpl. unfold bind.
    repeat match goal with
           | |- context [let (_, _) := ?x in _] => destruct x
           end.
    done. }
  by apply (connect_index_hoare E ws connection_id user_id role
              (connection_roles (mgr w)) (connection_health (mgr w)) (loop_reads w)
              (user_connections (mgr w)) Hacc w).
Qed.

(** ** The user index and the counters *)

Lemma dict_get_elem {V} k (v : V) d :
  NoDup (PyDict.keys d) → (k, v) ∈ d → PyDict.get k d = Some v.
Proof.
  unfold PyDict.keys. induction d as [|[k0 v0] d IH]; simpl; intros Hnd Hin.
  - by apply elem_of_nil in Hin.
  - apply NoDup_cons in Hnd as [Hk0 Hnd].
    apply elem_of_cons in Hin as [[= -> ->]|Hin]; [by rewrite String.eqb_refl|].
    destruct (String.eqb k k0) eqn:E; [|by apply IH].
    apply String.eqb_eq in E. subst k0. exfalso. apply Hk0.
    by apply (list_elem_of_fmap_2 fst _ (k, v)).
Qed.

Lemma disconnect_users cid user_id m :
  user_connections (disconnect cid user_id m)
  = if truthy user_id then
      let u := default ""%string user_id in
      match PyDict.get u (user_connections m) with
      | Some conns =>
          if decide (conns ∖ {[cid]} = ∅)
          then PyDict.del u (user_connections m)
          else PyDict.set u (conns ∖ {[cid]}) (user_connections m)
      | None => user_connections m
      end
    else user_connections m.
Proof.
  unfold disconnect.
  destruct (PyDict.mem cid (active_connections m)); simpl;
    destruct (truthy user_id); simpl; try done;
    match goal with |- context [PyDict.get ?k ?d] => destruct (PyDict.get k d) end;
    try done; case_decide; done.
Qed.

Lemma users_ok_set u conns m ucs :
  users_ok m → conns ≠ ∅ →
  ucs = PyDict.set u conns (user_connections m) →
  NoDup (PyDict.keys ucs)
  ∧ ∀ u' conns', PyDict.get u' ucs = Some conns' → conns' ≠ ∅.
Proof.
  intros [Hnd Hne] Hconns ->. split; [by apply set_keys_NoDup|].
  intros u' conns'. destruct (decide (u = u')) as [->|Hu].
  - rewrite dict_get_set_eq. by intros [= <-].
  - rewrite dict_get_set_ne by done. apply Hne.
Qed.

Lemma users_ok_del u m ucs :
  users_ok m → ucs = PyDict.del u (user_connections m) →
  NoDup (PyDict.keys ucs)
  ∧ ∀ u' conns', PyDict.get u' ucs = Some conns' → conns' ≠ ∅.
Proof.
  intros [Hnd Hne] ->. split; [by apply del_keys_NoDup|].
  intros u' conns'. destruct (decide (u = u')) as [->|Hu].
  - by rewrite dict_get_del_eq.
  - rewrite dict_get_del_ne by done. apply Hne.
Qed.

(** X15.  No user is listed with an empty set of connections, and each user
    is listed once: [connect] and [disconnect] keep the user index that way
    (a set that [disconnect] empties is deleted with its key), so the user
    count of [get_connection_stats] counts only users with a connection id
    to their name. *)
Theorem user_index_invariant (E : Env) (ws : WebSocket)
    (connection_id gone : string) (user_id role leaver : option string) (w : World) :
  users_ok (mgr w) →
  users_ok (mgr (connect E ws connection_id user_id role w).2)
  ∧ users_ok (disconnect gone leaver (mgr w))
  ∧ Forall (λ item, (0 < item.2)%nat) (per_user (get_connection_stats (mgr w))).
Proof.
  intros Hok. split; [|split].
  - destruct (ws_accepts ws) eqn:Hacc.
    2:{ unfold connect. by rewrite Hacc. }
    destruct (connect_index_hoare E ws connection_id user_id role
                (connection_roles (mgr w)) (connection_health (mgr w))
                (loop_reads w) (user_connections (mgr w)) Hacc w eq_refl)
      as (_ & _ & Husers).
    unfold users_ok. rewrite Husers. destruct (truthy user_id); [|done].
    eapply users_ok_set; [done| |done]. set_solver.
  - unfold users_ok. rewrite disconnect_users.
    destruct (truthy leaver); [|done]. cbv zeta.
    destruct (PyDict.get _ (user_connections (mgr w))) as [conns|]; [|done].
    case_decide as Hempty.
    + by eapply users_ok_del.
    + by eapply users_ok_set.
  - destruct Hok as [Hnd Hne]. unfold get_connection_stats. simpl.
    apply Forall_fmap, Forall_forall. intros [u conns] Hin. simpl.
    apply (dict_get_elem _ _ _ Hnd), Hne in Hin.
    assert (size conns ≠ 0%nat); [|lia].
    by apply size_non_empty_iff, (not_iff_compat (leibniz_equiv_iff conns ∅)).
Qed.

(** X16.  [disconnect] lowers the connection count by one when the
    connection was registered and leaves it otherwise; called with the user
    of the connection it lowers that user's connection count by one when the
    user's set listed the connection, and leaves it otherwise. *)
Theorem disconnect_counts (connection_id user_id : string) (m : Manager) :
  NoDup (PyDict.keys (user_connections m)) → user_id ≠ ""%string →
  let m' := disconnect connection_id (Some user_id) m in
  let listed := default ∅ (PyDict.get user_id (user_connections m)) in
  get_connection_count m
  = (get_connection_count m'
     + if PyDict.mem connection_id (active_connections m) then 1 else 0)%nat
  ∧ get_user_connection_count user_id m
    = (get_user_connection_count user_id m'
       + if decide (connection_id ∈ listed) then 1 else 0)%nat.
Proof.
  intros Hnd Hu. cbv zeta. split.
  - unfold get_connection_count. rewrite disconnect_active. unfold PyDict.mem.
    destruct (PyDict.get connection_id (active_connections m)) as [ws|] eqn:Hget;
      [|lia].
    rewrite <- (dict_del_length connection_id ws _ Hget). lia.
  - unfold get_user_connection_count. rewrite disconnect_users. simpl.
    assert (String.eqb user_id "" = false) as -> by by apply String.eqb_neq.
    simpl. destruct (PyDict.get user_id (user_connections m)) as [conns|] eqn:Hget;
      simpl.
    2:{ rewrite Hget. simpl. rewrite decide_False by set_solver. lia. }
    assert (size conns
            = (size (conns ∖ {[connection_id]})
               + if decide (connection_id ∈ conns) then 1 else 0)%nat) as Hsize.
    { case_decide as Hin.
      - rewrite (union_difference_L {[connection_id]} conns) at 1 by set_solver.
        rewrite size_union by set_solver. rewrite size_singleton. lia.
      - replace (conns ∖ {[connection_id]}) with conns by set_solver. lia. }
    destruct (decide (conns ∖ {[connection_id]} = ∅)) as [Hempty|Hempty].
    + rewrite dict_get_del_eq by done. simpl. rewrite Hsize, Hempty.
      by rewrite size_empty.
    + by rewrite dict_get_set_eq.
Qed.

(** ** Notifications and role broadcasts *)




(** ** The heartbeat *)

(** X19.  A turn of the heartbeat on a connection with a health record
    counts one more ping and dates it with the loop clock, whether or not
    the ping was written: the ping goes through the rate limiter and the
    socket like any send, and writes at most one frame, of type ping, to the
    connection's socket.  The loop goes on after the turn, and ends without
    a trace at the first test that finds the connection gone from the
    active connections. *)
Theorem heartbeat_counts_turns (E : Env) (connection_id : string) (h : health)
    (turns : nat) (w : World) :
  connection_health (mgr w) !! connection_id = Some h →
  let r := heartbeat_turn E connection_id w in
  r.1 = true
  ∧ connection_health (mgr r.2)
    = <[connection_id := pinged (loop_clock E (loop_reads w)) h]>
        (connection_health (mgr w))
  ∧ (wire r.2 = wire w
     ∨ ∃ ws ping,
         PyDict.get connection_id (active_connections (mgr w)) = Some ws
         ∧ wire r.2 = wire w ++ [(ws_sock ws, ping)]
         ∧ m_type ping = "ping"%string)
  ∧ (PyDict.mem connection_id (active_connections (mgr w)) = false →
     _connection_heartbeat E connection_id turns w = (tt, w)).
Proof.
  intros Hh. cbv zeta.
  remember (heartbeat_turn E connection_id w) as r eqn:Hr.
  unfold heartbeat_turn in Hr. unfold bind at 1, now_loop in Hr. simpl in Hr.
  set (ping := {| m_type := "ping"; m_message_id := None;
                  m_timestamp := Some (LoopTime (loop_clock E (loop_reads w)));
                  m_fields := [] |}) in Hr.
  set (w0 := {| mgr := mgr w; active_polls := active_polls w; wire := wire w;
                wall_reads := wall_reads w; loop_reads := S (loop_reads w);
                uuid_reads := uuid_reads w; token_reads := token_reads w |}) in Hr.
  unfold bind at 1 in Hr.
  pose proof (send_keeps_registry E ping connection_id true w0) as Hkeep.
  destruct (send_any E connection_id ping true w0) as [_ Hwire].
  destruct (send_personal_message E ping connection_id true w0) as [sent w1].
  unfold registry_of in Hkeep. simpl in Hkeep, Hwire.
  injection Hkeep as _ Hhealth _.
  unfold bind at 1, get_mgr in Hr. rewrite Hhealth, Hh in Hr.
  unfold bind, modify_mgr, ret in Hr. subst r. simpl.
  split; [done|]. split; [by rewrite Hhealth|]. split.
  - destruct Hwire as [Hw|(ws & Hget & Hw & Hty)]; [by left|].
    right. by exists ws, sent.
  - intros Hgone. destruct turns as [|turns]; [done|].
    simpl. unfold bind, get_mgr. by rewrite Hgone.
Qed.

(** ** The receive loop *)

Lemma pong_keeps_outbound E cid ts : keeps outbound_of (handle_pong E cid ts).
Proof.
  unfold handle_pong, outbound_of.
  keeps_with ltac:(try (intros ?; unfold modify_mgr, now_loop; simpl; done)).
Qed.

Lemma receive_loop_keeps_outbound E cid u frames :
  keeps outbound_of (receive_loop E cid u frames).
Proof.
  induction frames as [|[[message|]|] frames IH]; simpl.
  - apply keeps_ret.
  - destruct (json_get "type" message) as [type|]; [|apply keeps_ret].
    destruct (is_str "pong" type).
    { apply keeps_bind; [apply pong_keeps_outbound|done]. }
    destruct (is_str "user_message" type); [apply keeps_ret|done].
  - done.
  - apply keeps_bind; [|intros ?; apply keeps_ret].
    intros w. unfold modify_mgr, outbound_of. simpl.
    rewrite disconnect_rates.
    by destruct (disconnect_frame cid (Some u) (mgr w))
      as (-> & _ & -> & -> & -> & ->).
Qed.

(** X20.  Whatever frames a client sends, the receive loop writes no frame
    and changes no queue, history, token, session state, rate-limit bucket,
    role or polling session: a pong touches health records only, and the
    client's leaving the two indexes that [disconnect] clears. *)
Theorem inbound_frames_write_nothing (E : Env) (connection_id user_id : string)
    (frames : list inbound) (w : World) :
  let w' := (receive_loop E connection_id user_id frames w).2 in
  wire w' = wire w
  ∧ active_polls w' = active_polls w
  ∧ message_queue (mgr w') = message_queue (mgr w)
  ∧ message_history (mgr w') = message_history (mgr w)
  ∧ reconnect_tokens (mgr w') = reconnect_tokens (mgr w)
  ∧ session_state (mgr w') = session_state (mgr w)
  ∧ rate_limits (mgr w') = rate_limits (mgr w)
  ∧ connection_roles (mgr w') = connection_roles (mgr w).
Proof.
  cbv zeta.
  pose proof (receive_loop_keeps_outbound E connection_id user_id frames w) as H.
  unfold outbound_of in H. by injection H as -> -> -> -> -> -> -> ->.
Qed.

Lemma pong_keeps_indexes E cid ts :
  keeps (λ w, (active_connections (mgr w), user_connections (mgr w)))
    (handle_pong E cid ts).
Proof.
  unfold handle_pong.
  keeps_with ltac:(try (intros ?; unfold modify_mgr, now_loop; simpl; done)).
Qed.

(** X21.  The manager forgets a connection only when the client leaves:
    the receive loop ends with the connection removed from the active
    connections and from its user's set in that case, while a loop that ends
    because a frame made the endpoint close the socket (or that is still
    receiving) leaves the connection registered in both indexes. *)
Theorem receive_loop_registration (E : Env) (connection_id user_id : string)
    (frames : list inbound) (w : World) :
  dicts_ok (mgr w) → user_id ≠ ""%string →
  let r := receive_loop E connection_id user_id frames w in
  match r.1 with
  | Disconnected =>
      PyDict.get connection_id (active_connections (mgr r.2)) = None
      ∧ ∀ conns, PyDict.get user_id (user_connections (mgr r.2)) = Some conns →
                 connection_id ∉ conns
  | Receiving | Closed =>
      active_connections (mgr r.2) = active_connections (mgr w)
      ∧ user_connections (mgr r.2) = user_connections (mgr w)
  end.
Proof.
  intros Hok Hu. cbv zeta. revert w Hok.
  induction frames as [|[[message|]|] frames IH]; intros w Hok; simpl.
  - done.
  - destruct (json_get "type" message) as [type|]; [|done].
    destruct (is_str "pong" type).
    2:{ destruct (is_str "user_message" type); [done|by apply IH]. }
    unfold bind.
    pose proof (pong_keeps_indexes E connection_id
                  (default None (json_get "ping_timestamp" message)) w) as Hkeep.
    destruct (handle_pong E connection_id _ w) as [[] w1]. simpl in Hkeep.
    injection Hkeep as Hact Husers.
    assert (dicts_ok (mgr w1)) as Hok1
      by (unfold dicts_ok; by rewrite Hact, Husers).
    specialize (IH w1 Hok1).
    destruct (receive_loop E connection_id user_id frames w1) as [[] w2];
      simpl in *; by rewrite <- ?Hact, <- ?Husers.
  - by apply IH.
  - unfold bind, modify_mgr, ret. simpl. destruct Hok as [Hact Husers]. split.
    + rewrite disconnect_active_del. by apply dict_get_del_eq.
    + intros conns. rewrite disconnect_users. simpl.
      assert (String.eqb user_id "" = false) as -> by by apply String.eqb_neq.
      simpl.
      destruct (PyDict.get user_id (user_connections (mgr w))) as [cs|] eqn:Hget.
      2:{ by rewrite Hget. }
      case_decide as Hempty.
      * by rewrite dict_get_del_eq.
      * rewrite dict_get_set_eq. intros [= <-]. set_solver.
Qed.

(** ** Sends the rate limiter denies, and events the handler drops *)

(** X22.  A send that finds the connection's bucket empty is dropped: the
    message is returned as it was passed (no id, no timestamp), nothing is
    written, queued or added to a history, no session state is recorded and
    no polling starts; the only trace is one more warning on the bucket and,
    from the fourth warning on, the removal of the connection from the
    active connections. *)
Theorem denied_send_is_dropped (E : Env) (connection_id : string) (msg : message)
    (retry_fallback : bool) (rate : rate_data) (w : World) :
  rate_limits (mgr w) !! connection_id = Some rate →
  tokens rate + tokens_to_add (wall_clock E (wall_reads w)) rate ≤ 0 →
  let r := send_personal_message E msg connection_id retry_fallback w in
  r.1 = msg
  ∧ wire r.2 = wire w
  ∧ message_queue (mgr r.2) = message_queue (mgr w)
  ∧ message_history (mgr r.2) = message_history (mgr w)
  ∧ session_state (mgr r.2) = session_state (mgr w)
  ∧ active_polls r.2 = active_polls w
  ∧ (warnings <$> rate_limits (mgr r.2) !! connection_id)
    = Some (warnings rate + 1)
  ∧ active_connections (mgr r.2)
    = (if decide (warnings rate + 1 ≤ 3) then active_connections (mgr w)
       else PyDict.del connection_id (active_connections (mgr w))).
Proof.
  intros Hrate Hempty. cbv zeta.
  remember (send_personal_message E msg connection_id retry_fallback w) as r eqn:Hr.
  unfold send_personal_message in Hr.
  unfold bind at 1, now_wall in Hr. simpl in Hr.
  unfold bind at 1, lift_mgr in Hr. simpl in Hr.
  unfold _check_rate_limit in Hr. rewrite Hrate in Hr.
  assert ((0 <? Z.min max_messages_per_minute
                  (tokens rate + tokens_to_add (wall_clock E (wall_reads w)) rate))
          = false) as Hdeny by (apply Z.ltb_ge; lia).
  rewrite Hdeny in Hr. simpl in Hr. subst r. simpl.
  split; [done|]. split; [done|].
  destruct (3 <? warnings rate + 1) eqn:Hev.
  - apply Z.ltb_lt in Hev. rewrite decide_False by lia.
    rewrite disconnect_rates, disconnect_active_del. simpl.
    rewrite lookup_insert_eq.
    by destruct (disconnect_frame connection_id None
         (with_rates (insert connection_id
            {| tokens := Z.min max_messages_per_minute
                 (tokens rate + tokens_to_add (wall_clock E (wall_reads w)) rate);
               last_update := wall_clock E (wall_reads w);
               warnings := warnings rate + 1 |}) (mgr w)))
      as (_ & _ & -> & -> & _ & ->).
  - apply Z.ltb_ge in Hev. rewrite decide_True by lia. simpl.
    by rewrite lookup_insert_eq.
Qed.

(** X23.  An event without a type, or an application status change whose
    payload is not an object, is dropped by the handler before it is routed:
    nothing is written, nothing is queued (not even for the user the event
    names) and the sweep of the queue does not run. *)
Theorem malformed_event_is_dropped (E : Env) (ev : event) (w : World) :
  ev_event_type ev = None
  ∨ (ev_event_type ev = Some "application_status_changed"%string
     ∧ ∀ fields, default (JObj []) (ev_payload ev) ≠ JObj fields) →
  let w' := (_handle_redis_event E ev w).2 in
  mgr w' = mgr w ∧ wire w' = wire w ∧ active_polls w' = active_polls w
  ∧ loop_reads w' = S (loop_reads w).
Proof.
  intros Hbad. cbv zeta. unfold _handle_redis_event, bind at 1, now_loop. simpl.
  destruct Hbad as [-> | [-> Hpay]]; [done|].
  unfold bind, dispatch_event. simpl.
  destruct (default (JObj []) (ev_payload ev)) as [| | | | |fields]; try done.
  by destruct (Hpay fields).
Qed.

(** ** Replay over a socket that raises *)

Lemma send_unwritable E cid msg rf w :
  unwritable cid w →
  let w' := (send_personal_message E msg cid rf w).2 in
  unwritable cid w' ∧ wire w' = wire w
  ∧ message_queue (mgr w') = message_queue (mgr w).
Proof.
  intros [Hnd Hdead]. cbv zeta. split; [|split].
  - destruct (send_active E cid msg rf w) as [Hact|Hact];
      unfold unwritable; rewrite Hact; [done|].
    split; [by apply del_keys_NoDup|]. by rewrite dict_get_del_eq.
  - remember (send_personal_message E msg cid rf w) as r eqn:Hr.
    unfold send_personal_message in Hr.
    unfold bind at 1, now_wall in Hr. simpl in Hr.
    unfold bind at 1, lift_mgr in Hr. simpl in Hr.
    assert (∀ m' w2, wire
              ((if rf then _handle_disconnect_with_fallback E cid m' else ret ()) w2).2
            = wire w2) as Hfb.
    { intros m' w2. destruct rf; [|done].
      pose proof (fallback_keeps_history E cid m' w2) as H. by injection H. }
    destruct (_check_rate_limit _ cid (mgr w)) as [ok m1] eqn:Hcheck. simpl in Hr.
    destruct ok; simpl in Hr; [|by subst r].
    assert (active_connections m1 = active_connections (mgr w)) as Hact.
    { unfold _check_rate_limit in Hcheck.
      destruct (rate_limits (mgr w) !! cid); [|by injection Hcheck as <-].
      destruct (0 <? _); [by injection Hcheck as <-|done]. }
    unfold bind at 1, get_mgr in Hr. simpl in Hr. rewrite Hact in Hr.
    destruct (PyDict.get cid (active_connections (mgr w))) as [ws|] eqn:Hget.
    + specialize (Hdead ws eq_refl). unfold bind at 1 in Hr.
      match type of Hr with
      | context [stamp_message E msg ?w0] =>
          destruct (stamp_message_spec E msg w0) as (_ & _ & Hwire & _);
          destruct (stamp_message E msg w0) as [msg' w1]
      end.
      simpl in Hwire.
      destruct (ws_on_send ws); [done| |];
        unfold bind in Hr; specialize (Hfb msg' w1);
        match type of Hr with
        | context [let (_, _) := ?x in _] => destruct x as [[] w3]
        end;
        subst r; simpl in *; by rewrite Hfb, Hwire.
    + unfold bind in Hr.
      match type of Hr with
      | context [(if rf then _ else _) ?w0] => specialize (Hfb msg w0)
      end.
      match type of Hr with
      | context [let (_, _) := ?x in _] => destruct x as [[] w3]
      end.
      subst r. simpl in *. by rewrite Hfb.
  - pose proof (send_keeps_stable E msg cid rf w) as H. by injection H.
Qed.

Lemma replay_unwritable E cid queued : ∀ w,
  unwritable cid w →
  let w' := (replay E queued cid w).2 in
  unwritable cid w' ∧ wire w' = wire w
  ∧ message_queue (mgr w') = message_queue (mgr w).
Proof.
  induction queued as [|msg rest IH]; intros w Hw; [done|].
  cbv zeta. simpl. unfold bind.
  destruct (send_unwritable E cid msg true w Hw) as (Hw1 & Hwire & Hq).
  destruct (send_personal_message E msg cid true w) as [msg' w1]. simpl in *.
  destruct (IH w1 Hw1) as (Hw2 & Hwire' & Hq').
  split; [done|]. split; congruence.
Qed.

(** X24.  [connect] takes the user's queue out of the manager before it
    replays it: over a socket that accepts the connection but raises on
    every write, none of the queued messages (nor the welcome) is written,
    and the user has no queue afterwards, so the queued messages are lost. *)
Theorem failed_replay_loses_queue (E : Env) (ws : WebSocket)
    (connection_id user_id : string) (role : option string)
    (queued : list message) (w : World) :
  ws_accepts ws = true → ws_on_send ws ≠ WriteOk → user_id ≠ ""%string →
  NoDup (PyDict.keys (active_connections (mgr w))) →
  NoDup (PyDict.keys (message_queue (mgr w))) →
  PyDict.get user_id (message_queue (mgr w)) = Some queued →
  let w' := (connect E ws connection_id (Some user_id) role w).2 in
  wire w' = wire w
  ∧ message_queue (mgr w') = PyDict.del user_id (message_queue (mgr w))
  ∧ PyDict.get user_id (message_queue (mgr w')) = None.
Proof.
  intros Hacc Hws Hu Hnd Hndq Hq.
  set (Q := λ w0 : World,
         unwritable connection_id w0 ∧ wire w0 = wire w
         ∧ message_queue (mgr w0) = PyDict.del user_id (message_queue (mgr w))).
  assert (hoare (λ w0, w0 = w) (connect E ws connection_id (Some user_id) role)
            (λ _ w', Q w')) as Hrun.
  { unfold connect. rewrite Hacc. simpl.
    assert (String.eqb user_id "" = false) as -> by by apply String.eqb_neq.
    simpl.
    set (P1 := λ w0 : World,
           unwritable connection_id w0 ∧ wire w0 = wire w
           ∧ message_queue (mgr w0) = message_queue (mgr w)).
    eapply (hoare_bind _ (λ _, P1)).
    { intros w0 ->. unfold P1, unwritable, modify_mgr. simpl.
      split; [|done]. split; [by apply set_keys_NoDup|].
      intros ws'. rewrite dict_get_set_eq. by intros [= <-]. }
    intros ?.
    eapply (hoare_bind _ (λ _, Q)).
    { eapply (hoare_bind _ (λ _, P1)).
      { intros w0 Hw0. exact Hw0. }
      intros ?. eapply (hoare_bind _ (λ m w0, P1 w0 ∧ m = mgr w0)).
      { intros w0 Hw0. by split. }
      intros m w0 [(Hun & Hwire & Hqueue) ->]. rewrite Hqueue, Hq.
      unfold bind, modify_mgr at 1. simpl.
      match goal with
      | |- context [replay E queued connection_id ?w1] =>
          destruct (replay_unwritable E connection_id queued w1) as (Hun' & Hw' & Hq')
      end.
      { exact Hun. }
      match goal with
      | |- context [replay E queued connection_id ?w1] =>
          destruct (replay E queued connection_id w1) as [[] w2]
      end.
      simpl in *. unfold Q. by rewrite Hw', Hq', Hqueue. }
    intros ?.
    assert (∀ A (c : M A),
              keeps (λ w0, (active_connections (mgr w0), wire w0,
                            message_queue (mgr w0))) c →
              hoare Q c (λ _, Q)) as Hprim.
    { intros A c Hc w0 (Hun & Hwire & Hqueue). specialize (Hc w0).
      injection Hc as Hact Hw' Hq'. unfold Q, unwritable.
      by rewrite Hact, Hw', Hq'. }
    eapply (hoare_bind _ (λ _, Q)).
    { apply Hprim. destruct (truthy role); by intros w0. }
    intros ?. eapply (hoare_bind _ (λ _, Q)); [apply Hprim; by intros w0|].
    intros ?. eapply (hoare_bind _ (λ _, Q)); [apply Hprim; by intros w0|].
    intros ?. eapply (hoare_bind _ (λ _, Q)).
    { apply Hprim. apply keeps_bind; [by intros w0|]. intros ?. by intros w0. }
    intros ?. eapply (hoare_bind _ (λ _, Q)); [apply Hprim; by intros w0|].
    intros ?. eapply (hoare_bind _ (λ _, Q)); [|intros ? w0 Hw0; exact Hw0].
    intros w0 (Hun & Hwire & Hqueue).
    match goal with
    | |- Q (send_personal_message E ?m connection_id true w0).2 =>
        destruct (send_unwritable E connection_id m true w0 Hun) as (Hun' & Hw' & Hq')
    end.
    unfold Q. by rewrite Hw', Hq'. }
  cbv zeta. destruct (Hrun w eq_refl) as (_ & Hwire & Hqueue).
  split; [done|]. split; [done|]. rewrite Hqueue. by apply dict_get_del_eq.
Qed.

(** ** Updates about a candidate who is not connected *)



(** ** Announcements and job updates *)

Lemma recipients_all items : recipients [] items = items.
Proof.
  unfold recipients. induction items as [|item items IH]; simpl in *; [done|].
  by rewrite IH.
Qed.

(** X26.  A system announcement and a job update go out by broadcast: over
    sockets that all take the write every active connection gets one frame,
    in the order of registration, and the frame is the message as built,
    with the loop clock's reading for a timestamp and no message id; the
    manager is left as it was. *)
Theorem announcements_reach_all (E : Env) (announcement_body : json)
    (job_id : option string) (status : string) (data : json) (w : World) :
  (∀ item, item ∈ active_connections (mgr w) → ws_on_send item.2 = WriteOk) →
  let t := loop_clock E (loop_reads w) in
  let wa := (handle_system_announcement E announcement_body w).2 in
  let wj := (handle_job_update E job_id status data w).2 in
  mgr wa = mgr w
  ∧ wire wa
    = wire w
      ++ frames_to
           {| m_type := "system_announcement"; m_message_id := None;
              m_timestamp := Some (LoopTime t);
              m_fields := [("announcement"%string, announcement_body)] |}
           (active_connections (mgr w))
  ∧ mgr wj = mgr w
  ∧ wire wj
    = wire w
      ++ frames_to
           {| m_type := "job_update"; m_message_id := None;
              m_timestamp := Some (LoopTime t);
              m_fields := [("job_id"%string, opt_json job_id);
                           ("status"%string, JStr status);
                           ("data"%string, data)] |}
           (active_connections (mgr w)).
Proof.
  intros Hall. cbv zeta.
  set (w0 := {| mgr := mgr w; active_polls := active_polls w; wire := wire w;
                wall_reads := wall_reads w; loop_reads := S (loop_reads w);
                uuid_reads := uuid_reads w; token_reads := token_reads w |}).
  assert (∀ msg, mgr (broadcast msg [] w0).2 = mgr w
                 ∧ wire (broadcast msg [] w0).2
                   = wire w ++ frames_to msg (active_connections (mgr w))) as Hb.
  { intros msg.
    destruct (broadcast_loop_healthy (length (active_connections (mgr w0))) msg []
                (active_connections (mgr w0)) w0 eq_refl) as [Hm Hw].
    { apply Forall_forall. intros item Hin _. by apply Hall. }
    unfold broadcast, bind, get_mgr. rewrite Hm, Hw. split; [done|].
    simpl. by rewrite recipients_all. }
  assert (∀ ann, handle_system_announcement E ann w
                 = broadcast
                     {| m_type := "system_announcement"; m_message_id := None;
                        m_timestamp := Some (LoopTime (loop_clock E (loop_reads w)));
                        m_fields := [("announcement"%string, ann)] |} [] w0)
    as -> by reflexivity.
  assert (handle_job_update E job_id status data w
          = broadcast (update_message "job_update" job_id (JStr status) data
                         (loop_clock E (loop_reads w))) [] w0)
    as -> by reflexivity.
  unfold update_message. repeat split; apply Hb.
Qed.

(** ** A user message on the socket, and a second device *)

(** X27.  A frame of type user_message ends the receive loop: the handler
    the endpoint calls for it does not exist on the manager, so the endpoint
    closes the socket; the frames received before it have had their effect,
    the frames after it are never read, and nothing of the connection is
    unregistered. *)
Theorem user_message_ends_loop (E : Env) (connection_id user_id : string)
    (before after : list inbound) (fields : list (string * json)) (w : World) :
  (receive_loop E connection_id user_id before w).1 = Receiving →
  PyDict.get "type" fields = Some (JStr "user_message") →
  receive_loop E connection_id user_id
    (before ++ Text (Some (JObj fields)) :: after) w
  = (Closed, (receive_loop E connection_id user_id before w).2).
Proof.
  intros Hbefore Htype. revert w Hbefore.
  induction before as [|[[message|]|] before IH]; intros w Hbefore; simpl in *.
  - by rewrite Htype.
  - destruct (json_get "type" message) as [type|]; [|done].
    destruct (is_str "pong" type).
    { unfold bind in *.
      destruct (handle_pong E connection_id _ w) as [[] w1]. by apply IH. }
    destruct (is_str "user_message" type); [done|by apply IH].
  - by apply IH.
  - unfold bind, modify_mgr, ret in Hbefore. done.
Qed.

(** X28.  The reconnect token belongs to the user, not to the connection:
    when the user connects again (a second device, say) the token is
    replaced, and the token handed out before is refused from then on. *)
Theorem second_connect_invalidates_token (E : Env) (ws : WebSocket)
    (connection_id user_id old_token : string) (role asked : option string)
    (w : World) :
  ws_accepts ws = true → user_id ≠ ""%string →
  reconnect_tokens (mgr w) !! user_id = Some old_token →
  token_urlsafe E (token_reads w) ≠ old_token →
  let w' := (connect E ws connection_id (Some user_id) role w).2 in
  reconnect_tokens (mgr w') !! user_id = Some (token_urlsafe E (token_reads w))
  ∧ reconnect_session (mgr w') user_id old_token asked = inl Unauthorized
  ∧ (∀ u, u ≠ user_id →
       reconnect_tokens (mgr w') !! u = reconnect_tokens (mgr w) !! u).
Proof.
  intros Hacc Hu Hold Hfresh. cbv zeta.
  pose proof (connect_stores_token E ws connection_id (Some user_id) role w) as Htok.
  rewrite Hacc in Htok. simpl in Htok.
  assert (String.eqb user_id "" = false) as Hne by by apply String.eqb_neq.
  rewrite Hne in Htok. simpl in Htok.
  split; [by rewrite Htok, lookup_insert_eq|]. split.
  - unfold reconnect_session. rewrite Htok, lookup_insert_eq. simpl.
    destruct (String.eqb (token_urlsafe E (token_reads w)) "") eqn:Hempty; [done|].
    simpl.
    assert (String.eqb (token_urlsafe E (token_reads w)) old_token = false) as ->
      by by apply String.eqb_neq.
    done.
  - intros u Hother. rewrite Htok. by rewrite lookup_insert_ne.
Qed.

(** * The theorems on sample states *)

Lemma one_connection_writable : writable demo_env one_connection "c1".
Proof.
  exists (good_socket 1). split; [vm_compute; reflexivity|]. split; [done|].
  assert (rate_limits (mgr one_connection) !! "c1"%string
          = Some {| tokens := 120; last_update := 0; warnings := 0 |}) as Hrate
    by (vm_compute; reflexivity).
  assert (wall_reads one_connection = 2%nat) as Hreads
    by (vm_compute; reflexivity).
  unfold credit. rewrite Hrate, Hreads.
  unfold bucket_ok, max_messages_per_minute. simpl. lia.
Qed.

Lemma one_connection_dicts_ok : dicts_ok (mgr one_connection).
Proof. split; apply (bool_decide_unpack _); vm_compute; exact I. Qed.

Lemma one_connection_active :
  active_connections (mgr one_connection) = [("c1"%string, good_socket 1)].
Proof. vm_compute. reflexivity. Qed.


Lemma eviction_at_fourth_denial_witness :
  NoDup (PyDict.keys (active_connections accepted_only))
  ∧ rate_limits accepted_only !! "c1"%string = None
  ∧ active_connections (run_checks "c1" (replicate 125 0) accepted_only).2
    = (if decide (denials (run_checks "c1" (replicate 125 0%Z) accepted_only).1 ≤ 3)%nat
       then active_connections accepted_only
       else PyDict.del "c1" (active_connections accepted_only)).
Proof.
  assert (NoDup (PyDict.keys (active_connections accepted_only))) as Hnd
    by (apply (bool_decide_unpack _); vm_compute; exact I).
  assert (rate_limits accepted_only !! "c1"%string = None) as Hrate
    by reflexivity.
  split; [exact Hnd|]. split; [exact Hrate|].
  pose proof (eviction_at_fourth_denial "c1" (replicate 125 0) accepted_only
                Hnd Hrate) as H.
  cbv zeta in H. exact (proj1 H).
Defined.

Lemma fallback_snapshot_witness :
  owner_of "c1" (user_connections (mgr one_connection)) = Some "u1"%string
  ∧ PyDict.get "c1"
      (active_connections
         (mgr (_handle_disconnect_with_fallback demo_env "c1" announcement
                 one_connection).2))
    = None.
Proof.
  assert (owner_of "c1" (user_connections (mgr one_connection))
          = Some "u1"%string) as Howner by (vm_compute; reflexivity).
  split; [exact Howner|].
  pose proof (fallback_snapshot demo_env "c1" announcement "u1" one_connection
                Howner ltac:(discriminate) (proj1 one_connection_dicts_ok)) as H.
  cbv zeta in H. exact (proj1 (proj2 (proj2 H))).
Defined.

Lemma stop_polling_ends_session_witness :
  NoDup (PyDict.keys (active_polls polling_world))
  ∧ PyDict.get "poll_u1_application_0"
      (stop_polling "poll_u1_application_0" (active_polls polling_world))
    = None.
Proof.
  assert (NoDup (PyDict.keys (active_polls polling_world))) as Hnd
    by (apply (bool_decide_unpack _); vm_compute; exact I).
  split; [exact Hnd|].
  pose proof (stop_polling_ends_session demo_env (Some store_monday) true
                "poll_u1_application_0" polling_world Hnd) as H.
  cbv zeta in H. exact (proj1 H).
Defined.

Lemma broadcast_reaches_all_witness :
  (∀ item, item ∈ active_connections (mgr one_connection) →
     item.1 ∉ [] → ws_on_send item.2 = WriteOk)
  ∧ mgr (broadcast announcement [] one_connection).2 = mgr one_connection.
Proof.
  assert (∀ item, item ∈ active_connections (mgr one_connection) →
            item.1 ∉ [] → ws_on_send item.2 = WriteOk) as Hall.
  { intros item Hin _. rewrite one_connection_active in Hin.
    apply list_elem_of_singleton in Hin. by subst. }
  split; [exact Hall|].
  pose proof (broadcast_reaches_all announcement [] one_connection Hall) as H.
  cbv zeta in H. exact (proj1 H).
Defined.

Lemma one_connection_users :
  PyDict.get "u1" (user_connections (mgr one_connection)) = Some {["c1"%string]}.
Proof. vm_compute. reflexivity. Qed.

Lemma one_connection_all_writable :
  ∀ cid, cid ∈ ({["c1"%string]} : gset string) →
         writable demo_env one_connection cid.
Proof.
  intros cid Hc. apply elem_of_singleton in Hc. subst.
  apply one_connection_writable.
Qed.

Lemma send_to_user_delivers_witness :
  monotone demo_env
  ∧ PyDict.get "u1" (user_connections (mgr one_connection)) = Some {["c1"%string]}
  ∧ active_connections
      (mgr (send_to_user demo_env announcement (Some "u1"%string) one_connection).2)
    = active_connections (mgr one_connection).
Proof.
  split; [exact demo_env_monotone|]. split; [exact one_connection_users|].
  pose proof (send_to_user_delivers demo_env announcement "u1" {["c1"%string]}
                one_connection demo_env_monotone one_connection_users
                one_connection_all_writable) as H.
  cbv zeta in H. exact (proj2 (proj2 (proj2 H))).
Defined.

Lemma unowned_connection_survives_failed_send_witness :
  PyDict.get "c7" (active_connections (mgr unowned_broken)) = Some (broken_socket 7)
  ∧ owner_of "c7" (user_connections (mgr unowned_broken)) = None
  ∧ credit demo_env "c7" 1 unowned_broken
  ∧ active_connections
      (mgr (send_personal_message demo_env announcement "c7" true unowned_broken).2)
    = active_connections (mgr unowned_broken).
Proof.
  assert (PyDict.get "c7" (active_connections (mgr unowned_broken))
          = Some (broken_socket 7)) as Hget by (vm_compute; reflexivity).
  assert (owner_of "c7" (user_connections (mgr unowned_broken)) = None) as Howner
    by (vm_compute; reflexivity).
  assert (credit demo_env "c7" 1 unowned_broken) as Hcredit.
  { assert (rate_limits (mgr unowned_broken) !! "c7"%string
            = Some {| tokens := 120; last_update := 0; warnings := 0 |}) as Hrate
      by (vm_compute; reflexivity).
    assert (wall_reads unowned_broken = 2%nat) as Hreads
      by (vm_compute; reflexivity).
    unfold credit. rewrite Hrate, Hreads.
    unfold bucket_ok, max_messages_per_minute. simpl. lia. }
  split; [exact Hget|]. split; [exact Howner|]. split; [exact Hcredit|].
  pose proof (unowned_connection_survives_failed_send demo_env "c7" announcement
                (broken_socket 7) unowned_broken Hget ltac:(discriminate) Howner
                Hcredit) as H.
  cbv zeta in H. exact (proj1 (proj2 H)).
Defined.

Lemma reconnect_returns_oldest_session_witness :
  find_session "u1" (session_state one_lost_session) = Some lost_c1
  ∧ PyDict.get "c2" (session_state one_lost_session) = None
  ∧ reconnect_session (with_sessions (PyDict.set "c2" lost_c1) one_lost_session)
      "u1" "token-0" None
    = reconnect_session one_lost_session "u1" "token-0" None.
Proof.
  assert (find_session "u1" (session_state one_lost_session) = Some lost_c1)
    as Hfind by reflexivity.
  assert (PyDict.get "c2" (session_state one_lost_session) = None) as Hget
    by reflexivity.
  split; [exact Hfind|]. split; [exact Hget|].
  pose proof (reconnect_returns_oldest_session one_lost_session "u1" "token-0" "c2"
                None lost_c1 lost_c1 Hfind Hget) as H.
  cbv zeta in H. exact (proj1 H).
Defined.

Lemma first_socket_broken_credit : credit demo_env "c1" 1 first_socket_broken.
Proof.
  assert (rate_limits (mgr first_socket_broken) !! "c1"%string
          = Some {| tokens := 120; last_update := 0; warnings := 0 |}) as Hrate
    by (vm_compute; reflexivity).
  assert (wall_reads first_socket_broken = 4%nat) as Hreads
    by (vm_compute; reflexivity).
  unfold credit. rewrite Hrate, Hreads.
  unfold bucket_ok, max_messages_per_minute. simpl. lia.
Qed.

Lemma failed_send_then_reconnect_witness :
  PyDict.get "c1" (active_connections (mgr first_socket_broken))
  = Some (broken_socket 1)
  ∧ owner_of "c1" (user_connections (mgr first_socket_broken)) = Some "u1"%string
  ∧ reconnect_tokens (mgr first_socket_broken) !! "u1"%string
    = Some "token-0"%string
  ∧ find_session "u1" (session_state (mgr first_socket_broken)) = None
  ∧ ∃ n reply,
      reconnect_session
        (mgr (send_personal_message demo_env announcement "c1" true
                first_socket_broken).2) "u1" "token-0" None
      = inr reply
      ∧ r_disconnected_at reply = wall_clock demo_env n.
Proof.
  assert (PyDict.get "c1" (active_connections (mgr first_socket_broken))
          = Some (broken_socket 1)) as Hget by (vm_compute; reflexivity).
  assert (owner_of "c1" (user_connections (mgr first_socket_broken))
          = Some "u1"%string) as Howner by (vm_compute; reflexivity).
  assert (reconnect_tokens (mgr first_socket_broken) !! "u1"%string
          = Some "token-0"%string) as Htok by (vm_compute; reflexivity).
  assert (find_session "u1" (session_state (mgr first_socket_broken)) = None)
    as Hnone by (vm_compute; reflexivity).
  split; [exact Hget|]. split; [exact Howner|]. split; [exact Htok|].
  split; [exact Hnone|].
  pose proof (failed_send_then_reconnect demo_env "c1" announcement
                (broken_socket 1) "u1" "token-0" None first_socket_broken
                Hget ltac:(discriminate) Howner ltac:(discriminate)
                first_socket_broken_credit Htok ltac:(discriminate) Hnone) as H.
  cbv zeta in H. destruct H as (n & _ & _ & _ & _ & Hreply).
  exists n. eexists. split; [exact Hreply|]. reflexivity.
Defined.

Lemma stale_connections_swallow_event_witness :
  PyDict.get "u1" (user_connections (mgr after_failed_broadcast))
  = Some {["c1"%string]}
  ∧ PyDict.get "c1" (active_connections (mgr after_failed_broadcast)) = None
  ∧ wire (route_event demo_env notice_u1 announcement after_failed_broadcast).2
    = wire after_failed_broadcast.
Proof.
  assert (PyDict.get "u1" (user_connections (mgr after_failed_broadcast))
          = Some {["c1"%string]}) as Husers by (vm_compute; reflexivity).
  assert (PyDict.get "c1" (active_connections (mgr after_failed_broadcast)) = None)
    as Hgone by (vm_compute; reflexivity).
  split; [exact Husers|]. split; [exact Hgone|].
  pose proof (stale_connections_swallow_event demo_env notice_u1 announcement "u1"
                {["c1"%string]} after_failed_broadcast eq_refl eq_refl
                ltac:(discriminate) Husers) as H.
  cbv zeta in H. apply H.
  intros cid Hc. apply elem_of_singleton in Hc. by subst.
Defined.

Lemma init_users_ok : users_ok (mgr init_world).
Proof. split; [constructor|]. intros u conns. discriminate. Qed.

Lemma user_index_invariant_witness :
  users_ok (mgr init_world) ∧ users_ok (mgr one_connection).
Proof.
  split; [exact init_users_ok|].
  pose proof (user_index_invariant demo_env (good_socket 1) "c1" "c1"
                (Some "u1"%string) (Some "recruiter"%string) None init_world
                init_users_ok) as H.
  exact (proj1 H).
Defined.

Lemma disconnect_counts_witness :
  NoDup (PyDict.keys (user_connections (mgr one_connection)))
  ∧ get_connection_count (mgr one_connection)
    = (get_connection_count (disconnect "c1" (Some "u1"%string) (mgr one_connection))
       + if PyDict.mem "c1" (active_connections (mgr one_connection)) then 1 else 0)%nat.
Proof.
  assert (NoDup (PyDict.keys (user_connections (mgr one_connection)))) as Hnd
    by (apply (bool_decide_unpack _); vm_compute; exact I).
  split; [exact Hnd|].
  pose proof (disconnect_counts "c1" "u1" (mgr one_connection) Hnd
                ltac:(discriminate)) as H.
  cbv zeta in H. exact (proj1 H).
Defined.





Lemma heartbeat_counts_turns_witness :
  connection_health (mgr one_connection) !! "c1"%string = Some (fresh_health 0)
  ∧ (heartbeat_turn demo_env "c1" one_connection).1 = true.
Proof.
  assert (connection_health (mgr one_connection) !! "c1"%string
          = Some (fresh_health 0)) as Hh by (vm_compute; reflexivity).
  split; [exact Hh|].
  pose proof (heartbeat_counts_turns demo_env "c1" (fresh_health 0) 1
                one_connection Hh) as H.
  cbv zeta in H. exact (proj1 H).
Defined.

Lemma receive_loop_registration_witness :
  dicts_ok (mgr one_connection)
  ∧ match (receive_loop demo_env "c1" "u1" [Text None; Gone] one_connection).1 with
    | Disconnected =>
        PyDict.get "c1"
          (active_connections
             (mgr (receive_loop demo_env "c1" "u1" [Text None; Gone]
                     one_connection).2)) = None
        ∧ ∀ conns,
            PyDict.get "u1"
              (user_connections
                 (mgr (receive_loop demo_env "c1" "u1" [Text None; Gone]
                         one_connection).2)) = Some conns →
            "c1"%string ∉ conns
    | Receiving | Closed =>
        active_connections
          (mgr (receive_loop demo_env "c1" "u1" [Text None; Gone] one_connection).2)
        = active_connections (mgr one_connection)
        ∧ user_connections
            (mgr (receive_loop demo_env "c1" "u1" [Text None; Gone]
                    one_connection).2)
          = user_connections (mgr one_connection)
    end.
Proof.
  split; [exact one_connection_dicts_ok|].
  exact (receive_loop_registration demo_env "c1" "u1" [Text None; Gone]
           one_connection one_connection_dicts_ok ltac:(discriminate)).
Defined.

Lemma denied_send_is_dropped_witness :
  rate_limits (mgr drained) !! "c1"%string
  = Some {| tokens := 0; last_update := 0; warnings := 0 |}
  ∧ (send_personal_message demo_env announcement "c1" true drained).1 = announcement.
Proof.
  assert (rate_limits (mgr drained) !! "c1"%string
          = Some {| tokens := 0; last_update := 0; warnings := 0 |}) as Hrate
    by (vm_compute; reflexivity).
  split; [exact Hrate|].
  pose proof (denied_send_is_dropped demo_env "c1" announcement true _ drained Hrate)
    as H.
  cbv zeta in H. apply H. vm_compute. discriminate.
Defined.

Lemma malformed_event_is_dropped_witness :
  mgr (_handle_redis_event demo_env
         {| ev_event_type := None; ev_job_id := None;
            ev_user_id := Some "u1"%string; ev_target_role := None;
            ev_payload := None |} one_connection).2
  = mgr one_connection.
Proof.
  pose proof (malformed_event_is_dropped demo_env
                {| ev_event_type := None; ev_job_id := None;
                   ev_user_id := Some "u1"%string; ev_target_role := None;
                   ev_payload := None |} one_connection
                (or_introl eq_refl)) as H.
  cbv zeta in H. exact (proj1 H).
Defined.

Lemma failed_replay_loses_queue_witness :
  NoDup (PyDict.keys (active_connections (mgr (flood 3 init_world))))
  ∧ NoDup (PyDict.keys (message_queue (mgr (flood 3 init_world))))
  ∧ PyDict.get "u9" (message_queue (mgr (flood 3 init_world)))
    = Some (replicate 3 (event_message frozen notice init_world))
  ∧ wire (connect demo_env (broken_socket 9) "c9" (Some "u9"%string) None
            (flood 3 init_world)).2
    = wire (flood 3 init_world).
Proof.
  assert (NoDup (PyDict.keys (active_connections (mgr (flood 3 init_world)))))
    as Hnd by (apply (bool_decide_unpack _); vm_compute; exact I).
  assert (NoDup (PyDict.keys (message_queue (mgr (flood 3 init_world))))) as Hndq
    by (apply (bool_decide_unpack _); vm_compute; exact I).
  assert (PyDict.get "u9" (message_queue (mgr (flood 3 init_world)))
          = Some (replicate 3 (event_message frozen notice init_world))) as Hq
    by (vm_compute; reflexivity).
  split; [exact Hnd|]. split; [exact Hndq|]. split; [exact Hq|].
  pose proof (failed_replay_loses_queue demo_env (broken_socket 9) "c9" "u9" None _
                (flood 3 init_world) eq_refl ltac:(discriminate)
                ltac:(discriminate) Hnd Hndq Hq) as H.
  cbv zeta in H. exact (proj1 H).
Defined.


Lemma announcements_reach_all_witness :
  (∀ item, item ∈ active_connections (mgr one_connection) →
     ws_on_send item.2 = WriteOk)
  ∧ mgr (handle_system_announcement demo_env (JStr "maintenance at noon")
           one_connection).2
    = mgr one_connection.
Proof.
  assert (∀ item, item ∈ active_connections (mgr one_connection) →
            ws_on_send item.2 = WriteOk) as Hall.
  { intros item Hin. rewrite one_connection_active in Hin.
    apply list_elem_of_singleton in Hin. by subst. }
  split; [exact Hall|].
  pose proof (announcements_reach_all demo_env (JStr "maintenance at noon") None
                "done" JNull one_connection Hall) as H.
  cbv zeta in H. exact (proj1 H).
Defined.

Lemma user_message_ends_loop_witness :
  (receive_loop demo_env "c1" "u1" [Text None] one_connection).1 = Receiving
  ∧ receive_loop demo_env "c1" "u1"
      ([Text None]
       ++ Text (Some (JObj [("type"%string, JStr "user_message")])) :: [Gone])
      one_connection
    = (Closed, (receive_loop demo_env "c1" "u1" [Text None] one_connection).2).
Proof.
  assert ((receive_loop demo_env "c1" "u1" [Text None] one_connection).1
          = Receiving) as Hbefore by reflexivity.
  split; [exact Hbefore|].
  exact (user_message_ends_loop demo_env "c1" "u1" [Text None] [Gone]
           [("type"%string, JStr "user_message")] one_connection Hbefore eq_refl).
Defined.

Lemma second_connect_invalidates_token_witness :
  reconnect_tokens (mgr one_connection) !! "u1"%string = Some "token-0"%string
  ∧ reconnect_session
      (mgr (connect demo_env (good_socket 2) "c2" (Some "u1"%string) None
              one_connection).2) "u1" "token-0" None
    = inl Unauthorized.
Proof.
  assert (reconnect_tokens (mgr one_connection) !! "u1"%string
          = Some "token-0"%string) as Hold by (vm_compute; reflexivity).
  assert (token_urlsafe demo_env (token_reads one_connection) ≠ "token-0"%string)
    as Hfresh by (vm_compute; discriminate).
  split; [exact Hold|].
  pose proof (second_connect_invalidates_token demo_env (good_socket 2) "c2" "u1"
                "token-0" None None one_connection eq_refl ltac:(discriminate)
                Hold Hfresh) as H.
  cbv zeta in H. exact (proj1 (proj2 H)).
Defined.
